(** * OlxListingSync: the automation orchestrator, the connectivity probes
      and the in-memory storage, embedded from the TypeScript sources.

    Sources embedded here:
    - [server/storage.ts], class [MemStorage] (lines 59-370);
    - the [ConnectivityTester] that detects a browser session
      (printed after [storage.ts], lines 578-946);
    - the two variants of [AutomationService] printed after
      [client/src/components/header.tsx]: the one that probes connectivity
      and takes a free OLX code (lines 212-496, module [Probing] below) and
      the one that guards against a second start and simulates the browser
      work (lines 503-859, module [Guarded] below);
    - the browser-driven login probes of the third variant (lines 860-1402).

    JavaScript strings are sequences of UTF-16 code units, numbers that are
    identifiers are [N], progress values and epoch milliseconds are [Z]. *)

From Stdlib Require Import Ascii String DecimalString.
From Stdlib Require Import List NArith ZArith Bool Lia Permutation Sorted.
Import ListNotations.

Set Implicit Arguments.

(* ================================================================== *)
(** ** JavaScript strings *)
(* ================================================================== *)

Module JS.

(** A string is the list of its UTF-16 code units. *)
Definition str := list N.

Fixpoint eqb (a b : str) : bool :=
  match a, b with
  | [], [] => true
  | x :: a', y :: b' => N.eqb x y && eqb a' b'
  | _, _ => false
  end.

(** Decoder of the UTF-8 bytes of a literal of this file into code units
    (one, two and three byte sequences give one unit, four byte sequences a
    surrogate pair). *)
Fixpoint utf16 (bs : list N) : str :=
  match bs with
  | [] => []
  | b :: rest =>
      if (b <? 0x80)%N then b :: utf16 rest
      else if (b <? 0xE0)%N then
        match rest with
        | c :: rest' => ((b mod 32) * 64 + c mod 64)%N :: utf16 rest'
        | [] => [0xFFFD%N]
        end
      else if (b <? 0xF0)%N then
        match rest with
        | c :: d :: rest' =>
            ((b mod 16) * 4096 + (c mod 64) * 64 + d mod 64)%N :: utf16 rest'
        | _ => [0xFFFD%N]
        end
      else
        match rest with
        | c :: d :: e :: rest' =>
            let cp := ((b mod 8) * 262144 + (c mod 64) * 4096
                       + (d mod 64) * 64 + e mod 64)%N in
            let v := (cp - 0x10000)%N in
            (0xD800 + v / 1024)%N :: (0xDC00 + v mod 1024)%N :: utf16 rest'
        | _ => [0xFFFD%N]
        end
  end.

Definition lit (s : string) : str :=
  utf16 (map N_of_ascii (list_ascii_of_string s)).
Arguments lit s%_string.

(** The double quote, for the messages that print one. *)
Definition dq : str := [34%N].

(** [s.startsWith(p)] *)
Fixpoint startsWith (s p : str) : bool :=
  match p, s with
  | [], _ => true
  | _ :: _, [] => false
  | a :: p', b :: s' => N.eqb a b && startsWith s' p'
  end.

(** [s.includes(sub)] *)
Fixpoint includes (s sub : str) : bool :=
  startsWith s sub ||
  match s with
  | [] => false
  | _ :: s' => includes s' sub
  end.

(** White space and line terminators of ECMAScript, as [trim] strips them. *)
Definition isWhiteSpace (c : N) : bool :=
  ((9 <=? c) && (c <=? 13) || (c =? 0x20) || (c =? 0xA0) || (c =? 0x1680)
   || (0x2000 <=? c) && (c <=? 0x200A) || (c =? 0x2028) || (c =? 0x2029)
   || (c =? 0x202F) || (c =? 0x205F) || (c =? 0x3000) || (c =? 0xFEFF))%N.

Fixpoint trimStart (s : str) : str :=
  match s with
  | c :: s' => if isWhiteSpace c then trimStart s' else s
  | [] => []
  end.

Definition trimEnd (s : str) : str := rev (trimStart (rev s)).

(** [s.trim()] *)
Definition trim (s : str) : str := trimEnd (trimStart s).

(** [s.split(sep)] for a separator that is not empty: [skip] counts the
    units of a separator just matched that are still to be passed over,
    [cur] holds the piece being read, reversed. *)
Fixpoint split_go (sep : str) (skip : nat) (cur s : str) : list str :=
  match s with
  | [] => [rev cur]
  | c :: s' =>
      match skip with
      | S k => split_go sep k cur s'
      | O =>
          if startsWith s sep
          then rev cur :: split_go sep (length sep - 1) [] s'
          else split_go sep 0 (c :: cur) s'
      end
  end.

Definition split (s sep : str) : list str := split_go sep 0 [] s.

(** [a[0]] of an array of strings ([undefined] never arises for the result
    of [split], which has at least one piece). *)
Definition first (a : list str) : str := hd [] a.

(** [s.substring(0, n)] *)
Definition substring0 (n : nat) (s : str) : str := firstn n s.

(** [s.substring(n)] *)
Definition substringFrom (n : nat) (s : str) : str := skipn n s.

(** [s.replace(pat, "")] with a string pattern: the first occurrence goes. *)
Fixpoint removeFirst (pat s : str) : str :=
  if startsWith s pat then skipn (length pat) s
  else match s with
       | [] => []
       | c :: s' => c :: removeFirst pat s'
       end.

Definition isDigit (c : N) : bool := ((48 <=? c) && (c <=? 57))%N.

(** [s.match(/^[0-9]+$/)] is not null *)
Definition allDigits (s : str) : bool :=
  match s with
  | [] => false
  | _ => forallb isDigit s
  end.

(** Decimal rendering of a natural number, as a template literal prints
    it. *)
Definition showN (n : N) : str :=
  lit (NilZero.string_of_uint (N.to_uint n)).

Definition showNat (n : nat) : str := showN (N.of_nat n).

(** Lower-casing of the ASCII letters; the non-ASCII units are kept.  It
    agrees with [toLowerCase] on ASCII text and is used to run the probes on
    concrete pages. *)
Definition asciiLower (s : str) : str :=
  map (fun c => if ((65 <=? c) && (c <=? 90))%N then (c + 32)%N else c) s.

Definition concat (l : list str) : str := List.concat l.

End JS.

Import JS.

(** What a [catch] clause receives: an [Error] object with its message, or any
    other thrown value with the text [String(value)] gives. *)
Inductive exn : Type :=
| JsError (message : str)
| JsThrown (text : str).

(** [error instanceof Error ? error.message : fallback] *)
Definition messageOr (fallback : str) (e : exn) : str :=
  match e with
  | JsError m => m
  | JsThrown _ => fallback
  end.

(** [String(error)], also what a template literal prints for it. *)
Definition stringOf (e : exn) : str :=
  match e with
  | JsError m => lit "Error: " ++ m
  | JsThrown t => t
  end.

Definition LogLine : Type := (str * str)%type.

(** The levels of a log entry. *)
Module Level.
Definition info : str := lit "info".
Definition success : str := lit "success".
Definition warning : str := lit "warning".
Definition error : str := lit "error".
End Level.

(* ================================================================== *)
(** ** Connectivity results *)
(* ================================================================== *)

(** [interface ConnectivityTestResult] *)
Record ConnectivityTestResult : Type := {
  success : bool;
  message : str;
  platform : str;
  timestamp : Z;
  recommendation : option str;
  requiresCredentials : option bool
}.

Definition univenResult (now : Z) (ok : bool) (msg : str) : ConnectivityTestResult :=
  {| success := ok; message := msg; platform := lit "UNIVEN"; timestamp := now;
     recommendation := None; requiresCredentials := None |}.

Definition olxResult (now : Z) (ok : bool) (msg : str) : ConnectivityTestResult :=
  {| success := ok; message := msg; platform := lit "OLX Pro"; timestamp := now;
     recommendation := None; requiresCredentials := None |}.

(* ================================================================== *)
(** ** [ConnectivityTester], the session-detecting variant *)
(* ================================================================== *)

Module ConnectivityTester.

(** *** The response codes of the UNIVEN login (lines 811-921) *)

Definition msgSenhaIncorreta : str :=
  lit "Senha incorreta para UNIVEN. Verifique sua senha e tente novamente.".
Definition msgDadosIncorretos : str :=
  lit "Dados incorretos para UNIVEN. Verifique seu email e senha.".
Definition msgAcessosExcedidos : str :=
  lit "Número de acessos excedeu o contratado no UNIVEN.".
Definition msgCadastroDesativado : str :=
  lit "Cadastro da imobiliária está desativado no UNIVEN.".
Definition msgManutencao : str :=
  lit "Sistema UNIVEN em manutenção. Tente novamente em alguns minutos.".
Definition msgRedirecionamento : str :=
  lit "Login UNIVEN realizado com sucesso! Credenciais válidas e sistema retornou redirecionamento.".
Definition msgErroSistema : str :=
  lit "Erro no sistema UNIVEN ou credenciais inválidas.".
Definition msgCodigoZero : str :=
  lit "Login UNIVEN realizado com sucesso! Credenciais válidas (código 0).".
Definition msgJavaScriptRedirect : str :=
  lit "Login UNIVEN realizado com sucesso! Sistema retornou JavaScript de redirecionamento.".
Definition msgJavaScriptComandos : str :=
  lit "Login UNIVEN realizado com sucesso! Sistema retornou comandos JavaScript válidos.".
Definition msgRespostaComplexa : str :=
  lit "Login UNIVEN aparenta ter sido bem-sucedido. Resposta JavaScript complexa do servidor.".
Definition msgNaoReconhecida (responseCode : str) : str :=
  lit "Resposta não reconhecida do UNIVEN. Sistema pode estar funcionando de forma diferente. Código: "
  ++ dq ++ substring0 30 responseCode ++ lit "..." ++ dq.

(** The byte order mark as the server's text shows it, removed by
    [text.replace] at line 798. *)
Definition bom : str := [0xEF; 0xBB; 0xBF]%N.

Definition loginResponseText (body : str) : str := removeFirst bom body.

(** Lines 812-921: the verdict read off the text of the login response,
    with the log lines written on the way. *)
Definition classifyResponse (now : Z) (responseText : str)
  : ConnectivityTestResult * list LogLine :=
  let trimmedResponse := trim responseText in
  let responseParts := split trimmedResponse (lit "!-!") in
  let responseCode := first responseParts in
  let seen := (Level.info, lit "PASSO 5: Código de resposta UNIVEN: " ++ dq ++ responseCode ++ dq) in
  if eqb responseCode (lit "1") then
    (univenResult now false msgSenhaIncorreta,
     [seen; (Level.error, lit "RESULTADO: Senha incorreta detectada")])
  else if eqb responseCode (lit "2") then
    (univenResult now false msgDadosIncorretos,
     [seen; (Level.error, lit "RESULTADO: Dados incorretos detectados")])
  else if eqb responseCode (lit "3") then
    (univenResult now false msgAcessosExcedidos,
     [seen; (Level.error, lit "RESULTADO: Número de acessos excedido")])
  else if eqb responseCode (lit "4") then
    (univenResult now false msgCadastroDesativado,
     [seen; (Level.error, lit "RESULTADO: Cadastro desativado")])
  else if eqb responseCode (lit "-1") then
    (univenResult now false msgManutencao,
     [seen; (Level.error, lit "RESULTADO: Sistema em manutenção")])
  else if includes responseCode (lit "eval(") || includes responseCode (lit "window.open") then
    (univenResult now true msgRedirecionamento,
     [seen; (Level.info, lit "RESULTADO: Login SUCESSO - JavaScript de redirecionamento detectado")])
  else if eqb responseCode [] || eqb responseCode (lit "erro") then
    (univenResult now false msgErroSistema,
     [seen; (Level.error, lit "RESULTADO: Erro no sistema ou credenciais inválidas")])
  else if eqb (trim responseCode) (lit "0") then
    (univenResult now true msgCodigoZero,
     [seen; (Level.info, lit "RESULTADO: Login SUCESSO - Código " ++ dq ++ lit "0" ++ dq ++ lit " detectado")])
  else if includes responseCode (lit "window.open") || includes responseCode (lit "location.href")
          || includes responseCode (lit "eval(") || includes responseCode (lit "redirect") then
    (univenResult now true msgJavaScriptRedirect,
     [seen; (Level.info, lit "RESULTADO: Login SUCESSO - JavaScript de redirecionamento detectado")])
  else if includes responseCode (lit "parent.") || includes responseCode (lit "top.")
          || includes responseCode (lit "window.") || includes responseCode (lit "document.") then
    (univenResult now true msgJavaScriptComandos,
     [seen; (Level.info, lit "RESULTADO: Login SUCESSO - Comandos JavaScript de interface detectados")])
  else if (30 <? length responseCode) && negb (allDigits responseCode) then
    (univenResult now true msgRespostaComplexa,
     [seen; (Level.info, lit "RESULTADO: Login provavelmente SUCESSO - Resposta JavaScript complexa detectada")])
  else
    ({| success := false; message := msgNaoReconhecida responseCode;
        platform := lit "UNIVEN"; timestamp := now;
        recommendation := Some (lit "manual_verification");
        requiresCredentials := None |},
     [seen; (Level.warning, lit "RESULTADO: Resposta não reconhecida: "
                      ++ dq ++ substring0 50 responseCode ++ lit "..." ++ dq)]).

(** *** [testUnivenConnection] (lines 594-713) *)

(** What [page.goto] gives. *)
Inductive GotoOutcome : Type :=
| GotoThrows (e : exn)
| GotoNull
| GotoStatus (status : N).

(** What the network and the browser answer during one call. *)
Record UnivenSite : Type := {
  importPuppeteer : option exn;   (* [Some e]: [import('puppeteer')] rejects *)
  launchBrowser : option exn;     (* [launch], [newPage] or [setUserAgent] rejects *)
  navigation : GotoOutcome;
  pageUrl : str;
  readBody : option exn;          (* [waitForSelector] or [page.content] rejects *)
  pageHtml : str;
  closeBrowser : option exn;      (* [browser.close] rejects *)
  loginResponseBody : str         (* the answer of verifica_login.php to a login POST *)
}.

Definition msgSessaoAtiva : str :=
  lit "UNIVEN conectado! Sessão ativa detectada no navegador.".
Definition msgInacessivel (status : option N) : str :=
  lit "Site UNIVEN inacessível (Status: "
  ++ match status with Some n => showN n | None => lit "undefined" end
  ++ lit "). Verifique sua conexão.".
Definition msgSemSessao : str :=
  lit "Nenhuma sessão ativa no UNIVEN. Recomendamos fazer login manual no navegador primeiro.".
Definition msgErroConectividade : str :=
  lit "Erro de conectividade com UNIVEN. Verifique sua conexão com a internet.".

Definition sessionIndicators : list str :=
  [lit "sair"; lit "logout"; lit "Meus Imóveis"; lit "Área do Usuário";
   lit "dashboard"; lit "menu-usuario"; lit "Bem-vindo"; lit "Olá,"].

(** The inner [try] of lines 604-702 either returns or falls through to
    line 704. *)
Inductive Phase : Type :=
| Returned (r : ConnectivityTestResult) (logs : list LogLine)
| FellThrough (logs : list LogLine).

Section WithLowerCase.

(** [String.prototype.toLowerCase] of the host. *)
Variable toLowerCase : str -> str.

Definition browserError (e : exn) : LogLine :=
  (Level.warning, lit "PASSO 1: Erro no browser: " ++ messageOr (lit "Erro desconhecido") e).

Definition urlOutsideLogin (currentUrl : str) : bool :=
  includes currentUrl (lit "/dashboard") || includes currentUrl (lit "/imovel/")
  || includes currentUrl (lit "/principal") || includes currentUrl (lit "/home")
  || negb (includes currentUrl (lit "/login")).

Definition hasSessionIndicator (pageContent : str) : bool :=
  existsb (fun indicator => includes (toLowerCase pageContent) (toLowerCase indicator))
          sessionIndicators.

(** Lines 650-692: [Some r] when the function returns [r] from there. *)
Definition detectSession (now : Z) (site : UnivenSite)
  : option ConnectivityTestResult * list LogLine :=
  if urlOutsideLogin (pageUrl site) then
    match readBody site with
    | Some e =>
        (None, [(Level.info, lit "PASSO 1: Erro ao verificar elementos: " ++ messageOr (lit "Erro") e)])
    | None =>
        if hasSessionIndicator (pageHtml site) then
          let found := (Level.info, lit "PASSO 1: ✓ SESSÃO ATIVA DETECTADA no browser!") in
          match closeBrowser site with
          | None =>
              (Some {| success := true; message := msgSessaoAtiva;
                       platform := lit "UNIVEN"; timestamp := now;
                       recommendation := Some (lit "browser_session_active");
                       requiresCredentials := None |},
               [found])
          | Some e =>
              (None, [found; (Level.info, lit "PASSO 1: Erro ao verificar elementos: "
                                    ++ messageOr (lit "Erro") e)])
          end
        else (None, [])
    end
  else (None, []).

Definition browserPhase (now : Z) (site : UnivenSite) : Phase :=
  match launchBrowser site with
  | Some e => FellThrough [browserError e]
  | None =>
      let l1 := [(Level.info, lit "PASSO 1: Navegando para UNIVEN...")] in
      match navigation site with
      | GotoThrows e => FellThrough (l1 ++ [browserError e])
      | GotoNull =>
          Returned (univenResult now false (msgInacessivel None))
                   (l1 ++ [(Level.error, lit "PASSO 1: Site inacessível (Status: undefined)")])
      | GotoStatus status =>
          if negb (status =? 200)%N then
            Returned (univenResult now false (msgInacessivel (Some status)))
                     (l1 ++ [(Level.error, lit "PASSO 1: Site inacessível (Status: "
                                     ++ showN status ++ lit ")")])
          else
            let l2 := l1 ++ [(Level.info, lit "PASSO 1: Site carregado (Status: "
                                    ++ showN status ++ lit ")");
                             (Level.info, lit "PASSO 1: URL atual: " ++ pageUrl site)] in
            match detectSession now site with
            | (Some r, l3) => Returned r (l2 ++ l3)
            | (None, l3) =>
                let l4 := l2 ++ l3
                          ++ [(Level.info, lit "PASSO 1: Nenhuma sessão ativa detectada no browser")] in
                match closeBrowser site with
                | None => FellThrough l4
                | Some e => FellThrough (l4 ++ [browserError e])
                end
            end
      end
  end.

(** The function returns at line 706 whenever the browser phase falls
    through: the login POST of lines 753-921 is never sent, and
    [loginResponseBody] is never read. *)
Definition testUnivenConnection (now : Z) (site : UnivenSite)
  : ConnectivityTestResult * list LogLine :=
  let l0 := [(Level.info, lit "=== INICIANDO TESTE UNIVEN (DETECÇÃO DE SESSÃO BROWSER) ===");
             (Level.info, lit "PASSO 1: Verificando sessão ativa via browser automation...")] in
  match importPuppeteer site with
  | Some e =>
      (univenResult now false msgErroConectividade,
       l0 ++ [(Level.error, lit "ERRO GERAL: " ++ messageOr (lit "Erro desconhecido") e)])
  | None =>
      match browserPhase now site with
      | Returned r logs => (r, l0 ++ logs)
      | FellThrough logs =>
          ({| success := false; message := msgSemSessao;
              platform := lit "UNIVEN"; timestamp := now;
              recommendation := Some (lit "manual_browser_login");
              requiresCredentials := Some false |},
           l0 ++ logs ++ [(Level.info, lit "RESULTADO: Nenhuma sessão ativa detectada")])
      end
  end.

End WithLowerCase.

End ConnectivityTester.

(* ================================================================== *)
(** ** The browser-driven login probes (third variant, lines 966-1040 and
       1287-1368): the verdict read off the page reached after the login
       form was submitted *)
(* ================================================================== *)

Module BrowserProbe.

(** [indicators.filter(indicator => indicator).length] *)
Definition countTrue (indicators : list bool) : nat :=
  length (filter (fun indicator => indicator) indicators).




Section WithLowerCase.

Variable toLowerCase : str -> str.

(** **** UNIVEN (lines 969-1040) *)






(** **** OLX Pro, Canal Pro (lines 1290-1368) *)






End WithLowerCase.



End BrowserProbe.

(* ================================================================== *)
(** ** [Map], the insertion-ordered map of JavaScript *)
(* ================================================================== *)

Module JsMap.

Section Map.

Variables K V : Type.
Variable keq : K -> K -> bool.

(** The entries in insertion order; the keys of a map are distinct. *)
Definition t : Type := list (K * V).

Definition empty : t := [].

Fixpoint get (k : K) (m : t) : option V :=
  match m with
  | [] => None
  | (k', v) :: m' => if keq k k' then Some v else get k m'
  end.

Definition has (k : K) (m : t) : bool :=
  match get k m with Some _ => true | None => false end.

(** [m.set(k, v)]: an existing key keeps its place, a new one goes last. *)
Fixpoint set (k : K) (v : V) (m : t) : t :=
  match m with
  | [] => [(k, v)]
  | (k', v') :: m' => if keq k k' then (k, v) :: m' else (k', v') :: set k v m'
  end.

(** [m.delete(k)] *)
Definition delete (k : K) (m : t) : t :=
  filter (fun kv => negb (keq k (fst kv))) m.

Definition keys (m : t) : list K := map fst m.

(** [Array.from(m.values())] *)
Definition values (m : t) : list V := map snd m.

Definition size (m : t) : nat := length m.

End Map.

End JsMap.

(* ================================================================== *)
(** ** The rows of [shared/schema.ts] *)
(* ================================================================== *)

(** [type AutomationStep] *)
Inductive AutomationStep : Type :=
| connecting_univen
| extracting_data
| downloading_photos
| connecting_olx
| creating_listing
| finalizing.

(** A value of a [jsonb] column or of an optional chain. *)
Inductive JsValue : Type :=
| VUndefined
| VNull
| VBool (b : bool)
| VNum (z : Z)
| VStr (s : str).

(** [!v] is [negb (truthy v)]. *)
Definition truthy (v : JsValue) : bool :=
  match v with
  | VUndefined | VNull => false
  | VBool b => b
  | VNum z => negb (z =? 0)%Z
  | VStr s => negb (eqb s [])
  end.

Module PropertyData.
(** [type PropertyData]; [type] is spelled [type_]. *)
Record t : Type := {
  code : str;
  type_ : str;
  price : Z;
  description : str;
  address : str;
  area : Z;
  bedrooms : option Z;
  bathrooms : option Z;
  photos : list str;
  features : list str
}.
End PropertyData.

Module Automation.
(** A row of [automations].  [univenCode] and [brokerId] are the two columns
    that the [Probing] variant of the service reads from it; [null] is
    [None]. *)
Record t : Type := {
  id : N;
  propertyCode : str;
  olxCode : str;
  univenCode : str;
  brokerId : option N;
  status : str;
  progress : option Z;
  currentStep : option AutomationStep;
  videoUrl : option str;
  tourUrl : option str;
  propertyData : option PropertyData.t;
  errorMessage : option str;
  createdAt : option Z;
  completedAt : option Z
}.

(** [Partial<Automation>] as the service and the tests write it: [None] is
    a key that the object does not have. *)
Record partial : Type := {
  status' : option str;
  progress' : option Z;
  currentStep' : option AutomationStep;
  propertyData' : option PropertyData.t;
  errorMessage' : option str;
  completedAt' : option Z
}.

Definition noUpdates : partial :=
  {| status' := None; progress' := None; currentStep' := None;
     propertyData' := None; errorMessage' := None; completedAt' := None |}.

Definition over {A : Type} (new : option A) (old : option A) : option A :=
  match new with Some v => Some v | None => old end.

(** [{ ...automation, ...updates }] *)
Definition spread (automation : t) (updates : partial) : t :=
  {| id := id automation;
     propertyCode := propertyCode automation;
     olxCode := olxCode automation;
     univenCode := univenCode automation;
     brokerId := brokerId automation;
     status := match status' updates with Some s => s | None => status automation end;
     progress := over (progress' updates) (progress automation);
     currentStep := over (currentStep' updates) (currentStep automation);
     videoUrl := videoUrl automation;
     tourUrl := tourUrl automation;
     propertyData := over (propertyData' updates) (propertyData automation);
     errorMessage := over (errorMessage' updates) (errorMessage automation);
     createdAt := createdAt automation;
     completedAt := over (completedAt' updates) (completedAt automation) |}.
(** [InsertAutomation], the object handed to [createAutomation]: [None] is a
    key that the object does not have, or [undefined] or [null] under it.
    The spread [...insertAutomation] copies every key of the object, the two
    columns that the [Probing] variant reads among them. *)
Record insert : Type := {
  givenPropertyCode : str;
  givenOlxCode : str;
  givenUnivenCode : str;
  givenBrokerId : option N;
  givenStatus : str;
  givenProgress : option Z;
  givenCurrentStep : option AutomationStep;
  givenVideoUrl : option str;
  givenTourUrl : option str;
  givenPropertyData : option PropertyData.t;
  givenErrorMessage : option str
}.

(** [Partial<Automation>] with every key of the row, as the type allows it
    and as the routes hand over what a request carries: [None] is a key that
    the object does not have, and a column that may hold [null] takes
    [Some None] for it. *)
Record fields : Type := {
  setId : option N;
  setPropertyCode : option str;
  setOlxCode : option str;
  setUnivenCode : option str;
  setBrokerId : option (option N);
  setStatus : option str;
  setProgress : option (option Z);
  setCurrentStep : option (option AutomationStep);
  setVideoUrl : option (option str);
  setTourUrl : option (option str);
  setPropertyData : option (option PropertyData.t);
  setErrorMessage : option (option str);
  setCreatedAt : option (option Z);
  setCompletedAt : option (option Z)
}.

(** [{ ...automation, ...updates }] for such an object. *)
Definition assign (automation : t) (updates : fields) : t :=
  let pick := fun (A : Type) (new : option A) (old : A) =>
                match new with Some v => v | None => old end in
  {| id := pick _ (setId updates) (id automation);
     propertyCode := pick _ (setPropertyCode updates) (propertyCode automation);
     olxCode := pick _ (setOlxCode updates) (olxCode automation);
     univenCode := pick _ (setUnivenCode updates) (univenCode automation);
     brokerId := pick _ (setBrokerId updates) (brokerId automation);
     status := pick _ (setStatus updates) (status automation);
     progress := pick _ (setProgress updates) (progress automation);
     currentStep := pick _ (setCurrentStep updates) (currentStep automation);
     videoUrl := pick _ (setVideoUrl updates) (videoUrl automation);
     tourUrl := pick _ (setTourUrl updates) (tourUrl automation);
     propertyData := pick _ (setPropertyData updates) (propertyData automation);
     errorMessage := pick _ (setErrorMessage updates) (errorMessage automation);
     createdAt := pick _ (setCreatedAt updates) (createdAt automation);
     completedAt := pick _ (setCompletedAt updates) (completedAt automation) |}.

(** The object of the six keys, among the objects of any keys. *)
Definition asFields (updates : partial) : fields :=
  {| setId := None; setPropertyCode := None; setOlxCode := None; setUnivenCode := None;
     setBrokerId := None;
     setStatus := status' updates;
     setProgress := option_map Some (progress' updates);
     setCurrentStep := option_map Some (currentStep' updates);
     setVideoUrl := None; setTourUrl := None;
     setPropertyData := option_map Some (propertyData' updates);
     setErrorMessage := option_map Some (errorMessage' updates);
     setCreatedAt := None;
     setCompletedAt := option_map Some (completedAt' updates) |}.

End Automation.

Module OlxCode.
(** A row of [olx_codes]. *)
Record t : Type := {
  id : N;
  code : str;
  brokerId : option N;
  isUsed : bool;
  isHighlighted : bool;
  isActive : bool;
  currentAutomationId : option N;
  univenCode : option str;
  createdAt : option Z
}.

Record partial : Type := {
  isUsed' : option bool;
  isHighlighted' : option bool;
  isActive' : option bool;
  currentAutomationId' : option N;
  univenCode' : option str
}.

Definition over {A : Type} (new : option A) (old : A) : A :=
  match new with Some v => v | None => old end.

(** [{ ...olxCode, ...updates }] *)
Definition spread (olxCode : t) (updates : partial) : t :=
  {| id := id olxCode;
     code := code olxCode;
     brokerId := brokerId olxCode;
     isUsed := over (isUsed' updates) (isUsed olxCode);
     isHighlighted := over (isHighlighted' updates) (isHighlighted olxCode);
     isActive := over (isActive' updates) (isActive olxCode);
     currentAutomationId :=
       match currentAutomationId' updates with
       | Some a => Some a
       | None => currentAutomationId olxCode
       end;
     univenCode :=
       match univenCode' updates with
       | Some u => Some u
       | None => univenCode olxCode
       end;
     createdAt := createdAt olxCode |}.
(** [InsertOlxCode]: [None] is a key that the object does not have, or
    [undefined] or [null] under it. *)
Record insert : Type := {
  givenCode : str;
  givenBrokerId : option N;
  givenIsUsed : option bool;
  givenIsHighlighted : option bool;
  givenIsActive : option bool;
  givenCurrentAutomationId : option N;
  givenUnivenCode : option str
}.

(** [Partial<OlxCode>] with every key of the row: [None] is a key that the
    object does not have, and a column that may hold [null] takes
    [Some None] for it. *)
Record fields : Type := {
  setId : option N;
  setCode : option str;
  setBrokerId : option (option N);
  setIsUsed : option bool;
  setIsHighlighted : option bool;
  setIsActive : option bool;
  setCurrentAutomationId : option (option N);
  setUnivenCode : option (option str);
  setCreatedAt : option (option Z)
}.

(** [{ ...olxCode, ...updates }] for such an object. *)
Definition assign (olxCode : t) (updates : fields) : t :=
  {| id := over (setId updates) (id olxCode);
     code := over (setCode updates) (code olxCode);
     brokerId := over (setBrokerId updates) (brokerId olxCode);
     isUsed := over (setIsUsed updates) (isUsed olxCode);
     isHighlighted := over (setIsHighlighted updates) (isHighlighted olxCode);
     isActive := over (setIsActive updates) (isActive olxCode);
     currentAutomationId := over (setCurrentAutomationId updates) (currentAutomationId olxCode);
     univenCode := over (setUnivenCode updates) (univenCode olxCode);
     createdAt := over (setCreatedAt updates) (createdAt olxCode) |}.

(** The object of the five keys, among the objects of any keys. *)
Definition asFields (updates : partial) : fields :=
  {| setId := None; setCode := None; setBrokerId := None;
     setIsUsed := isUsed' updates;
     setIsHighlighted := isHighlighted' updates;
     setIsActive := isActive' updates;
     setCurrentAutomationId := option_map Some (currentAutomationId' updates);
     setUnivenCode := option_map Some (univenCode' updates);
     setCreatedAt := None |}.

End OlxCode.

(** What a log entry carries as [metadata]: the scraped property, as an object
    or as the text [JSON.stringify] makes of it. *)
Inductive Metadata : Type :=
| MetaObject (p : PropertyData.t)
| MetaJson (p : PropertyData.t).

Module SystemLog.
(** A row of [system_logs]; [timestamp] is epoch milliseconds. *)
Record t : Type := {
  id : N;
  level : str;
  message : str;
  automationId : option N;
  metadata : option Metadata;
  timestamp : Z
}.

(** [InsertSystemLog] *)
Record insert : Type := {
  level' : str;
  message' : str;
  automationId' : option N;
  metadata' : option Metadata
}.
End SystemLog.

Module Settings.
(** A row of [settings]. *)
Record t : Type := {
  id : N;
  key : str;
  value : JsValue;
  updatedAt : Z
}.
End Settings.

(** A [Date]: the time value, or the invalid date that [new Date(text)] gives
    for text it cannot read. *)
Inductive JsDate : Type :=
| ValidDate (ms : Z)
| InvalidDate.

(** [timestamp < olderThan] with [timestamp] a valid date: the comparison of
    the time values, false against [NaN]. *)
Definition before (timestamp : Z) (olderThan : JsDate) : bool :=
  match olderThan with
  | ValidDate ms => (timestamp <? ms)%Z
  | InvalidDate => false
  end.

(* ================================================================== *)
(** ** Arrays: [sort] with a comparator and [slice] *)
(* ================================================================== *)

Module JsArray.

Section Sort.

Variable A : Type.
Variable key : A -> Z.

(** [x] goes in front of the first element whose key is not above its
    own. *)
Fixpoint insertBefore (x : A) (sorted : list A) : list A :=
  match sorted with
  | [] => [x]
  | y :: rest =>
      if (key y <=? key x)%Z then x :: y :: rest
      else y :: insertBefore x rest
  end.

(** [array.sort((a, b) => key(b) - key(a))].  The sort of the language is
    stable: the result is the one arrangement of the elements in which the
    keys never go up and elements with the same key keep their order.  It
    is built here by insertion, from the last element to the first. *)
Definition sortDescending (l : list A) : list A :=
  fold_right insertBefore [] l.

(** [array.slice(0, end_)] for an integer [end_]: a negative [end_] counts
    from the end of the array. *)
Definition slice0 (end_ : Z) (l : list A) : list A :=
  if (end_ <? 0)%Z
  then firstn (Z.to_nat (Z.max (Z.of_nat (length l) + end_) 0)) l
  else firstn (Z.to_nat end_) l.

(** [limit ? array.slice(0, limit) : array]; [None] is [undefined] or
    [NaN]. *)
Definition limited (limit : option Z) (l : list A) : list A :=
  match limit with
  | None => l
  | Some n => if (n =? 0)%Z then l else slice0 n l
  end.

End Sort.

End JsArray.

(* ================================================================== *)
(** ** [MemStorage] ([server/storage.ts], lines 59-370) *)
(* ================================================================== *)

Module MemStorage.

(** The maps of the class and its counters (the brokers, which the
    automation service never reads, are left out). *)
Record t : Type := {
  automations : JsMap.t N Automation.t;
  olxCodes : JsMap.t N OlxCode.t;
  systemLogs : JsMap.t N SystemLog.t;
  settings : JsMap.t str Settings.t;
  currentAutomationId : N;
  currentOlxCodeId : N;
  currentLogId : N;
  currentSettingId : N
}.

Definition withAutomations (m : JsMap.t N Automation.t) (s : t) : t :=
  {| automations := m; olxCodes := olxCodes s; systemLogs := systemLogs s;
     settings := settings s; currentAutomationId := currentAutomationId s;
     currentOlxCodeId := currentOlxCodeId s; currentLogId := currentLogId s;
     currentSettingId := currentSettingId s |}.

Definition withOlxCodes (m : JsMap.t N OlxCode.t) (s : t) : t :=
  {| automations := automations s; olxCodes := m; systemLogs := systemLogs s;
     settings := settings s; currentAutomationId := currentAutomationId s;
     currentOlxCodeId := currentOlxCodeId s; currentLogId := currentLogId s;
     currentSettingId := currentSettingId s |}.

Definition withSystemLogs (m : JsMap.t N SystemLog.t) (nextId : N) (s : t) : t :=
  {| automations := automations s; olxCodes := olxCodes s; systemLogs := m;
     settings := settings s; currentAutomationId := currentAutomationId s;
     currentOlxCodeId := currentOlxCodeId s; currentLogId := nextId;
     currentSettingId := currentSettingId s |}.

Definition withSettings (m : JsMap.t str Settings.t) (nextId : N) (s : t) : t :=
  {| automations := automations s; olxCodes := olxCodes s; systemLogs := systemLogs s;
     settings := m; currentAutomationId := currentAutomationId s;
     currentOlxCodeId := currentOlxCodeId s; currentLogId := currentLogId s;
     currentSettingId := nextId |}.

(** [getAutomation] *)
Definition getAutomation (id : N) (s : t) : option Automation.t :=
  JsMap.get N.eqb id (automations s).

(** [updateAutomation] *)
Definition updateAutomation (id : N) (updates : Automation.partial) (s : t)
  : option Automation.t * t :=
  match JsMap.get N.eqb id (automations s) with
  | None => (None, s)
  | Some automation =>
      let updatedAutomation := Automation.spread automation updates in
      (Some updatedAutomation,
       withAutomations (JsMap.set N.eqb id updatedAutomation (automations s)) s)
  end.

(** [updateAutomation] with an object of any keys of the row: the row is
    stored under the key [id], whatever [id] the object gives it. *)
Definition updateAutomationWith (id : N) (updates : Automation.fields) (s : t)
  : option Automation.t * t :=
  match JsMap.get N.eqb id (automations s) with
  | None => (None, s)
  | Some automation =>
      let updatedAutomation := Automation.assign automation updates in
      (Some updatedAutomation,
       withAutomations (JsMap.set N.eqb id updatedAutomation (automations s)) s)
  end.

(** [code.brokerId === brokerId] *)
Definition sameBroker (a b : option N) : bool :=
  match a, b with
  | Some x, Some y => N.eqb x y
  | None, None => true
  | _, _ => false
  end.

(** [getOlxCodeByCode] *)
Definition getOlxCodeByCode (code : str) (s : t) : option OlxCode.t :=
  find (fun olxCode => eqb (OlxCode.code olxCode) code) (JsMap.values (olxCodes s)).

(** [getAvailableOlxCodes] *)
Definition getAvailableOlxCodes (brokerId : option N) (s : t) : list OlxCode.t :=
  filter (fun code => sameBroker (OlxCode.brokerId code) brokerId
                      && OlxCode.isActive code && negb (OlxCode.isUsed code))
         (JsMap.values (olxCodes s)).

(** [updateOlxCode] *)
Definition updateOlxCode (id : N) (updates : OlxCode.partial) (s : t)
  : option OlxCode.t * t :=
  match JsMap.get N.eqb id (olxCodes s) with
  | None => (None, s)
  | Some olxCode =>
      let updatedOlxCode := OlxCode.spread olxCode updates in
      (Some updatedOlxCode,
       withOlxCodes (JsMap.set N.eqb id updatedOlxCode (olxCodes s)) s)
  end.

(** [updateOlxCode] with an object of any keys of the row. *)
Definition updateOlxCodeWith (id : N) (updates : OlxCode.fields) (s : t)
  : option OlxCode.t * t :=
  match JsMap.get N.eqb id (olxCodes s) with
  | None => (None, s)
  | Some olxCode =>
      let updatedOlxCode := OlxCode.assign olxCode updates in
      (Some updatedOlxCode,
       withOlxCodes (JsMap.set N.eqb id updatedOlxCode (olxCodes s)) s)
  end.

(** [createSystemLog], at the time [now] *)
Definition createSystemLog (now : Z) (insertLog : SystemLog.insert) (s : t)
  : SystemLog.t * t :=
  let log := {| SystemLog.id := currentLogId s;
                SystemLog.level := SystemLog.level' insertLog;
                SystemLog.message := SystemLog.message' insertLog;
                SystemLog.automationId := SystemLog.automationId' insertLog;
                SystemLog.metadata := SystemLog.metadata' insertLog;
                SystemLog.timestamp := now |} in
  (log, withSystemLogs (JsMap.set N.eqb (SystemLog.id log) log (systemLogs s))
                       (currentLogId s + 1)%N s).

(** [deleteSystemLogs]: [None] is a call without a cutoff. *)
Definition deleteSystemLogs (olderThan : option JsDate) (s : t) : nat * t :=
  match olderThan with
  | None =>
      let count := JsMap.size (systemLogs s) in
      (count, withSystemLogs (JsMap.empty N SystemLog.t) (currentLogId s) s)
  | Some olderThan =>
      let logsToDelete :=
        map fst (filter (fun entry => before (SystemLog.timestamp (snd entry)) olderThan)
                        (systemLogs s)) in
      let swept :=
        fold_left (fun (acc : nat * JsMap.t N SystemLog.t) id =>
                     (S (fst acc), JsMap.delete N.eqb id (snd acc)))
                  logsToDelete (O, systemLogs s) in
      (fst swept, withSystemLogs (snd swept) (currentLogId s) s)
  end.

(** [getSettings] *)
Definition getSettings (s : t) : list Settings.t := JsMap.values (settings s).

(** [setSetting], at the time [now]: [existing?.id || this.currentSettingId++] *)
Definition setSetting (now : Z) (key : str) (value : JsValue) (s : t) : Settings.t * t :=
  let existing := JsMap.get eqb key (settings s) in
  let kept := match existing with
              | Some e => if N.eqb (Settings.id e) 0 then None else Some (Settings.id e)
              | None => None
              end in
  let setting := {| Settings.id := match kept with
                                   | Some i => i
                                   | None => currentSettingId s
                                   end;
                    Settings.key := key;
                    Settings.value := value;
                    Settings.updatedAt := now |} in
  (setting,
   withSettings (JsMap.set eqb key setting (settings s))
                (match kept with
                 | Some _ => currentSettingId s
                 | None => (currentSettingId s + 1)%N
                 end) s).

(** [getSetting] *)
Definition getSetting (key : str) (s : t) : option Settings.t :=
  JsMap.get eqb key (settings s).

(** [getAutomations]: [None] is the [TypeError] of [createdAt!.getTime()]
    on a row without [createdAt], which the comparator reads as soon as
    there are two rows to compare. *)
Definition getAutomations (limit : option Z) (s : t) : option (list Automation.t) :=
  let rows := JsMap.values (automations s) in
  if (2 <=? length rows)
     && existsb (fun a => match Automation.createdAt a with
                          | Some _ => false
                          | None => true
                          end) rows
  then None
  else
    let createdAt := fun a => match Automation.createdAt a with
                              | Some time => time
                              | None => 0%Z
                              end in
    Some (JsArray.limited limit (JsArray.sortDescending createdAt rows)).

(** [createAutomation], at the time [now] *)
Definition createAutomation (now : Z) (insertAutomation : Automation.insert) (s : t)
  : Automation.t * t :=
  let automation :=
    {| Automation.id := currentAutomationId s;
       Automation.propertyCode := Automation.givenPropertyCode insertAutomation;
       Automation.olxCode := Automation.givenOlxCode insertAutomation;
       Automation.univenCode := Automation.givenUnivenCode insertAutomation;
       Automation.brokerId := Automation.givenBrokerId insertAutomation;
       Automation.status := Automation.givenStatus insertAutomation;
       Automation.progress :=
         Some (match Automation.givenProgress insertAutomation with
               | Some progress => progress
               | None => 0%Z
               end);
       Automation.currentStep := Automation.givenCurrentStep insertAutomation;
       Automation.videoUrl := Automation.givenVideoUrl insertAutomation;
       Automation.tourUrl := Automation.givenTourUrl insertAutomation;
       Automation.propertyData := Automation.givenPropertyData insertAutomation;
       Automation.errorMessage := Automation.givenErrorMessage insertAutomation;
       Automation.createdAt := Some now;
       Automation.completedAt := None |} in
  (automation,
   {| automations := JsMap.set N.eqb (Automation.id automation) automation (automations s);
      olxCodes := olxCodes s; systemLogs := systemLogs s; settings := settings s;
      currentAutomationId := (currentAutomationId s + 1)%N;
      currentOlxCodeId := currentOlxCodeId s; currentLogId := currentLogId s;
      currentSettingId := currentSettingId s |}).

(** [deleteAutomation] *)
Definition deleteAutomation (id : N) (s : t) : bool * t :=
  (JsMap.has N.eqb id (automations s),
   withAutomations (JsMap.delete N.eqb id (automations s)) s).

(** [getOlxCode] *)
Definition getOlxCode (id : N) (s : t) : option OlxCode.t :=
  JsMap.get N.eqb id (olxCodes s).

(** [getOlxCodes]; [None] is a call without [brokerId], or with [NaN]. *)
Definition getOlxCodes (brokerId : option N) (s : t) : list OlxCode.t :=
  let codes := filter OlxCode.isActive (JsMap.values (olxCodes s)) in
  match brokerId with
  | None => codes
  | Some b =>
      if N.eqb b 0 then codes
      else filter (fun code => sameBroker (OlxCode.brokerId code) (Some b)) codes
  end.

(** [getHighlightedCodes] *)
Definition getHighlightedCodes (brokerId : option N) (s : t) : list OlxCode.t :=
  filter (fun code => sameBroker (OlxCode.brokerId code) brokerId
                      && OlxCode.isActive code && OlxCode.isHighlighted code)
         (JsMap.values (olxCodes s)).

(** The row that [bulkCreateOlxCodes] and the constructor make for a
    code. *)
Definition newCode (now : Z) (id : N) (brokerId : N) (code : str) : OlxCode.t :=
  {| OlxCode.id := id; OlxCode.code := code; OlxCode.brokerId := Some brokerId;
     OlxCode.isUsed := false; OlxCode.isHighlighted := false; OlxCode.isActive := true;
     OlxCode.currentAutomationId := None; OlxCode.univenCode := None;
     OlxCode.createdAt := Some now |}.

Definition withNewOlxCode (olxCode : OlxCode.t) (s : t) : t :=
  {| automations := automations s;
     olxCodes := JsMap.set N.eqb (OlxCode.id olxCode) olxCode (olxCodes s);
     systemLogs := systemLogs s; settings := settings s;
     currentAutomationId := currentAutomationId s;
     currentOlxCodeId := (currentOlxCodeId s + 1)%N; currentLogId := currentLogId s;
     currentSettingId := currentSettingId s |}.

(** [createOlxCode], at the time [now] *)
Definition createOlxCode (now : Z) (insertOlxCode : OlxCode.insert) (s : t)
  : OlxCode.t * t :=
  let olxCode :=
    {| OlxCode.id := currentOlxCodeId s;
       OlxCode.code := OlxCode.givenCode insertOlxCode;
       OlxCode.brokerId := OlxCode.givenBrokerId insertOlxCode;
       OlxCode.isUsed := match OlxCode.givenIsUsed insertOlxCode with
                         | Some b => b
                         | None => false
                         end;
       OlxCode.isHighlighted := match OlxCode.givenIsHighlighted insertOlxCode with
                                | Some b => b
                                | None => false
                                end;
       OlxCode.isActive := match OlxCode.givenIsActive insertOlxCode with
                           | Some b => b
                           | None => true
                           end;
       OlxCode.currentAutomationId := OlxCode.givenCurrentAutomationId insertOlxCode;
       OlxCode.univenCode := OlxCode.givenUnivenCode insertOlxCode;
       OlxCode.createdAt := Some now |} in
  (olxCode, withNewOlxCode olxCode s).

(** [bulkCreateOlxCodes], at the time [now]; [created] is [createdCodes]
    so far. *)
Fixpoint bulkCreateLoop (now : Z) (brokerId : N) (codes : list str)
         (created : list OlxCode.t) (s : t) : list OlxCode.t * t :=
  match codes with
  | [] => (created, s)
  | code :: rest =>
      let olxCode := newCode now (currentOlxCodeId s) brokerId code in
      bulkCreateLoop now brokerId rest (created ++ [olxCode]) (withNewOlxCode olxCode s)
  end.

Definition bulkCreateOlxCodes (now : Z) (brokerId : N) (codes : list str) (s : t)
  : list OlxCode.t * t :=
  bulkCreateLoop now brokerId codes [] s.

(** [deleteOlxCode] *)
Definition deleteOlxCode (id : N) (s : t) : bool * t :=
  (JsMap.has N.eqb id (olxCodes s),
   withOlxCodes (JsMap.delete N.eqb id (olxCodes s)) s).

(** [getSystemLog] *)
Definition getSystemLog (id : N) (s : t) : option SystemLog.t :=
  JsMap.get N.eqb id (systemLogs s).

(** [getSystemLogs]; [None] is a call without the argument. *)
Definition getSystemLogs (limit : option Z) (level : option str) (s : t)
  : list SystemLog.t :=
  let logs := JsMap.values (systemLogs s) in
  let logs := match level with
              | None => logs
              | Some level =>
                  if negb (eqb level []) && negb (eqb level (lit "all"))
                  then filter (fun log => eqb (SystemLog.level log) level) logs
                  else logs
              end in
  JsArray.limited limit (JsArray.sortDescending SystemLog.timestamp logs).

(** The rows of a map are kept under their own ids, each once, and every id
    is below the counter that gives the next one. *)
Definition keyed {V : Type} (idOf : V -> N) (next : N) (m : JsMap.t N V) : Prop :=
  NoDup (JsMap.keys m)
  /\ Forall (fun entry => fst entry = idOf (snd entry) /\ (fst entry < next)%N) m.

(** What the class keeps true of its maps. *)
Definition wellFormed (s : t) : Prop :=
  keyed Automation.id (currentAutomationId s) (automations s)
  /\ keyed OlxCode.id (currentOlxCodeId s) (olxCodes s)
  /\ keyed SystemLog.id (currentLogId s) (systemLogs s)
  /\ NoDup (JsMap.keys (settings s))
  /\ Forall (fun entry => fst entry = Settings.key (snd entry)
                          /\ (Settings.id (snd entry) < currentSettingId s)%N)
            (settings s).

(** The storage that holds nothing yet. *)
Definition blank : t :=
  {| automations := []; olxCodes := []; systemLogs := []; settings := [];
     currentAutomationId := 1; currentOlxCodeId := 1; currentLogId := 1;
     currentSettingId := 1 |}.

(** *** The constructor and [initializeDefaultData] (lines 71-139); the
        brokers are left out, the main broker has the id 1 *)

Definition yourOlxCodes : list str :=
  [lit "HA00011"; lit "HA00012"; lit "HA00013"; lit "HA00014"; lit "HA00015";
   lit "HA00016"; lit "HA00017"; lit "HA00018"; lit "HA00019"; lit "HA00020";
   lit "HA00021"; lit "HA00022"; lit "HA00023"; lit "HA00024"; lit "HA00025";
   lit "HA00026"; lit "HA00040"; lit "HA00041"; lit "HA00042"; lit "HA00043";
   lit "HA00044"; lit "HA00045"; lit "HA00046"; lit "HA00047"; lit "HA00048";
   lit "HA00049"; lit "HA00050"; lit "HA00051"; lit "HA00052"; lit "HA00053";
   lit "HA00054"; lit "HA00055"; lit "HA00056"; lit "HA00057"; lit "HA00058";
   lit "HA00059"; lit "PT01237"; lit "PT01478"; lit "PT01479"; lit "PT01480"].

Definition defaultSettings : list (str * JsValue) :=
  [(lit "autoRetry", VBool true); (lit "downloadPhotos", VBool true);
   (lit "notifications", VBool false); (lit "actionDelay", VNum 3);
   (lit "browserType", VStr (lit "chrome")); (lit "headless", VBool false)].

(** The body of [defaultSettings.forEach]. *)
Definition withDefaultSetting (now : Z) (s : t) (settingData : str * JsValue) : t :=
  let setting := {| Settings.id := currentSettingId s;
                    Settings.key := fst settingData;
                    Settings.value := snd settingData;
                    Settings.updatedAt := now |} in
  withSettings (JsMap.set eqb (fst settingData) setting (settings s))
               (currentSettingId s + 1)%N s.

(** [new MemStorage()], at the time [now]. *)
Definition new (now : Z) : t :=
  fold_left (withDefaultSetting now) defaultSettings
            (snd (bulkCreateLoop now 1 yourOlxCodes [] blank)).

End MemStorage.

(* ================================================================== *)
(** ** The world of one service instance and its computations *)
(* ================================================================== *)

(** The options object handed to [puppeteer.launch]. *)
Record LaunchOptions : Type := {
  headless : bool;
  args : list str
}.

(** A message put on a web socket by [broadcast]. *)
Inductive WsMessage : Type :=
| WsLog (level message : str) (automationId : option N)
        (metadata : option Metadata) (timestamp : Z)
| WsProgress (automationId : N) (step : AutomationStep) (progress : Z)
             (message : str) (timestamp : Z).

(** A client of the web socket server. *)
Record Client : Type := {
  readyStateOpen : bool;
  received : list WsMessage
}.

(** The calls on the collaborators that a run makes. *)
Inductive Call : Type :=
| UpdateAutomation (id : N) (updates : Automation.partial)
| UpdateOlxCode (id : N) (updates : OlxCode.partial)
| TestUnivenConnection (username password : JsValue)
| TestOlxConnection (email password : JsValue)
| Launch (options : LaunchOptions)
| NewPage
| ClosePage.

Record World : Type := {
  storage : MemStorage.t;
  activeAutomations : JsMap.t N bool;    (* [this.activeAutomations] *)
  browser : option bool;                 (* [this.browser]; [Some c]: [isConnected()] is [c] *)
  clients : list Client;                 (* [this.wss.clients] *)
  clock : Z;                             (* what [new Date()] reads *)
  faults : list (option exn);            (* outcomes of the coming browser and file calls *)
  history : list Call                    (* the calls made so far, the latest first *)
}.

Definition withStorage (s : MemStorage.t) (w : World) : World :=
  {| storage := s; activeAutomations := activeAutomations w; browser := browser w;
     clients := clients w; clock := clock w; faults := faults w; history := history w |}.

Definition withActive (m : JsMap.t N bool) (w : World) : World :=
  {| storage := storage w; activeAutomations := m; browser := browser w;
     clients := clients w; clock := clock w; faults := faults w; history := history w |}.

Definition withBrowser (b : option bool) (w : World) : World :=
  {| storage := storage w; activeAutomations := activeAutomations w; browser := b;
     clients := clients w; clock := clock w; faults := faults w; history := history w |}.

Definition withClients (c : list Client) (w : World) : World :=
  {| storage := storage w; activeAutomations := activeAutomations w; browser := browser w;
     clients := c; clock := clock w; faults := faults w; history := history w |}.

Definition withFaults (f : list (option exn)) (w : World) : World :=
  {| storage := storage w; activeAutomations := activeAutomations w; browser := browser w;
     clients := clients w; clock := clock w; faults := f; history := history w |}.

Definition recorded (c : Call) (w : World) : World :=
  {| storage := storage w; activeAutomations := activeAutomations w; browser := browser w;
     clients := clients w; clock := clock w; faults := faults w;
     history := c :: history w |}.

(** How an [async] function settles. *)
Inductive outcome (A : Type) : Type :=
| Ok (a : A)
| Throw (e : exn).
Arguments Ok {A} a.
Arguments Throw {A} e.

(** An [async] function of the service: it runs in a world, changes it and
    settles. *)
Definition M (A : Type) : Type := World -> outcome A * World.

Definition ret {A : Type} (a : A) : M A := fun w => (Ok a, w).

Definition bind {A B : Type} (m : M A) (k : A -> M B) : M B :=
  fun w => match m w with
           | (Ok a, w') => k a w'
           | (Throw e, w') => (Throw e, w')
           end.

Definition throw {A : Type} (e : exn) : M A := fun w => (Throw e, w).

(** [try { m } catch (error) { handler error }] *)
Definition tryCatch {A : Type} (m : M A) (handler : exn -> M A) : M A :=
  fun w => match m w with
           | (Ok a, w') => (Ok a, w')
           | (Throw e, w') => handler e w'
           end.

(** [try { m } finally { cleanup }] *)
Definition tryFinally {A : Type} (m : M A) (cleanup : M unit) : M A :=
  fun w => match m w with
           | (r, w') =>
               match cleanup w' with
               | (Ok _, w'') => (r, w'')
               | (Throw e, w'') => (Throw e, w'')
               end
           end.

Declare Scope async_scope.
Delimit Scope async_scope with async.
Notation "x <- m ;; k" := (bind m (fun x => k))
  (at level 61, m at next level, right associativity) : async_scope.
Notation "m ;; k" := (bind m (fun _ => k))
  (at level 61, right associativity) : async_scope.
Open Scope async_scope.

(** Reading and changing the world. *)
Definition gets {A : Type} (f : World -> A) : M A := fun w => (Ok (f w), w).
Definition modify (f : World -> World) : M unit := fun w => (Ok tt, f w).

(** A call into the browser or the file system: it consumes the next entry of
    [faults] and rejects with it if it is an exception; without entries it
    succeeds. *)
Definition external : M unit :=
  fun w => match faults w with
           | [] => (Ok tt, w)
           | None :: rest => (Ok tt, withFaults rest w)
           | Some e :: rest => (Throw e, withFaults rest w)
           end.

(** [await new Promise(resolve => setTimeout(resolve, ms))] *)
Definition sleep (ms : Z) : M unit := ret tt.

(** *** The storage, seen from the service *)

Definition getAutomation (id : N) : M (option Automation.t) :=
  gets (fun w => MemStorage.getAutomation id (storage w)).

Definition updateAutomation (id : N) (updates : Automation.partial) : M unit :=
  modify (fun w => recorded (UpdateAutomation id updates)
                     (withStorage (snd (MemStorage.updateAutomation id updates (storage w))) w)).

Definition getSettings : M (list Settings.t) :=
  gets (fun w => MemStorage.getSettings (storage w)).

Definition getAvailableOlxCodes (brokerId : option N) : M (list OlxCode.t) :=
  gets (fun w => MemStorage.getAvailableOlxCodes brokerId (storage w)).

Definition getOlxCodeByCode (code : str) : M (option OlxCode.t) :=
  gets (fun w => MemStorage.getOlxCodeByCode code (storage w)).

Definition updateOlxCode (id : N) (updates : OlxCode.partial) : M unit :=
  modify (fun w => recorded (UpdateOlxCode id updates)
                     (withStorage (snd (MemStorage.updateOlxCode id updates (storage w))) w)).

Definition createSystemLog (insertLog : SystemLog.insert) : M unit :=
  modify (fun w => withStorage (snd (MemStorage.createSystemLog (clock w) insertLog (storage w))) w).

(** [settings.find(s => s.key === key)?.value] *)
Definition settingValue (key : str) (settings : list Settings.t) : JsValue :=
  match find (fun s => eqb (Settings.key s) key) settings with
  | Some s => Settings.value s
  | None => VUndefined
  end.

(** [broadcast]: every client whose socket is open receives the message. *)
Definition broadcast (msg : WsMessage) : M unit :=
  modify (fun w =>
            withClients
              (map (fun client =>
                      if readyStateOpen client
                      then {| readyStateOpen := true; received := received client ++ [msg] |}
                      else client)
                   (clients w)) w).

(** [this.activeAutomations] *)
Definition isActive (automationId : N) : M bool :=
  gets (fun w => JsMap.has N.eqb automationId (activeAutomations w)).

Definition setActive (automationId : N) : M unit :=
  modify (fun w => withActive (JsMap.set N.eqb automationId true (activeAutomations w)) w).

Definition deleteActive (automationId : N) : M unit :=
  modify (fun w => withActive (JsMap.delete N.eqb automationId (activeAutomations w)) w).

(** [for (const x of l) await f(x)] *)
Fixpoint forEach {A : Type} (l : list A) (f : A -> M unit) : M unit :=
  match l with
  | [] => ret tt
  | x :: l' => f x ;; forEach l' f
  end.

(* ================================================================== *)
(** ** [ConnectivityTester] of [server/connectivity-test.ts], the variant
       that the service imports: it probes with [fetch] *)
(* ================================================================== *)

Module ConnectivityTest.

(** The two kinds of request that the tester sends: a [HEAD] of a page and
    the [POST] of the login form, whose body is the user name and the
    password. *)
Inductive Request : Type :=
| Head (url : str)
| PostLogin (url : str) (username password : JsValue).

(** How [fetch] settles: with a response, of which the tester reads the
    status, or with a rejection. *)
Inductive FetchOutcome : Type :=
| Response (status : N)
| Rejected (e : exn).

(** [response.ok] *)
Definition ok (status : N) : bool := ((200 <=? status) && (status <=? 299))%N.

Definition msgInacessivel : str :=
  lit "Site UNIVEN inacessível. Verifique sua conexão com a internet.".
Definition msgAcessivel : str :=
  lit "Site UNIVEN acessível. Para melhor resultado, faça login manualmente no navegador antes de usar automações.".
Definition msgValidadas : str := lit "Credenciais validadas com sucesso no UNIVEN.".
Definition msgInvalidas : str := lit "Credenciais inválidas ou erro no login.".
Definition msgNaoValidadas : str :=
  lit "Site UNIVEN acessível, mas não foi possível validar credenciais automaticamente. Recomendamos login manual.".
Definition msgOlxAcessivel : str :=
  lit "OLX Pro está acessível. Recomendamos verificar credenciais fazendo login manual.".
Definition msgOlxInacessivel (status : N) : str :=
  lit "OLX Pro inacessível (Status: " ++ showN status ++ lit ")".
Definition msgOlxErro (errorMsg : str) : str :=
  lit "Erro no teste de conectividade OLX Pro: " ++ errorMsg.

Definition endpoints : list str :=
  [lit "https://univenweb.com.br"; lit "https://www.univenweb.com.br";
   lit "https://univenweb.com.br/login"].

Section WithFetch.

(** The network: what [fetch] gives for a request.  One call of the tester
    sends no request twice. *)
Variable fetch : Request -> FetchOutcome.

(** The loop of lines 42-68 over the endpoints still to try: the values of
    [connectivitySuccess] and [workingEndpoint] after it, and the lines
    logged. *)
Fixpoint tryEndpoints (remaining : list str) : (bool * str) * list LogLine :=
  match remaining with
  | [] => ((false, []), [])
  | endpoint :: rest =>
      let testing := (Level.info, lit "Testando conectividade com " ++ endpoint) in
      match fetch (Head endpoint) with
      | Response status =>
          if ok status then
            ((true, endpoint),
             [testing; (Level.info, lit "Conectividade confirmada com " ++ endpoint)])
          else
            (fst (tryEndpoints rest), testing :: snd (tryEndpoints rest))
      | Rejected error =>
          (fst (tryEndpoints rest),
           testing
           :: (Level.warning, lit "Falha ao conectar com " ++ endpoint ++ lit ": "
                              ++ messageOr (lit "Erro desconhecido") error)
           :: snd (tryEndpoints rest))
      end
  end.

(** [testUnivenConnection] (lines 28-154).  The lines are logged through
    [createSystemLog], which returns for every entry in [MemStorage], so the
    outer [catch] clause of lines 143-153 is not entered. *)
Definition testUnivenConnection (now : Z) (username password : JsValue)
  : ConnectivityTestResult * list LogLine :=
  let l0 := [(Level.info, lit "Iniciando teste de conectividade UNIVEN")] in
  let tried := tryEndpoints endpoints in
  let connectivitySuccess := fst (fst tried) in
  let workingEndpoint := snd (fst tried) in
  if negb connectivitySuccess then
    ({| success := false; message := msgInacessivel; platform := lit "UNIVEN";
        timestamp := now;
        recommendation :=
          Some (lit "Tente novamente em alguns minutos ou verifique se o site está funcionando.");
        requiresCredentials := None |},
     l0 ++ snd tried
     ++ [(Level.error, lit "Falha na conectividade com todos os endpoints UNIVEN")])
  else
    let l1 := l0 ++ snd tried
              ++ [(Level.info, lit "Conectividade básica confirmada com UNIVEN ("
                               ++ workingEndpoint ++ lit ")")] in
    if negb (truthy username) || negb (truthy password) then
      ({| success := true; message := msgAcessivel; platform := lit "UNIVEN";
          timestamp := now;
          recommendation :=
            Some (lit "Abra https://univenweb.com.br em outra aba, faça login, e depois use as automações.");
          requiresCredentials := None |},
       l1 ++ [(Level.info, lit "Teste de conectividade básica concluído com sucesso")])
    else
      let l2 := l1 ++ [(Level.info, lit "Tentando validar credenciais via requisição básica")] in
      match fetch (PostLogin (workingEndpoint ++ lit "/login") username password) with
      | Response status =>
          if ok status then
            (univenResult now true msgValidadas,
             l2 ++ [(Level.info, lit "Login realizado com sucesso")])
          else
            ({| success := false; message := msgInvalidas; platform := lit "UNIVEN";
                timestamp := now;
                recommendation := Some (lit "Verifique suas credenciais e tente novamente.");
                requiresCredentials := None |},
             l2 ++ [(Level.warning, lit "Falha no login: " ++ showN status)])
      | Rejected loginError =>
          ({| success := true; message := msgNaoValidadas; platform := lit "UNIVEN";
              timestamp := now;
              recommendation :=
                Some (lit "Faça login manualmente no navegador para melhor compatibilidade.");
              requiresCredentials := None |},
           l2 ++ [(Level.warning, lit "Erro na validação de credenciais: "
                                  ++ messageOr (lit "Erro desconhecido") loginError)])
      end.

(** [testOlxConnection] (lines 156-200): the rejection of [fetch] is caught
    by the [catch] clause of lines 189-199. *)
Definition testOlxConnection (now : Z) (email password : JsValue)
  : ConnectivityTestResult * list LogLine :=
  let l0 := [(Level.info, lit "Iniciando teste de conectividade OLX Pro")] in
  match fetch (Head (lit "https://pro.olx.com.br/")) with
  | Response status =>
      if ok status then
        ({| success := true; message := msgOlxAcessivel; platform := lit "OLX Pro";
            timestamp := now;
            recommendation :=
              Some (lit "Faça login manualmente no OLX Pro para verificar suas credenciais.");
            requiresCredentials := None |},
         l0 ++ [(Level.info, lit "OLX Pro acessível")])
      else
        (olxResult now false (msgOlxInacessivel status),
         l0 ++ [(Level.warning, lit "OLX Pro retornou status " ++ showN status)])
  | Rejected error =>
      let errorMsg := messageOr (lit "Erro desconhecido") error in
      (olxResult now false (msgOlxErro errorMsg),
       l0 ++ [(Level.error, lit "Erro no teste OLX: " ++ errorMsg)])
  end.

End WithFetch.

End ConnectivityTest.

(* ================================================================== *)
(** ** [AutomationService], the variant that probes connectivity and takes
       a free OLX code (lines 212-496) *)
(* ================================================================== *)

Module Probing.

(** The [ConnectivityTester] that the service imports: each probe answers
    with its result and the lines it logged.  A probe catches whatever it
    runs into and never rejects. *)
Record Tester : Type := {
  testUniven : JsValue -> JsValue -> ConnectivityTestResult * list LogLine;
  testOlx : JsValue -> JsValue -> ConnectivityTestResult * list LogLine
}.

Definition launchOptions : LaunchOptions :=
  {| headless := true;
     args := [lit "--no-sandbox"; lit "--disable-setuid-sandbox";
              lit "--disable-dev-shm-usage"; lit "--disable-accelerated-2d-canvas";
              lit "--no-first-run"; lit "--no-zygote"; lit "--single-process";
              lit "--disable-gpu"] |}.

Definition msgCredenciaisUniven : str := lit "Credenciais UNIVEN não configuradas".
Definition msgCredenciaisOlx : str := lit "Credenciais OLX não configuradas".
Definition msgNenhumCodigo : str := lit "Nenhum código OLX disponível".
Definition msgErroDesconhecido : str := lit "Erro desconhecido".
Definition msgNotFound (automationId : N) : str :=
  lit "Automation " ++ showN automationId ++ lit " not found".
Definition msgFalhaUniven (m : str) : str := lit "Falha na conexão UNIVEN: " ++ m.

Section Service.

Variable tester : Tester.

(** [log] *)
Definition log (level message : str) (automationId : option N)
           (metadata : option PropertyData.t) : M unit :=
  createSystemLog
    {| SystemLog.level' := level;
       SystemLog.message' := message;
       SystemLog.automationId' :=
         match automationId with
         | Some i => if N.eqb i 0 then None else Some i
         | None => None
         end;
       SystemLog.metadata' := option_map MetaJson metadata |} ;;
  now <- gets clock ;;
  broadcast (WsLog level message automationId (option_map MetaObject metadata) now).

(** [updateProgress] *)
Definition updateProgress (automationId : N) (step : AutomationStep)
           (progress : Z) (message : str) : M unit :=
  updateAutomation automationId
    {| Automation.status' := None; Automation.progress' := Some progress;
       Automation.currentStep' := Some step; Automation.propertyData' := None;
       Automation.errorMessage' := None; Automation.completedAt' := None |} ;;
  log Level.info message (Some automationId) None ;;
  now <- gets clock ;;
  broadcast (WsProgress automationId step progress message now).

(** [getBrowser] *)
Definition getBrowser : M unit :=
  b <- gets browser ;;
  match b with
  | Some true => ret tt
  | _ =>
      settings <- getSettings ;;
      let headlessSetting := settingValue (lit "headless") settings in
      let browserTypeSetting := settingValue (lit "browserType") settings in
      let headless := match headlessSetting with
                      | VUndefined | VNull => VBool false
                      | v => v
                      end in
      let browserType := match browserTypeSetting with
                         | VUndefined | VNull => VStr (lit "chrome")
                         | v => v
                         end in
      modify (recorded (Launch launchOptions)) ;;
      external ;;
      modify (withBrowser (Some true))
  end.

(** A probe of the tester: the call, the lines it logs through
    [createSystemLog], its result. *)
Definition probe (call : Call) (answer : ConnectivityTestResult * list LogLine)
  : M ConnectivityTestResult :=
  modify (recorded call) ;;
  forEach (snd answer)
          (fun line => createSystemLog
                         {| SystemLog.level' := fst line;
                            SystemLog.message' := snd line;
                            SystemLog.automationId' := None;
                            SystemLog.metadata' := None |}) ;;
  ret (fst answer).

(** [extractPropertyData] *)
Definition extractPropertyData (propertyCode : str) (automationId : N)
  : M PropertyData.t :=
  log Level.info (lit "Extraindo dados para o código: " ++ propertyCode) (Some automationId) None ;;
  let propertyData :=
    {| PropertyData.code := propertyCode;
       PropertyData.type_ := lit "Apartamento";
       PropertyData.price := 350000;
       PropertyData.description := lit "Excelente apartamento em localização privilegiada";
       PropertyData.address := lit "Rua das Flores, 123 - Centro";
       PropertyData.area := 85;
       PropertyData.bedrooms := Some 2%Z;
       PropertyData.bathrooms := Some 1%Z;
       PropertyData.photos := [];
       PropertyData.features := [lit "Varanda"; lit "Garagem"; lit "Elevador"] |} in
  log Level.info (lit "Dados extraídos com sucesso para " ++ propertyCode)
      (Some automationId) (Some propertyData) ;;
  ret propertyData.

(** [downloadPhotos] *)
Definition downloadPhotos (photoUrls : list str) (propertyCode : str)
           (automationId : N) : M (list str) :=
  log Level.info (lit "Baixando " ++ showNat (length photoUrls) ++ lit " fotos para " ++ propertyCode)
      (Some automationId) None ;;
  ret photoUrls.

(** [createOLXListing] *)
Definition createOLXListing (propertyData : PropertyData.t)
           (automation : Automation.t) (automationId : N) : M unit :=
  log Level.info (lit "Criando anúncio OLX para " ++ PropertyData.code propertyData)
      (Some automationId) None ;;
  availableCodes <- getAvailableOlxCodes (Automation.brokerId automation) ;;
  match availableCodes with
  | [] => throw (JsError msgNenhumCodigo)
  | olxCode :: _ =>
      updateOlxCode (OlxCode.id olxCode)
        {| OlxCode.isUsed' := Some true;
           OlxCode.isHighlighted' := None;
           OlxCode.isActive' := None;
           OlxCode.currentAutomationId' := Some automationId;
           OlxCode.univenCode' := Some (PropertyData.code propertyData) |} ;;
      log Level.info (lit "Anúncio criado com sucesso usando código " ++ OlxCode.code olxCode)
          (Some automationId) None
  end.

Definition withPhotos (photos : list str) (p : PropertyData.t) : PropertyData.t :=
  {| PropertyData.code := PropertyData.code p;
     PropertyData.type_ := PropertyData.type_ p;
     PropertyData.price := PropertyData.price p;
     PropertyData.description := PropertyData.description p;
     PropertyData.address := PropertyData.address p;
     PropertyData.area := PropertyData.area p;
     PropertyData.bedrooms := PropertyData.bedrooms p;
     PropertyData.bathrooms := PropertyData.bathrooms p;
     PropertyData.photos := photos;
     PropertyData.features := PropertyData.features p |}.

(** The [try] block of [startAutomation] (lines 293-358). *)
Definition startAutomationTry (automationId : N) : M unit :=
  setActive automationId ;;
  found <- getAutomation automationId ;;
  match found with
  | None => throw (JsError (msgNotFound automationId))
  | Some automation =>
      updateProgress automationId connecting_univen 10 (lit "Iniciando automação...") ;;
      updateProgress automationId connecting_univen 20 (lit "Testando conexão UNIVEN...") ;;
      univenSettings <- getSettings ;;
      let univenUsername := settingValue (lit "univenUsername") univenSettings in
      let univenPassword := settingValue (lit "univenPassword") univenSettings in
      if negb (truthy univenUsername) || negb (truthy univenPassword) then
        throw (JsError msgCredenciaisUniven)
      else
        univenResult <- probe (TestUnivenConnection univenUsername univenPassword)
                              (testUniven tester univenUsername univenPassword) ;;
        if negb (success univenResult) then
          throw (JsError (msgFalhaUniven (message univenResult)))
        else
          updateProgress automationId extracting_data 40
                         (lit "Extraindo dados do imóvel...") ;;
          propertyData <- extractPropertyData (Automation.univenCode automation)
                                              automationId ;;
          updateProgress automationId downloading_photos 60
                         (lit "Baixando fotos do imóvel...") ;;
          photos <- downloadPhotos (PropertyData.photos propertyData)
                                   (Automation.univenCode automation) automationId ;;
          let propertyData := withPhotos photos propertyData in
          updateProgress automationId connecting_olx 80 (lit "Conectando ao OLX...") ;;
          olxSettings <- getSettings ;;
          let olxEmail := settingValue (lit "olxEmail") olxSettings in
          let olxPassword := settingValue (lit "olxPassword") olxSettings in
          if negb (truthy olxEmail) || negb (truthy olxPassword) then
            throw (JsError msgCredenciaisOlx)
          else
            olxResult <- probe (TestOlxConnection olxEmail olxPassword)
                               (testOlx tester olxEmail olxPassword) ;;
            (if negb (success olxResult) then
               log Level.warning (lit "OLX connection warning: " ++ message olxResult)
                   (Some automationId) None
             else ret tt) ;;
            updateProgress automationId creating_listing 90
                           (lit "Criando anúncio no OLX...") ;;
            createOLXListing propertyData automation automationId ;;
            updateProgress automationId finalizing 100
                           (lit "Automação concluída com sucesso!") ;;
            now <- gets clock ;;
            updateAutomation automationId
              {| Automation.status' := Some (lit "completed");
                 Automation.progress' := None;
                 Automation.currentStep' := None;
                 Automation.propertyData' := None;
                 Automation.errorMessage' := None;
                 Automation.completedAt' := Some now |}
  end.

(** The [catch] clause of [startAutomation] (lines 360-367). *)
Definition startAutomationCatch (automationId : N) (error : exn) : M unit :=
  let errorMsg := messageOr msgErroDesconhecido error in
  log Level.error
      (lit "Automação " ++ showN automationId ++ lit " falhou: " ++ errorMsg)
      (Some automationId) None ;;
  updateAutomation automationId
    {| Automation.status' := Some (lit "failed");
       Automation.progress' := None;
       Automation.currentStep' := None;
       Automation.propertyData' := None;
       Automation.errorMessage' := Some errorMsg;
       Automation.completedAt' := None |}.

(** [startAutomation] *)
Definition startAutomation (automationId : N) : M unit :=
  tryFinally
    (tryCatch (startAutomationTry automationId) (startAutomationCatch automationId))
    (deleteActive automationId).

(** [stopAutomation] *)
Definition stopAutomation (automationId : N) : M unit :=
  active <- isActive automationId ;;
  if active then
    deleteActive automationId ;;
    updateAutomation automationId
      {| Automation.status' := Some (lit "stopped");
         Automation.progress' := None;
         Automation.currentStep' := None;
         Automation.propertyData' := None;
         Automation.errorMessage' := Some (lit "Automation stopped by user");
         Automation.completedAt' := None |} ;;
    log Level.warning (lit "Automation " ++ showN automationId ++ lit " stopped by user")
        (Some automationId) None
  else ret tt.

(** [cleanup]; [browser.close()] is a call into the browser. *)
Definition cleanup : M unit :=
  tryCatch
    (b <- gets browser ;;
     match b with
     | Some _ =>
         external ;;
         modify (withBrowser None)
     | None => ret tt
     end)
    (fun error =>
       log Level.error (lit "Erro ao fechar browser: " ++ stringOf error) None None).

End Service.

End Probing.

(* ================================================================== *)
(** ** [AutomationService], the variant that guards against a second start
       and simulates the work in the browser (lines 503-859) *)
(* ================================================================== *)

Module Guarded.

Definition launchOptions : LaunchOptions :=
  {| headless := true;
     args := [lit "--no-sandbox"; lit "--disable-setuid-sandbox";
              lit "--disable-dev-shm-usage"; lit "--disable-accelerated-2d-canvas";
              lit "--no-first-run"; lit "--no-zygote"; lit "--single-process";
              lit "--disable-gpu"; lit "--disable-web-security";
              lit "--disable-features=VizDisplayCompositor"; lit "--disable-extensions";
              lit "--disable-default-apps"; lit "--disable-sync";
              lit "--metrics-recording-only"; lit "--no-default-browser-check";
              lit "--no-experiments"; lit "--hide-scrollbars"; lit "--mute-audio";
              lit "--disable-background-timer-throttling";
              lit "--disable-renderer-backgrounding";
              lit "--disable-backgrounding-occluded-windows"] |}.

Definition msgNotFound (automationId : N) : str :=
  lit "Automation " ++ showN automationId ++ lit " not found".
Definition msgAlreadyRunning (automationId : N) : str :=
  lit "Automation " ++ showN automationId ++ lit " is already running".
Definition msgOlxCodeNotFound (olxCode : str) : str :=
  lit "OLX code " ++ olxCode ++ lit " not found".

Section Service.

(** [Math.floor(Math.random() * k)], [process.cwd()] and [path.join] of
    the host. *)
Variable randomBelow : Z -> Z.
Variable cwd : str.
Variable pathJoin : list str -> str.

(** [log] *)
Definition log (level message : str) (automationId : option N)
           (metadata : option PropertyData.t) : M unit :=
  createSystemLog
    {| SystemLog.level' := level;
       SystemLog.message' := message;
       SystemLog.automationId' := automationId;
       SystemLog.metadata' := option_map MetaObject metadata |} ;;
  now <- gets clock ;;
  broadcast (WsLog level message automationId None now).

(** [updateProgress] *)
Definition updateProgress (automationId : N) (step : AutomationStep)
           (progress : Z) (message : str) : M unit :=
  updateAutomation automationId
    {| Automation.status' := None; Automation.progress' := Some progress;
       Automation.currentStep' := Some step; Automation.propertyData' := None;
       Automation.errorMessage' := None; Automation.completedAt' := None |} ;;
  log Level.info message (Some automationId) None ;;
  now <- gets clock ;;
  broadcast (WsProgress automationId step progress message now).

(** [getBrowser] *)
Definition getBrowser : M unit :=
  b <- gets browser ;;
  match b with
  | Some true => ret tt
  | _ =>
      settings <- getSettings ;;
      let headlessSetting := settingValue (lit "headless") settings in
      let browserTypeSetting := settingValue (lit "browserType") settings in
      let headless := match headlessSetting with
                      | VUndefined | VNull => VBool false
                      | v => v
                      end in
      let browserType := match browserTypeSetting with
                         | VUndefined | VNull => VStr (lit "chrome")
                         | v => v
                         end in
      modify (recorded (Launch launchOptions)) ;;
      external ;;
      modify (withBrowser (Some true))
  end.

(** [browser.newPage()] and [page.close()] *)
Definition newPage : M unit := modify (recorded NewPage) ;; external.
Definition closePage : M unit := modify (recorded ClosePage) ;; external.

(** [extractPropertyData] *)
Definition extractPropertyData (propertyCode : str) (automationId : N)
  : M PropertyData.t :=
  getBrowser ;;
  newPage ;;
  tryFinally
    (log Level.info (lit "Navigating to UNIVEN for property " ++ propertyCode)
         (Some automationId) None ;;
     sleep 2000 ;;
     let propertyData :=
       {| PropertyData.code := propertyCode;
          PropertyData.type_ :=
            if startsWith propertyCode (lit "AP") then lit "Apartamento"
            else if startsWith propertyCode (lit "CA") then lit "Casa"
            else lit "Apartamento";
          PropertyData.price := (randomBelow 2000000 + 300000)%Z;
          PropertyData.description :=
            lit "Excelente "
            ++ (if startsWith propertyCode (lit "AP") then lit "apartamento" else lit "casa")
            ++ lit " em ótima localização.";
          PropertyData.address := lit "Rua Exemplo, 123 - Centro";
          PropertyData.area := (randomBelow 200 + 50)%Z;
          PropertyData.bedrooms := Some (randomBelow 4 + 1)%Z;
          PropertyData.bathrooms := Some (randomBelow 3 + 1)%Z;
          PropertyData.photos := [lit "https://example.com/photo1.jpg";
                                  lit "https://example.com/photo2.jpg";
                                  lit "https://example.com/photo3.jpg"];
          PropertyData.features := [lit "Garagem"; lit "Área de lazer"; lit "Portaria 24h"] |} in
     log Level.success (lit "Property data extracted for " ++ propertyCode)
         (Some automationId) (Some propertyData) ;;
     ret propertyData)
    closePage.

(** The [for] loop of [downloadPhotos]: [i] is the index of the first of
    [photoUrls], [total] is [photoUrls.length] of the whole array. *)
Fixpoint downloadLoop (photosDir : str) (automationId : N) (total i : nat)
         (photoUrls : list str) (downloadedPaths : list str) : M (list str) :=
  match photoUrls with
  | [] => ret downloadedPaths
  | photoUrl :: rest =>
      let filename := lit "photo_" ++ showNat (i + 1) ++ lit ".jpg" in
      let filepath := pathJoin [photosDir; filename] in
      sleep 1000 ;;
      log Level.info (lit "Downloaded photo " ++ showNat (i + 1) ++ lit "/" ++ showNat total)
          (Some automationId) None ;;
      downloadLoop photosDir automationId total (S i) rest (downloadedPaths ++ [filepath])
  end.

(** [downloadPhotos]; the directory is looked up and made by one call into
    the file system. *)
Definition downloadPhotos (photoUrls : list str) (propertyCode : str)
           (automationId : N) : M (list str) :=
  settings <- getSettings ;;
  let downloadPhotosSetting := settingValue (lit "downloadPhotos") settings in
  if negb (truthy downloadPhotosSetting) then
    log Level.info (lit "Photo download disabled in settings") (Some automationId) None ;;
    ret photoUrls
  else
    tryCatch
      (let photosDir := pathJoin [cwd; lit "photos"; propertyCode] in
       external ;;
       downloadedPaths <- downloadLoop photosDir automationId (length photoUrls) 0
                                       photoUrls [] ;;
       log Level.success
           (lit "Downloaded " ++ showNat (length downloadedPaths) ++ lit " photos for "
            ++ propertyCode)
           (Some automationId) None ;;
       ret downloadedPaths)
      (fun error =>
         log Level.warning (lit "Failed to download photos: " ++ stringOf error)
             (Some automationId) None ;;
         ret photoUrls).

(** [createOLXListing]; a row of [olx_codes] has no [name], which prints
    as [undefined]. *)
Definition createOLXListing (propertyData : PropertyData.t)
           (automation : Automation.t) (photoPaths : list str)
           (automationId : N) : M unit :=
  getBrowser ;;
  newPage ;;
  tryFinally
    (log Level.info (lit "Navigating to OLX Pro") (Some automationId) None ;;
     sleep 3000 ;;
     found <- getOlxCodeByCode (Automation.olxCode automation) ;;
     match found with
     | None => throw (JsError (msgOlxCodeNotFound (Automation.olxCode automation)))
     | Some olxCode =>
         log Level.info
             (lit "Creating listing for broker undefined (" ++ OlxCode.code olxCode ++ lit ")")
             (Some automationId) None ;;
         log Level.info (lit "Filling property details...") (Some automationId) None ;;
         sleep 1000 ;;
         log Level.info (lit "Uploading photos...") (Some automationId) None ;;
         sleep 2000 ;;
         (match Automation.videoUrl automation with
          | Some url => if eqb url [] then ret tt
                        else log Level.info (lit "Adding video URL...") (Some automationId) None ;;
                             sleep 500
          | None => ret tt
          end) ;;
         (match Automation.tourUrl automation with
          | Some url => if eqb url [] then ret tt
                        else log Level.info (lit "Adding virtual tour URL...")
                                 (Some automationId) None ;;
                             sleep 500
          | None => ret tt
          end) ;;
         log Level.info (lit "Publishing listing...") (Some automationId) None ;;
         sleep 1000 ;;
         now <- gets clock ;;
         let listingId := lit "OLX" ++ showN (Z.to_N now) in
         log Level.success (lit "Listing created successfully with ID: " ++ listingId)
             (Some automationId) None
     end)
    closePage.

(** The [try] block of [startAutomation] (lines 611-647). *)
Definition startAutomationTry (automationId : N) : M unit :=
  found <- getAutomation automationId ;;
  match found with
  | None => throw (JsError (msgNotFound automationId))
  | Some automation =>
      updateAutomation automationId
        {| Automation.status' := Some (lit "processing");
           Automation.progress' := None;
           Automation.currentStep' := None;
           Automation.propertyData' := None;
           Automation.errorMessage' := None;
           Automation.completedAt' := None |} ;;
      log Level.info
          (lit "Starting automation for property " ++ Automation.propertyCode automation)
          (Some automationId) None ;;
      updateProgress automationId connecting_univen 10
                     (lit "Connecting to UNIVEN system...") ;;
      propertyData <- extractPropertyData (Automation.propertyCode automation)
                                          automationId ;;
      updateProgress automationId extracting_data 30 (lit "Extracting property data...") ;;
      updateProgress automationId downloading_photos 50
                     (lit "Downloading property photos...") ;;
      photoPaths <- downloadPhotos (PropertyData.photos propertyData)
                                   (Automation.propertyCode automation) automationId ;;
      updateProgress automationId connecting_olx 70 (lit "Connecting to OLX Pro...") ;;
      updateProgress automationId creating_listing 85
                     (lit "Creating listing on OLX Pro...") ;;
      createOLXListing propertyData automation photoPaths automationId ;;
      updateProgress automationId finalizing 100
                     (lit "Automation completed successfully!") ;;
      now <- gets clock ;;
      updateAutomation automationId
        {| Automation.status' := Some (lit "completed");
           Automation.progress' := Some 100%Z;
           Automation.currentStep' := None;
           Automation.propertyData' := Some propertyData;
           Automation.errorMessage' := None;
           Automation.completedAt' := Some now |} ;;
      log Level.success
          (lit "Automation completed successfully for property "
           ++ Automation.propertyCode automation)
          (Some automationId) None
  end.

(** The [catch] clause of [startAutomation] (lines 649-654). *)
Definition startAutomationCatch (automationId : N) (error : exn) : M unit :=
  log Level.error (lit "Automation failed: " ++ stringOf error) (Some automationId) None ;;
  updateAutomation automationId
    {| Automation.status' := Some (lit "failed");
       Automation.progress' := None;
       Automation.currentStep' := None;
       Automation.propertyData' := None;
       Automation.errorMessage' :=
         Some (match error with JsError m => m | JsThrown _ => stringOf error end);
       Automation.completedAt' := None |}.

(** [startAutomation] *)
Definition startAutomation (automationId : N) : M unit :=
  active <- isActive automationId ;;
  if active then
    log Level.warning (msgAlreadyRunning automationId) (Some automationId) None
  else
    setActive automationId ;;
    tryFinally
      (tryCatch (startAutomationTry automationId) (startAutomationCatch automationId))
      (deleteActive automationId).

(** [stopAutomation] *)
Definition stopAutomation (automationId : N) : M unit :=
  active <- isActive automationId ;;
  if active then
    deleteActive automationId ;;
    updateAutomation automationId
      {| Automation.status' := Some (lit "failed");
         Automation.progress' := None;
         Automation.currentStep' := None;
         Automation.propertyData' := None;
         Automation.errorMessage' := Some (lit "Automation stopped by user");
         Automation.completedAt' := None |} ;;
    log Level.warning (lit "Automation " ++ showN automationId ++ lit " stopped by user")
        (Some automationId) None
  else ret tt.

(** [cleanup]; [browser.close()] is a call into the browser. *)
Definition cleanup : M unit :=
  tryCatch
    (b <- gets browser ;;
     match b with
     | Some _ =>
         external ;;
         modify (withBrowser None)
     | None => ret tt
     end)
    (fun error =>
       log Level.error (lit "Erro ao fechar browser: " ++ stringOf error) None None).

End Service.

End Guarded.

(** The tester that the [Probing] variant imports from
    [./connectivity-test], over a network. *)
Definition fetchTester (fetch : ConnectivityTest.Request -> ConnectivityTest.FetchOutcome)
           (now : Z) : Probing.Tester :=
  {| Probing.testUniven := ConnectivityTest.testUnivenConnection fetch now;
     Probing.testOlx := ConnectivityTest.testOlxConnection fetch now |}.

(* ================================================================== *)
(** ** Worlds to run the service in *)
(* ================================================================== *)

Module Sample.

Definition job : Automation.t :=
  {| Automation.id := 1;
     Automation.propertyCode := lit "AP100";
     Automation.olxCode := lit "HA00011";
     Automation.univenCode := lit "AP100";
     Automation.brokerId := Some 1%N;
     Automation.status := lit "pending";
     Automation.progress := Some 0%Z;
     Automation.currentStep := None;
     Automation.videoUrl := None;
     Automation.tourUrl := None;
     Automation.propertyData := None;
     Automation.errorMessage := None;
     Automation.createdAt := Some 1000%Z;
     Automation.completedAt := None |}.

Definition freeCode (id : N) (code : str) : OlxCode.t :=
  {| OlxCode.id := id; OlxCode.code := code; OlxCode.brokerId := Some 1%N;
     OlxCode.isUsed := false; OlxCode.isHighlighted := false; OlxCode.isActive := true;
     OlxCode.currentAutomationId := None; OlxCode.univenCode := None;
     OlxCode.createdAt := Some 1000%Z |}.

Definition usedCode (id : N) (code : str) : OlxCode.t :=
  {| OlxCode.id := id; OlxCode.code := code; OlxCode.brokerId := Some 1%N;
     OlxCode.isUsed := true; OlxCode.isHighlighted := false; OlxCode.isActive := true;
     OlxCode.currentAutomationId := Some 7%N; OlxCode.univenCode := None;
     OlxCode.createdAt := Some 1000%Z |}.

Definition setting (id : N) (key : str) (value : JsValue) : str * Settings.t :=
  (key, {| Settings.id := id; Settings.key := key; Settings.value := value;
           Settings.updatedAt := 1000 |}).

(** The settings that [MemStorage] starts with: no credentials. *)
Definition defaultSettings : JsMap.t str Settings.t :=
  [ setting 1 (lit "autoRetry") (VBool true);
    setting 2 (lit "downloadPhotos") (VBool true);
    setting 3 (lit "notifications") (VBool false);
    setting 4 (lit "actionDelay") (VNum 3);
    setting 5 (lit "browserType") (VStr (lit "chrome"));
    setting 6 (lit "headless") (VBool false) ].

Definition credentials : JsMap.t str Settings.t :=
  [ setting 7 (lit "univenUsername") (VStr (lit "corretor"));
    setting 8 (lit "univenPassword") (VStr (lit "segredo"));
    setting 9 (lit "olxEmail") (VStr (lit "corretor@example.com"));
    setting 10 (lit "olxPassword") (VStr (lit "segredo")) ].

Definition store (codes : list OlxCode.t) (settings : JsMap.t str Settings.t)
  : MemStorage.t :=
  {| MemStorage.automations := [(1%N, job)];
     MemStorage.olxCodes := map (fun c => (OlxCode.id c, c)) codes;
     MemStorage.systemLogs := [];
     MemStorage.settings := settings;
     MemStorage.currentAutomationId := 2;
     MemStorage.currentOlxCodeId := 41;
     MemStorage.currentLogId := 1;
     MemStorage.currentSettingId := 11 |}.

Definition world (s : MemStorage.t) : World :=
  {| storage := s; activeAutomations := []; browser := None;
     clients := [{| readyStateOpen := true; received := [] |}];
     clock := 5000; faults := []; history := [] |}.

(** A tester whose probes succeed. *)
Definition reachable : Probing.Tester :=
  {| Probing.testUniven := fun _ _ => (univenResult 5000 true (lit "ok"), []);
     Probing.testOlx := fun _ _ => (olxResult 5000 true (lit "ok"), []) |}.

Definition twoCodes : list OlxCode.t :=
  [usedCode 1 (lit "HA00011"); freeCode 2 (lit "HA00012"); freeCode 3 (lit "HA00013")].

(** The host of the [Guarded] variant. *)
Definition randomBelow (k : Z) : Z := 0.
Definition cwd : str := lit "/app".
Definition pathJoin (parts : list str) : str :=
  List.concat (map (fun p => lit "/" ++ p) parts).

(** Worlds with the job [1] waiting: with credentials and free codes, with
    no credentials, with no free code, with the job already running, and
    with no code at all. *)
Definition ready : World := world (store twoCodes (defaultSettings ++ credentials)).
Definition unconfigured : World := world (store twoCodes defaultSettings).
Definition soldOut : World :=
  world (store [usedCode 1 (lit "HA00011")] (defaultSettings ++ credentials)).
Definition running : World := withActive [(1%N, true)] ready.
Definition withoutCodes : World := world (store [] defaultSettings).

(** A storage with three log entries, written at 100, 200 and 300. *)
Definition threeLogs : MemStorage.t :=
  let entry := fun (i : N) (t : Z) =>
                 (i, {| SystemLog.id := i; SystemLog.level := Level.info;
                        SystemLog.message := lit "linha"; SystemLog.automationId := None;
                        SystemLog.metadata := None; SystemLog.timestamp := t |}) in
  MemStorage.withSystemLogs [entry 1%N 100%Z; entry 2%N 200%Z; entry 3%N 300%Z] 4
                            (store [] defaultSettings).

(** Networks: one that rejects every request, one that answers every
    request with 200, and one that answers the pages with 200 and rejects
    the login request. *)
Definition offline (request : ConnectivityTest.Request) : ConnectivityTest.FetchOutcome :=
  ConnectivityTest.Rejected (JsError (lit "fetch failed")).
Definition online (request : ConnectivityTest.Request) : ConnectivityTest.FetchOutcome :=
  ConnectivityTest.Response 200.
Definition loginRejected (request : ConnectivityTest.Request)
  : ConnectivityTest.FetchOutcome :=
  match request with
  | ConnectivityTest.Head _ => ConnectivityTest.Response 200
  | ConnectivityTest.PostLogin _ _ _ => ConnectivityTest.Rejected (JsError (lit "fetch failed"))
  end.

(** A job and a code as the routes hand them to the storage. *)
Definition request : Automation.insert :=
  {| Automation.givenPropertyCode := lit "AP200";
     Automation.givenOlxCode := lit "HA00012";
     Automation.givenUnivenCode := lit "AP200";
     Automation.givenBrokerId := Some 1%N;
     Automation.givenStatus := lit "pending";
     Automation.givenProgress := None;
     Automation.givenCurrentStep := None;
     Automation.givenVideoUrl := None;
     Automation.givenTourUrl := None;
     Automation.givenPropertyData := None;
     Automation.givenErrorMessage := None |}.

Definition offer : OlxCode.insert :=
  {| OlxCode.givenCode := lit "HA00099";
     OlxCode.givenBrokerId := Some 1%N;
     OlxCode.givenIsUsed := None;
     OlxCode.givenIsHighlighted := None;
     OlxCode.givenIsActive := None;
     OlxCode.givenCurrentAutomationId := None;
     OlxCode.givenUnivenCode := None |}.

End Sample.


(* ================================================================== *)
(** ** What the statements observe of a run *)
(* ================================================================== *)

(** The part of a world that decides how a run goes on: everything but the
    log entries and the messages sent to the clients. *)
Record Observed : Type := {
  automationsOf : JsMap.t N Automation.t;
  olxCodesOf : JsMap.t N OlxCode.t;
  settingsOf : JsMap.t str Settings.t;
  activeOf : JsMap.t N bool;
  browserOf : option bool;
  clockOf : Z;
  faultsOf : list (option exn);
  historyOf : list Call
}.

Definition observe (w : World) : Observed :=
  {| automationsOf := MemStorage.automations (storage w);
     olxCodesOf := MemStorage.olxCodes (storage w);
     settingsOf := MemStorage.settings (storage w);
     activeOf := activeAutomations w;
     browserOf := browser w;
     clockOf := clock w;
     faultsOf := faults w;
     historyOf := history w |}.

(** The job as the storage holds it. *)
Definition job (automationId : N) (w : World) : option Automation.t :=
  MemStorage.getAutomation automationId (storage w).

(** [{ currentStep: step, progress }], [{ status: 'failed', errorMessage }]
    and the two final updates of a run that completes. *)
Definition stepUpdate (step : AutomationStep) (progress : Z) : Automation.partial :=
  {| Automation.status' := None; Automation.progress' := Some progress;
     Automation.currentStep' := Some step; Automation.propertyData' := None;
     Automation.errorMessage' := None; Automation.completedAt' := None |}.

Definition failedUpdate (errorMsg : str) : Automation.partial :=
  {| Automation.status' := Some (lit "failed"); Automation.progress' := None;
     Automation.currentStep' := None; Automation.propertyData' := None;
     Automation.errorMessage' := Some errorMsg; Automation.completedAt' := None |}.

Definition completedUpdate (now : Z) : Automation.partial :=
  {| Automation.status' := Some (lit "completed"); Automation.progress' := None;
     Automation.currentStep' := None; Automation.propertyData' := None;
     Automation.errorMessage' := None; Automation.completedAt' := Some now |}.

Definition statusUpdate (status : str) : Automation.partial :=
  {| Automation.status' := Some status; Automation.progress' := None;
     Automation.currentStep' := None; Automation.propertyData' := None;
     Automation.errorMessage' := None; Automation.completedAt' := None |}.

(** The updates of a job applied one after the other. *)
Definition updated (automation : Automation.t) (updates : list Automation.partial)
  : Automation.t :=
  fold_left Automation.spread updates automation.

(** The updates of [currentStep] and [progress] that a list of calls (the
    latest first) persisted for a job, in the order they were made. *)
Definition persistedSteps (automationId : N) (calls : list Call)
  : list (AutomationStep * Z) :=
  flat_map (fun c =>
              match c with
              | UpdateAutomation i u =>
                  if N.eqb i automationId then
                    match Automation.currentStep' u, Automation.progress' u with
                    | Some step, Some progress => [(step, progress)]
                    | _, _ => []
                    end
                  else []
              | _ => []
              end)
           (rev calls).

(** Whether a call is a probe of the tester. *)
Definition isUnivenProbe (c : Call) : bool :=
  match c with TestUnivenConnection _ _ => true | _ => false end.
Definition isOlxProbe (c : Call) : bool :=
  match c with TestOlxConnection _ _ => true | _ => false end.
Definition isCodeUpdate (c : Call) : bool :=
  match c with UpdateOlxCode _ _ => true | _ => false end.

(** The fixed order of the steps. *)
Definition sixSteps : list AutomationStep :=
  [connecting_univen; extracting_data; downloading_photos;
   connecting_olx; creating_listing; finalizing].

(** A list without the elements that repeat their predecessor. *)
Fixpoint merged (l : list AutomationStep) : list AutomationStep :=
  match l with
  | [] => []
  | x :: l' =>
      match l' with
      | y :: _ =>
          if match x, y with
             | connecting_univen, connecting_univen
             | extracting_data, extracting_data
             | downloading_photos, downloading_photos
             | connecting_olx, connecting_olx
             | creating_listing, creating_listing
             | finalizing, finalizing => true
             | _, _ => false
             end
          then merged l' else x :: merged l'
      | [] => [x]
      end
  end.

(** [progress] never goes down from one update to the next. *)
Fixpoint nonDecreasing (l : list Z) : bool :=
  match l with
  | x :: (y :: _) as l' => (x <=? y)%Z && nonDecreasing l'
  | _ => true
  end.

(** *** The changes of a world, as [observe] sees them *)

Definition obsUpdateAutomation (id : N) (updates : Automation.partial) (o : Observed)
  : Observed :=
  {| automationsOf := match JsMap.get N.eqb id (automationsOf o) with
                      | Some automation =>
                          JsMap.set N.eqb id (Automation.spread automation updates)
                                    (automationsOf o)
                      | None => automationsOf o
                      end;
     olxCodesOf := olxCodesOf o; settingsOf := settingsOf o; activeOf := activeOf o;
     browserOf := browserOf o; clockOf := clockOf o; faultsOf := faultsOf o;
     historyOf := UpdateAutomation id updates :: historyOf o |}.

Definition obsUpdateOlxCode (id : N) (updates : OlxCode.partial) (o : Observed)
  : Observed :=
  {| automationsOf := automationsOf o;
     olxCodesOf := match JsMap.get N.eqb id (olxCodesOf o) with
                   | Some olxCode =>
                       JsMap.set N.eqb id (OlxCode.spread olxCode updates) (olxCodesOf o)
                   | None => olxCodesOf o
                   end;
     settingsOf := settingsOf o; activeOf := activeOf o;
     browserOf := browserOf o; clockOf := clockOf o; faultsOf := faultsOf o;
     historyOf := UpdateOlxCode id updates :: historyOf o |}.

Definition obsRecorded (c : Call) (o : Observed) : Observed :=
  {| automationsOf := automationsOf o; olxCodesOf := olxCodesOf o;
     settingsOf := settingsOf o; activeOf := activeOf o;
     browserOf := browserOf o; clockOf := clockOf o; faultsOf := faultsOf o;
     historyOf := c :: historyOf o |}.

Definition obsActive (m : JsMap.t N bool) (o : Observed) : Observed :=
  {| automationsOf := automationsOf o; olxCodesOf := olxCodesOf o;
     settingsOf := settingsOf o; activeOf := m;
     browserOf := browserOf o; clockOf := clockOf o; faultsOf := faultsOf o;
     historyOf := historyOf o |}.

(** What [observe] sees after the job [a] went through the [updates] and
    the service made the [calls], in this order, and left the OLX codes
    [codes]. *)
Definition ran (id : N) (a : Automation.t) (o : Observed)
           (updates : list Automation.partial) (calls : list Call)
           (codes : JsMap.t N OlxCode.t) : Observed :=
  {| automationsOf := JsMap.set N.eqb id (updated a updates) (automationsOf o);
     olxCodesOf := codes; settingsOf := settingsOf o;
     activeOf := JsMap.set N.eqb id true (activeOf o);
     browserOf := browserOf o; clockOf := clockOf o; faultsOf := faultsOf o;
     historyOf := rev calls ++ historyOf o |}.

(** [{ isUsed: true, currentAutomationId, univenCode }] *)
Definition claim (automationId : N) (univenCode : str) : OlxCode.partial :=
  {| OlxCode.isUsed' := Some true;
     OlxCode.isHighlighted' := None;
     OlxCode.isActive' := None;
     OlxCode.currentAutomationId' := Some automationId;
     OlxCode.univenCode' := Some univenCode |}.

Definition stepCall (id : N) (step : AutomationStep) (progress : Z) : Call :=
  UpdateAutomation id (stepUpdate step progress).

(** The codes of a broker that [getAvailableOlxCodes] returns, read off
    the map. *)
Definition availableIn (brokerId : option N) (codes : JsMap.t N OlxCode.t)
  : list OlxCode.t :=
  filter (fun code => MemStorage.sameBroker (OlxCode.brokerId code) brokerId
                      && OlxCode.isActive code && negb (OlxCode.isUsed code))
         (JsMap.values codes).

(** The five ways out of the [try] block of the [Probing] variant, for a job
    [a] that the storage holds: how the block settles and what [observe] sees
    then.  [Probing_try_summary] below proves that the block does this. *)
Definition ProbingSummary (tester : Probing.Tester) (id : N) (a : Automation.t)
           (o : Observed) : outcome unit * Observed :=
  let sets := JsMap.values (settingsOf o) in
  let u := settingValue (lit "univenUsername") sets in
  let p := settingValue (lit "univenPassword") sets in
  let e := settingValue (lit "olxEmail") sets in
  let q := settingValue (lit "olxPassword") sets in
  let ru := fst (Probing.testUniven tester u p) in
  if negb (truthy u) || negb (truthy p) then
    (Throw (JsError Probing.msgCredenciaisUniven),
     ran id a o [stepUpdate connecting_univen 10; stepUpdate connecting_univen 20]
         [stepCall id connecting_univen 10; stepCall id connecting_univen 20]
         (olxCodesOf o))
  else if negb (success ru) then
    (Throw (JsError (Probing.msgFalhaUniven (message ru))),
     ran id a o [stepUpdate connecting_univen 10; stepUpdate connecting_univen 20]
         [stepCall id connecting_univen 10; stepCall id connecting_univen 20;
          TestUnivenConnection u p]
         (olxCodesOf o))
  else if negb (truthy e) || negb (truthy q) then
    (Throw (JsError Probing.msgCredenciaisOlx),
     ran id a o
         [stepUpdate connecting_univen 10; stepUpdate connecting_univen 20;
          stepUpdate extracting_data 40; stepUpdate downloading_photos 60;
          stepUpdate connecting_olx 80]
         [stepCall id connecting_univen 10; stepCall id connecting_univen 20;
          TestUnivenConnection u p; stepCall id extracting_data 40;
          stepCall id downloading_photos 60; stepCall id connecting_olx 80]
         (olxCodesOf o))
  else
    match availableIn (Automation.brokerId a) (olxCodesOf o) with
    | [] =>
        (Throw (JsError Probing.msgNenhumCodigo),
         ran id a o
             [stepUpdate connecting_univen 10; stepUpdate connecting_univen 20;
              stepUpdate extracting_data 40; stepUpdate downloading_photos 60;
              stepUpdate connecting_olx 80; stepUpdate creating_listing 90]
             [stepCall id connecting_univen 10; stepCall id connecting_univen 20;
              TestUnivenConnection u p; stepCall id extracting_data 40;
              stepCall id downloading_photos 60; stepCall id connecting_olx 80;
              TestOlxConnection e q; stepCall id creating_listing 90]
             (olxCodesOf o))
    | olxCode :: _ =>
        (Ok tt,
         ran id a o
             [stepUpdate connecting_univen 10; stepUpdate connecting_univen 20;
              stepUpdate extracting_data 40; stepUpdate downloading_photos 60;
              stepUpdate connecting_olx 80; stepUpdate creating_listing 90;
              stepUpdate finalizing 100; completedUpdate (clockOf o)]
             [stepCall id connecting_univen 10; stepCall id connecting_univen 20;
              TestUnivenConnection u p; stepCall id extracting_data 40;
              stepCall id downloading_photos 60; stepCall id connecting_olx 80;
              TestOlxConnection e q; stepCall id creating_listing 90;
              UpdateOlxCode (OlxCode.id olxCode) (claim id (Automation.univenCode a));
              stepCall id finalizing 100; UpdateAutomation id (completedUpdate (clockOf o))]
             (match JsMap.get N.eqb (OlxCode.id olxCode) (olxCodesOf o) with
              | Some held =>
                  JsMap.set N.eqb (OlxCode.id olxCode)
                            (OlxCode.spread held (claim id (Automation.univenCode a)))
                            (olxCodesOf o)
              | None => olxCodesOf o
              end))
    end.

(** *** The preconditions of the [Probing] variant, read off a world *)

Definition univenCredentials (w : World) : JsValue * JsValue :=
  (settingValue (lit "univenUsername") (MemStorage.getSettings (storage w)),
   settingValue (lit "univenPassword") (MemStorage.getSettings (storage w))).

Definition olxCredentials (w : World) : JsValue * JsValue :=
  (settingValue (lit "olxEmail") (MemStorage.getSettings (storage w)),
   settingValue (lit "olxPassword") (MemStorage.getSettings (storage w))).

(** [!identity || !secret] *)
Definition missing (credentials : JsValue * JsValue) : bool :=
  negb (truthy (fst credentials)) || negb (truthy (snd credentials)).

(** What the tester answers to the UNIVEN probe with the stored
    credentials. *)
Definition univenAnswer (tester : Probing.Tester) (w : World) : ConnectivityTestResult :=
  fst (Probing.testUniven tester (fst (univenCredentials w)) (snd (univenCredentials w))).

(** The credentials whose absence stops a run of the [Probing] variant. *)
Inductive Missing : Type := MissingUniven | MissingOlx.

Definition firstMissing (tester : Probing.Tester) (w : World) : option Missing :=
  if missing (univenCredentials w) then Some MissingUniven
  else if success (univenAnswer tester w) && missing (olxCredentials w)
       then Some MissingOlx
       else None.

Definition missingMessage (m : Missing) : str :=
  match m with
  | MissingUniven => Probing.msgCredenciaisUniven
  | MissingOlx => Probing.msgCredenciaisOlx
  end.

Definition probeOf (m : Missing) : Call -> bool :=
  match m with
  | MissingUniven => isUnivenProbe
  | MissingOlx => isOlxProbe
  end.

(** What [observe] sees when [startAutomation] of the [Probing] variant has
    returned: the [catch] clause after a rejection, then the [finally]
    clause. *)
Definition ProbingEnd (tester : Probing.Tester) (id : N) (a : Automation.t) (o : Observed)
  : Observed :=
  let s := ProbingSummary tester id a o in
  let o1 := match fst s with
            | Ok _ => snd s
            | Throw e =>
                obsUpdateAutomation id
                  (failedUpdate (messageOr Probing.msgErroDesconhecido e)) (snd s)
            end in
  obsActive (JsMap.delete N.eqb id (activeOf o1)) o1.


(* ================================================================== *)
(** ** Properties of computations *)
(* ================================================================== *)

(** A computation that takes every world to one related to it by [R],
    however it settles. *)
Definition within (R : World -> World -> Prop) {A : Type} (m : M A) : Prop :=
  forall w, R w (snd (m w)).

(** The jobs, the OLX codes and the persisted steps of every job are the
    same in both worlds. *)
Definition sameRecords (w w' : World) : Prop :=
  MemStorage.automations (storage w') = MemStorage.automations (storage w)
  /\ MemStorage.olxCodes (storage w') = MemStorage.olxCodes (storage w)
  /\ forall id, persistedSteps id (history w') = persistedSteps id (history w).

(** A job that the storage holds is still held. *)
Definition jobStays (id : N) (w w' : World) : Prop :=
  job id w <> None -> job id w' <> None.

(** When the computation returns, it has persisted the steps [l] for the
    job, after those persisted before. *)
Definition emits (id : N) (l : list (AutomationStep * Z)) {A : Type} (m : M A) : Prop :=
  forall w, match fst (m w) with
            | Ok _ => persistedSteps id (history (snd (m w)))
                      = persistedSteps id (history w) ++ l
            | Throw _ => True
            end.


(** Whether a call goes to the browser. *)
Definition isBrowserCall (c : Call) : bool :=
  match c with Launch _ | NewPage | ClosePage => true | _ => false end.

(** The OLX codes and the settings are the same in both worlds, and no call
    in between changed a code or probed a system. *)
Definition codesUntouched (w w' : World) : Prop :=
  MemStorage.olxCodes (storage w') = MemStorage.olxCodes (storage w)
  /\ MemStorage.settings (storage w') = MemStorage.settings (storage w)
  /\ filter (fun c => isCodeUpdate c || isUnivenProbe c || isOlxProbe c) (history w')
     = filter (fun c => isCodeUpdate c || isUnivenProbe c || isOlxProbe c) (history w).

(** The browser is the same in both worlds, and no call in between went to
    the browser or to the file system. *)
Definition browserUntouched (w w' : World) : Prop :=
  browser w' = browser w
  /\ faults w' = faults w
  /\ filter isBrowserCall (history w') = filter isBrowserCall (history w).

(** What a client holds after the messages [extra] were broadcast. *)
Definition deliver (extra : list WsMessage) (client : Client) : Client :=
  if readyStateOpen client
  then {| readyStateOpen := true; received := received client ++ extra |}
  else client.

(** A well-formed storage stays well formed. *)
Definition storageKept (w w' : World) : Prop :=
  MemStorage.wellFormed (storage w) -> MemStorage.wellFormed (storage w').

(** Whether an address answers a [HEAD] request with [response.ok]. *)
Definition answersOk (fetch : ConnectivityTest.Request -> ConnectivityTest.FetchOutcome)
           (endpoint : str) : bool :=
  match fetch (ConnectivityTest.Head endpoint) with
  | ConnectivityTest.Response status => ConnectivityTest.ok status
  | ConnectivityTest.Rejected _ => false
  end.


(** The paths [photo_1.jpg] to [photo_n.jpg] in a directory. *)
Definition photoPaths (pathJoin : list str -> str) (photosDir : str) (n : nat) : list str :=
  map (fun k => pathJoin [photosDir; lit "photo_" ++ showNat k ++ lit ".jpg"]) (seq 1 n).

(** Whether the coming call into the browser or the file system rejects. *)
Definition nextCallRejects (w : World) : bool :=
  match faults w with
  | Some _ :: _ => true
  | _ => false
  end.

(** From a world where no coming call into the browser or the file system
    rejects, the computation returns, into such a world, with the OLX codes
    as they were and every job that the storage held still held. *)
Definition runsThrough {A : Type} (m : M A) : Prop :=
  forall w, faults w = [] ->
    (exists a, fst (m w) = Ok a)
    /\ faults (snd (m w)) = []
    /\ MemStorage.olxCodes (storage (snd (m w))) = MemStorage.olxCodes (storage w)
    /\ (forall id, job id w <> None -> job id (snd (m w)) <> None).

(* ================================================================== *)
(** ** Lemmas *)
(* ================================================================== *)

Arguments JS.lit : simpl never.
Arguments JS.showN : simpl never.
Arguments JS.showNat : simpl never.

Section MapFacts.
Variables K V : Type.
Variable keq : K -> K -> bool.
Hypothesis keq_eq : forall a b, keq a b = true <-> a = b.

Lemma keq_refl k : keq k k = true.
Proof. now apply keq_eq. Qed.

Lemma keq_neq a b : a <> b -> keq a b = false.
Proof. intros H. destruct (keq a b) eqn:E; auto. apply keq_eq in E. contradiction. Qed.

Lemma get_set_same (k : K) (v : V) m : JsMap.get keq k (JsMap.set keq k v m) = Some v.
Proof.
  induction m as [|[k' v'] m IH]; simpl.
  - now rewrite keq_refl.
  - destruct (keq k k') eqn:E; simpl.
    + now rewrite keq_refl.
    + now rewrite E.
Qed.

Lemma get_set_other (k k' : K) (v : V) m :
  k <> k' -> JsMap.get keq k' (JsMap.set keq k v m) = JsMap.get keq k' m.
Proof.
  intros N. induction m as [|[k0 v0] m IH]; simpl.
  - rewrite keq_neq by congruence. reflexivity.
  - destruct (keq k k0) eqn:E; simpl.
    + apply keq_eq in E. subst k0. rewrite !keq_neq by congruence. reflexivity.
    + destruct (keq k' k0); auto.
Qed.

Lemma set_set (k : K) (v1 v2 : V) m :
  JsMap.set keq k v2 (JsMap.set keq k v1 m) = JsMap.set keq k v2 m.
Proof.
  induction m as [|[k' v'] m IH]; simpl.
  - now rewrite keq_refl.
  - destruct (keq k k') eqn:E; simpl.
    + now rewrite keq_refl.
    + rewrite E. now rewrite IH.
Qed.

Lemma get_delete_same (k : K) m : JsMap.get keq k (JsMap.delete keq k m) = None (A:=V).
Proof.
  induction m as [|[k' v'] m IH]; simpl; auto.
  destruct (keq k k') eqn:E; simpl; auto. now rewrite E.
Qed.
End MapFacts.




(** *** Stepping through a computation *)

Lemma bind_ok {A B : Type} (m : M A) (k : A -> M B) (w : World) (a : A) :
  fst (m w) = Ok a -> bind m k w = k a (snd (m w)).
Proof. unfold bind. destruct (m w) as [[x|e] w']; cbn; congruence. Qed.

Lemma bind_thrown {A B : Type} (m : M A) (k : A -> M B) (w : World) (e : exn) :
  fst (m w) = Throw e -> bind m k w = (Throw e, snd (m w)).
Proof. unfold bind. destruct (m w) as [[x|e'] w']; cbn; congruence. Qed.

Lemma bind_assoc {A B C : Type} (m : M A) (f : A -> M B) (g : B -> M C) (w : World) :
  bind (bind m f) g w = bind m (fun x => bind (f x) g) w.
Proof. unfold bind. destruct (m w) as [[x|e] w']; reflexivity. Qed.

Lemma observe_updateAutomation id updates w :
  observe (snd (updateAutomation id updates w)) = obsUpdateAutomation id updates (observe w).
Proof.
  unfold updateAutomation, modify, obsUpdateAutomation, observe, MemStorage.updateAutomation. cbn.
  destruct (JsMap.get N.eqb id (MemStorage.automations (storage w))); reflexivity.
Qed.

Lemma observe_updateOlxCode id updates w :
  observe (snd (updateOlxCode id updates w)) = obsUpdateOlxCode id updates (observe w).
Proof.
  unfold updateOlxCode, modify, obsUpdateOlxCode, observe, MemStorage.updateOlxCode. cbn.
  destruct (JsMap.get N.eqb id (MemStorage.olxCodes (storage w))); reflexivity.
Qed.

Lemma observe_setActive id w :
  observe (snd (setActive id w)) = obsActive (JsMap.set N.eqb id true (activeOf (observe w))) (observe w).
Proof. reflexivity. Qed.

Lemma observe_Probing_log l m a md w : observe (snd (Probing.log l m a md w)) = observe w.
Proof. reflexivity. Qed.

Lemma observe_Probing_updateProgress id st p msg w :
  observe (snd (Probing.updateProgress id st p msg w))
  = obsUpdateAutomation id (stepUpdate st p) (observe w).
Proof.
  unfold obsUpdateAutomation, observe. cbn. unfold MemStorage.updateAutomation.
  destruct (JsMap.get N.eqb id (MemStorage.automations (storage w))); reflexivity.
Qed.

Lemma observe_Probing_extract c id w : observe (snd (Probing.extractPropertyData c id w)) = observe w.
Proof. reflexivity. Qed.

Lemma observe_Probing_download l c id w : observe (snd (Probing.downloadPhotos l c id w)) = observe w.
Proof. reflexivity. Qed.

Lemma forEach_logs (lines : list LogLine) (w : World) :
  let m := forEach lines (fun line => createSystemLog
                             {| SystemLog.level' := fst line;
                                SystemLog.message' := snd line;
                                SystemLog.automationId' := None;
                                SystemLog.metadata' := None |}) in
  fst (m w) = Ok tt /\ observe (snd (m w)) = observe w.
Proof.
  revert w. induction lines as [|l lines IH]; intros w.
  - split; reflexivity.
  - cbn zeta. cbn [forEach].
    rewrite (bind_ok (createSystemLog _) _ w (a:=tt) eq_refl).
    destruct (IH (snd (createSystemLog
                 {| SystemLog.level' := fst l; SystemLog.message' := snd l;
                    SystemLog.automationId' := None; SystemLog.metadata' := None |} w)))
      as [E O].
    split; [exact E|]. rewrite O. reflexivity.
Qed.

Lemma probe_ok call answer w : fst (Probing.probe call answer w) = Ok (fst answer).
Proof.
  unfold Probing.probe.
  rewrite (bind_ok (modify _) _ w (a:=tt) eq_refl).
  rewrite (bind_ok _ _ _ (proj1 (forEach_logs (snd answer) _))).
  reflexivity.
Qed.

Lemma observe_probe call answer w :
  observe (snd (Probing.probe call answer w)) = obsRecorded call (observe w).
Proof.
  unfold Probing.probe.
  rewrite (bind_ok (modify _) _ w (a:=tt) eq_refl).
  rewrite (bind_ok _ _ _ (proj1 (forEach_logs (snd answer) _))).
  cbn [ret snd].
  rewrite (proj2 (forEach_logs (snd answer) _)). reflexivity.
Qed.

Lemma read_automation i w :
  MemStorage.getAutomation i (storage w) = JsMap.get N.eqb i (automationsOf (observe w)).
Proof. reflexivity. Qed.
Lemma read_settings w :
  MemStorage.getSettings (storage w) = JsMap.values (settingsOf (observe w)).
Proof. reflexivity. Qed.
Lemma read_available b w :
  MemStorage.getAvailableOlxCodes b (storage w) = availableIn b (olxCodesOf (observe w)).
Proof. reflexivity. Qed.
Lemma read_clock w : clock w = clockOf (observe w).
Proof. reflexivity. Qed.
Lemma observe_gets {A} (f : World -> A) w : observe (snd (gets f w)) = observe w.
Proof. reflexivity. Qed.
Lemma observe_getAutomation i w : observe (snd (getAutomation i w)) = observe w.
Proof. reflexivity. Qed.
Lemma observe_getSettings w : observe (snd (getSettings w)) = observe w.
Proof. reflexivity. Qed.
Lemma observe_getAvailable b w : observe (snd (getAvailableOlxCodes b w)) = observe w.
Proof. reflexivity. Qed.
Lemma observe_ret {A} (a : A) w : observe (snd (ret a w)) = observe w.
Proof. reflexivity. Qed.

Create Rewrite HintDb obs.
Create Rewrite HintDb reads.
#[global] Hint Rewrite observe_updateAutomation observe_updateOlxCode observe_setActive
  observe_Probing_log observe_Probing_updateProgress observe_Probing_extract
  observe_Probing_download observe_probe @observe_gets observe_getAutomation
  observe_getSettings observe_getAvailable @observe_ret : obs.
#[global] Hint Rewrite read_automation read_settings read_available read_clock : reads.


Ltac obs_norm H :=
  cbv beta iota delta
      [automationsOf olxCodesOf settingsOf activeOf browserOf clockOf faultsOf historyOf
       obsUpdateAutomation obsUpdateOlxCode obsRecorded obsActive] in H;
  rewrite ?(get_set_same N.eqb N.eqb_eq) in H;
  repeat match goal with
         | G : JsMap.get N.eqb _ _ = Some _ |- _ => rewrite G in H
         end;
  cbv beta iota in H;
  rewrite ?(set_set N.eqb N.eqb_eq) in H.

(** The world that a step leaves is named, and what [observe] sees of it is
    kept as a hypothesis. *)
Ltac settle O m w :=
  let o := fresh "o" in
  let O' := fresh "O" in
  let w' := fresh "w" in
  assert (O' : observe (snd (m w)) = observe (snd (m w))) by reflexivity;
  set (o := observe (snd (m w))) in O' at 1;
  autorewrite with obs in O'; rewrite O in O'; obs_norm O'; subst o;
  set (w' := snd (m w)) in *; clearbody w'; clear O; try clear w.

(** What the step read from the world is rewritten into what [observe] saw
    of it. *)
Ltac seen O :=
  autorewrite with reads; rewrite ?O;
  cbv beta iota delta
      [automationsOf olxCodesOf settingsOf activeOf browserOf clockOf faultsOf historyOf];
  rewrite ?(get_set_same N.eqb N.eqb_eq);
  repeat match goal with
         | G : JsMap.get N.eqb _ _ = Some _ |- _ => rewrite G
         end.

Ltac step :=
  lazymatch goal with
  | O : observe ?w = _ |- context [bind (bind ?m ?f) ?g ?w] =>
      rewrite (bind_assoc m f g w)
  | O : observe ?w = _ |- context [bind (Probing.probe ?c ?a) ?k ?w] =>
      rewrite (bind_ok (Probing.probe c a) k w (probe_ok c a w));
      settle O (Probing.probe c a) w
  | O : observe ?w = _ |- context [bind ?m ?k ?w] =>
      let r := eval hnf in (fst (m w)) in
      lazymatch r with
      | Ok tt => rewrite (bind_ok m k w (a:=tt) eq_refl)
      | Ok ?a => rewrite (bind_ok m k w (a:=a) eq_refl); seen O
      | Throw ?e => rewrite (bind_thrown m k w (e:=e) eq_refl)
      end;
      settle O m w
  end; cbv beta iota zeta.

Ltac obs_norm_goal :=
  cbv beta iota delta
      [automationsOf olxCodesOf settingsOf activeOf browserOf clockOf faultsOf historyOf
       obsUpdateAutomation obsUpdateOlxCode obsRecorded obsActive];
  rewrite ?(get_set_same N.eqb N.eqb_eq);
  repeat match goal with
         | G : JsMap.get N.eqb _ _ = Some _ |- _ => rewrite G
         end;
  cbv beta iota;
  rewrite ?(set_set N.eqb N.eqb_eq).

Ltac start w :=
  let o := fresh "o" in
  let O := fresh "O" in
  pose proof (eq_refl (observe w)) as O;
  set (o := observe w) in O at 1;
  unfold observe in O; subst o.


Lemma observe_throw {A} (e : exn) w : observe (snd (throw (A:=A) e w)) = observe w.
Proof. reflexivity. Qed.
#[global] Hint Rewrite @observe_throw : obs.

(** The last operation of a path: its outcome and what [observe] sees. *)
Ltac last_step :=
  lazymatch goal with
  | O : observe ?w = _ |- _ =>
      cbn [fst snd]; split;
      [ reflexivity
      | autorewrite with obs; rewrite O; obs_norm_goal; reflexivity ]
  end.

Ltac known o :=
  destruct o as [autos codes sets act br ck fl hist];
  cbn [automationsOf olxCodesOf settingsOf activeOf browserOf clockOf faultsOf historyOf] in *.

(** A branch of the computation on a condition that the world decides. *)
Ltac branch H :=
  lazymatch goal with
  | O : observe ?w = _ |- context [(if ?c then _ else _) ?w] => destruct c eqn:H
  end; cbv beta iota.

Lemma Probing_try_summary tester id w a :
  job id w = Some a ->
  fst (Probing.startAutomationTry tester id w) = fst (ProbingSummary tester id a (observe w))
  /\ observe (snd (Probing.startAutomationTry tester id w))
     = snd (ProbingSummary tester id a (observe w)).
Proof.
  intros Ha. unfold job in Ha. rewrite read_automation in Ha.
  remember (observe w) as o eqn:O. symmetry in O.
  unfold Probing.startAutomationTry, ProbingSummary. cbv zeta.
  known o.
  step. step. step. step. step.
  branch Hc.
  { last_step. }
  step.
  branch Hs.
  { last_step. }
  step. step. step. step. step. step.
  branch Hc2.
  { last_step. }
  step. 
  lazymatch goal with
  | |- context [bind (if ?c then _ else _) _ _] => destruct c eqn:Hs2
  end.
  all: step. all: step.
  all: unfold Probing.createOLXListing.
  all: step. all: step. all: step. all: step.
  all: lazymatch goal with
       | |- context [bind (match ?l with [] => _ | _ :: _ => _ end) _ _] =>
           destruct l as [|olxCode rest] eqn:Hav
       end.
  all: step.
  all: try solve [last_step].
  all: step. all: step. all: step. all: step.
  all: last_step.
Qed.

(** *** The whole of [startAutomation] in the [Probing] variant *)

Lemma Probing_catch_ok id e w : fst (Probing.startAutomationCatch id e w) = Ok tt.
Proof. reflexivity. Qed.

Lemma observe_Probing_catch id e w :
  observe (snd (Probing.startAutomationCatch id e w))
  = obsUpdateAutomation id (failedUpdate (messageOr Probing.msgErroDesconhecido e)) (observe w).
Proof.
  unfold Probing.startAutomationCatch. cbv zeta.
  rewrite (bind_ok (Probing.log _ _ _ _) _ w (a:=tt) eq_refl). cbv beta.
  rewrite observe_updateAutomation, observe_Probing_log. reflexivity.
Qed.

Lemma observe_deleteActive id w :
  observe (snd (deleteActive id w))
  = obsActive (JsMap.delete N.eqb id (activeOf (observe w))) (observe w).
Proof. reflexivity. Qed.

Lemma Probing_start_unfold tester id w :
  Probing.startAutomation tester id w
  = match fst (Probing.startAutomationTry tester id w) with
    | Ok _ => (Ok tt, snd (deleteActive id (snd (Probing.startAutomationTry tester id w))))
    | Throw e =>
        (Ok tt, snd (deleteActive id
                       (snd (Probing.startAutomationCatch id e
                               (snd (Probing.startAutomationTry tester id w))))))
    end.
Proof.
  unfold Probing.startAutomation, tryFinally, tryCatch.
  destruct (Probing.startAutomationTry tester id w) as [[[]|e] w1]; reflexivity.
Qed.

(** What [observe] sees when [startAutomation] has returned. *)
Lemma Probing_start_observe tester id w a :
  job id w = Some a ->
  observe (snd (Probing.startAutomation tester id w)) = ProbingEnd tester id a (observe w).
Proof.
  intros Ha. destruct (Probing_try_summary tester id w Ha) as [F O].
  rewrite Probing_start_unfold. unfold ProbingEnd. cbv zeta.
  rewrite <- F.
  destruct (fst (Probing.startAutomationTry tester id w)) as [[]|e]; cbn [snd].
  - rewrite observe_deleteActive, O. reflexivity.
  - rewrite observe_deleteActive, observe_Probing_catch, O. reflexivity.
Qed.

Lemma job_observe id w : job id w = JsMap.get N.eqb id (automationsOf (observe w)).
Proof. reflexivity. Qed.

Lemma Probing_try_not_found tester id w :
  job id w = None ->
  fst (Probing.startAutomationTry tester id w) = Throw (JsError (Probing.msgNotFound id)).
Proof.
  intros H. unfold Probing.startAutomationTry.
  rewrite (bind_ok (setActive id) _ w (a:=tt) eq_refl).
  rewrite (bind_ok (getAutomation id) _ (snd (setActive id w)) (a:=job id w) eq_refl).
  rewrite H. reflexivity.
Qed.

Lemma missing_univen w :
  missing (univenCredentials w)
  = negb (truthy (settingValue (lit "univenUsername") (JsMap.values (settingsOf (observe w)))))
    || negb (truthy (settingValue (lit "univenPassword") (JsMap.values (settingsOf (observe w))))).
Proof. reflexivity. Qed.

Lemma missing_olx w :
  missing (olxCredentials w)
  = negb (truthy (settingValue (lit "olxEmail") (JsMap.values (settingsOf (observe w)))))
    || negb (truthy (settingValue (lit "olxPassword") (JsMap.values (settingsOf (observe w))))).
Proof. reflexivity. Qed.

Lemma univenAnswer_observe tester w :
  univenAnswer tester w
  = fst (Probing.testUniven tester
           (settingValue (lit "univenUsername") (JsMap.values (settingsOf (observe w))))
           (settingValue (lit "univenPassword") (JsMap.values (settingsOf (observe w))))).
Proof. reflexivity. Qed.

Lemma literal_differs (a b : str) : eqb a b = false -> a <> b.
Proof.
  intros H E. subst b.
  assert (R : forall s, eqb s s = true).
  { induction s as [|x s IH]; cbn; [reflexivity|]. now rewrite N.eqb_refl. }
  rewrite R in H. discriminate.
Qed.

(** C7: in the [Probing] variant, a job that reaches the publish step (both
    pairs of credentials are stored and the UNIVEN probe succeeds) while
    [getAvailableOlxCodes] returns no code for its broker ends as failed
    with the message that no OLX code is available, which is not the
    message of an unknown error nor one of missing credentials; the run
    changes no code and makes no call to [updateOlxCode]. *)
Theorem no_available_code_fails_the_job :
  forall (tester : Probing.Tester) (id : N) (w : World) (a : Automation.t),
    job id w = Some a ->
    missing (univenCredentials w) = false ->
    success (univenAnswer tester w) = true ->
    missing (olxCredentials w) = false ->
    MemStorage.getAvailableOlxCodes (Automation.brokerId a) (storage w) = [] ->
    let w' := snd (Probing.startAutomation tester id w) in
    (exists a', job id w' = Some a'
                /\ Automation.status a' = lit "failed"
                /\ Automation.errorMessage a' = Some Probing.msgNenhumCodigo)
    /\ MemStorage.olxCodes (storage w') = MemStorage.olxCodes (storage w)
    /\ (exists calls, history w' = calls ++ history w /\ existsb isCodeUpdate calls = false)
    /\ Probing.msgNenhumCodigo <> Probing.msgErroDesconhecido
    /\ Probing.msgNenhumCodigo <> Probing.msgCredenciaisUniven
    /\ Probing.msgNenhumCodigo <> Probing.msgCredenciaisOlx.
Proof.
  intros tester id w a Ha Hu Hs Ho Hav w'.
  pose proof (Probing_start_observe tester id w Ha) as O. fold w' in O.
  rewrite missing_univen in Hu. rewrite univenAnswer_observe in Hs.
  rewrite missing_olx in Ho. rewrite read_available in Hav.
  rewrite job_observe in Ha.
  unfold ProbingEnd, ProbingSummary in O. cbv zeta in O.
  rewrite Hu, Hs, Ho, Hav in O. cbn [negb fst snd] in O.
  repeat split.
  - assert (J : job id w' = JsMap.get N.eqb id (automationsOf (observe w'))) by reflexivity.
    rewrite O in J. cbn [automationsOf obsActive obsUpdateAutomation ran] in J.
    rewrite (get_set_same N.eqb N.eqb_eq) in J. cbv iota beta in J.
    rewrite (get_set_same N.eqb N.eqb_eq) in J.
    eexists. split; [exact J|]. split; reflexivity.
  - change (olxCodesOf (observe w') = olxCodesOf (observe w)). rewrite O. reflexivity.
  - change (exists calls, historyOf (observe w') = calls ++ historyOf (observe w)
                          /\ existsb isCodeUpdate calls = false).
    rewrite O. cbn [historyOf obsActive obsUpdateAutomation ran rev app].
    eexists (_ :: _ :: _ :: _ :: _ :: _ :: _ :: _ :: _ :: []).
    split; reflexivity.
  - apply literal_differs. reflexivity.
  - apply literal_differs. reflexivity.
  - apply literal_differs. reflexivity.
Qed.




Lemma failed_status a m :
  Automation.status (Automation.spread a (failedUpdate m)) = lit "failed"
  /\ Automation.errorMessage (Automation.spread a (failedUpdate m)) = Some m.
Proof. split; reflexivity. Qed.

(** C8, amended: in the [Probing] variant, when the UNIVEN credentials are
    missing from the settings, or the UNIVEN probe succeeded and the OLX
    credentials are missing, the run ends with the job failed and the
    message that these credentials are not configured, and it has not
    called the probe of that system. *)
Theorem missing_credentials_stop_the_run_before_the_probe :
  forall (tester : Probing.Tester) (id : N) (w : World) (a : Automation.t) (m : Missing),
    job id w = Some a ->
    firstMissing tester w = Some m ->
    let w' := snd (Probing.startAutomation tester id w) in
    (exists a', job id w' = Some a'
                /\ Automation.status a' = lit "failed"
                /\ Automation.errorMessage a' = Some (missingMessage m))
    /\ (exists calls, history w' = calls ++ history w
                      /\ existsb (probeOf m) calls = false).
Proof.
  intros tester id w a m Ha Hm w'.
  pose proof (Probing_start_observe tester id w Ha) as O. fold w' in O.
  unfold firstMissing in Hm.
  rewrite missing_univen, univenAnswer_observe, missing_olx in Hm.
  unfold ProbingEnd, ProbingSummary in O. cbv zeta in O.
  assert (J : job id w' = JsMap.get N.eqb id (automationsOf (observe w'))) by reflexivity.
  assert (H : history w' = historyOf (observe w')) by reflexivity.
  change (history w) with (historyOf (observe w)).
  destruct (negb _ || negb _) eqn:Hu in Hm.
  - injection Hm as <-. rewrite Hu in O. cbn [fst snd] in O.
    rewrite O in J, H. cbn [automationsOf historyOf obsActive obsUpdateAutomation ran rev app] in J, H.
    rewrite (get_set_same N.eqb N.eqb_eq) in J. cbv iota beta in J.
    rewrite (get_set_same N.eqb N.eqb_eq) in J.
    split.
    + eexists. split; [exact J|]. cbn [missingMessage messageOr]. split; reflexivity.
    + eexists (_ :: _ :: _ :: []). split; [exact H|reflexivity].
  - rewrite Hu in O.
    destruct (success _) eqn:Hs in Hm; [|discriminate Hm].
    destruct (negb _ || negb _) eqn:Ho in Hm; [|discriminate Hm].
    injection Hm as <-. rewrite Hs, Ho in O. cbn [negb fst snd] in O.
    rewrite O in J, H. cbn [automationsOf historyOf obsActive obsUpdateAutomation ran rev app] in J, H.
    rewrite (get_set_same N.eqb N.eqb_eq) in J. cbv iota beta in J.
    rewrite (get_set_same N.eqb N.eqb_eq) in J.
    split.
    + eexists. split; [exact J|]. cbn [missingMessage messageOr]. split; reflexivity.
    + eexists (_ :: _ :: _ :: _ :: _ :: _ :: _ :: []). split; [exact H|reflexivity].
Qed.

(** The steps that a list of calls persists, one call more. *)
Lemma persistedSteps_cons id c calls :
  persistedSteps id (c :: calls) = persistedSteps id calls ++ persistedSteps id [c].
Proof.
  unfold persistedSteps. cbn [rev]. rewrite flat_map_app. reflexivity.
Qed.

Lemma persistedSteps_app id new calls :
  persistedSteps id (new ++ calls) = persistedSteps id calls ++ persistedSteps id new.
Proof.
  unfold persistedSteps. rewrite rev_app_distr, flat_map_app. reflexivity.
Qed.

Lemma failed_is_not_completed : lit "failed" <> lit "completed".
Proof. apply literal_differs. reflexivity. Qed.

(** *** How a run of the [Probing] variant ends *)

Lemma Probing_summary_job tester id a o :
  exists updates,
    automationsOf (snd (ProbingSummary tester id a o))
    = JsMap.set N.eqb id (updated a updates) (automationsOf o).
Proof.
  unfold ProbingSummary. cbv zeta.
  destruct (negb _ || negb _); [eexists; reflexivity|].
  destruct (negb (success _)); [eexists; reflexivity|].
  destruct (negb _ || negb _); [eexists; reflexivity|].
  destruct (availableIn _ _); eexists; reflexivity.
Qed.

Lemma Probing_failed tester id w a e :
  job id w = Some a ->
  fst (Probing.startAutomationTry tester id w) = Throw e ->
  exists a', job id (snd (Probing.startAutomation tester id w)) = Some a'
             /\ Automation.status a' = lit "failed"
             /\ Automation.errorMessage a' = Some (messageOr Probing.msgErroDesconhecido e).
Proof.
  intros Ha T.
  pose proof (Probing_start_observe tester id w Ha) as O.
  destruct (Probing_try_summary tester id w Ha) as [F _]. rewrite T in F.
  destruct (Probing_summary_job tester id a (observe w)) as [updates U].
  rewrite job_observe, O. unfold ProbingEnd. cbv zeta. rewrite <- F.
  cbn [automationsOf obsActive obsUpdateAutomation]. rewrite U.
  rewrite (get_set_same N.eqb N.eqb_eq). rewrite (get_set_same N.eqb N.eqb_eq).
  eexists. split; [reflexivity|]. split; reflexivity.
Qed.

Lemma Probing_not_found_stays tester id w :
  job id w = None -> job id (snd (Probing.startAutomation tester id w)) = None.
Proof.
  intros Ha. rewrite Probing_start_unfold.
  rewrite (Probing_try_not_found tester id w Ha).
  rewrite job_observe. cbn [snd]. rewrite observe_deleteActive, observe_Probing_catch.
  cbn [automationsOf obsActive obsUpdateAutomation].
  assert (E : observe (snd (Probing.startAutomationTry tester id w))
              = observe (snd (setActive id w))).
  { unfold Probing.startAutomationTry.
    rewrite (bind_ok (setActive id) _ w (a:=tt) eq_refl).
    rewrite (bind_ok (getAutomation id) _ (snd (setActive id w)) (a:=job id w) eq_refl).
    rewrite Ha. reflexivity. }
  rewrite E. cbn [automationsOf observe setActive modify snd withActive storage].
  unfold job, MemStorage.getAutomation in Ha. rewrite Ha. exact Ha.
Qed.

Lemma has_delete_same (id : N) (m : JsMap.t N bool) :
  JsMap.has N.eqb id (JsMap.delete N.eqb id m) = false.
Proof. unfold JsMap.has. rewrite (get_delete_same N.eqb). reflexivity. Qed.

Lemma Probing_released tester id w :
  JsMap.has N.eqb id (activeAutomations (snd (Probing.startAutomation tester id w))) = false.
Proof.
  rewrite Probing_start_unfold.
  destruct (fst (Probing.startAutomationTry tester id w)); cbn [snd]; apply has_delete_same.
Qed.

Lemma Probing_completed_steps tester id w :
  fst (Probing.startAutomationTry tester id w) = Ok tt ->
  persistedSteps id (history (snd (Probing.startAutomation tester id w)))
  = persistedSteps id (history w)
    ++ [(connecting_univen, 10%Z); (connecting_univen, 20%Z); (extracting_data, 40%Z);
        (downloading_photos, 60%Z); (connecting_olx, 80%Z); (creating_listing, 90%Z);
        (finalizing, 100%Z)].
Proof.
  intros T.
  destruct (job id w) as [a|] eqn:Ha;
    [|rewrite (Probing_try_not_found tester id w Ha) in T; discriminate].
  pose proof (Probing_start_observe tester id w Ha) as O.
  destruct (Probing_try_summary tester id w Ha) as [F _]. rewrite T in F.
  unfold ProbingEnd in O. cbv zeta in O. rewrite <- F in O. clear T.
  unfold ProbingSummary in F, O. cbv zeta in F, O.
  destruct (negb _ || negb _); [discriminate F|].
  destruct (negb (success _)); [discriminate F|].
  destruct (negb _ || negb _); [discriminate F|].
  destruct (availableIn _ _) as [|olxCode rest] eqn:Hav; [discriminate F|].
  cbn [snd] in O.
  change (history (snd (Probing.startAutomation tester id w)))
    with (historyOf (observe (snd (Probing.startAutomation tester id w)))).
  rewrite O. cbn [historyOf obsActive ran].
  rewrite persistedSteps_app. f_equal.
  unfold persistedSteps. rewrite rev_involutive.
  cbn [flat_map stepCall stepUpdate Automation.currentStep' Automation.progress' app
       completedUpdate claim].
  rewrite N.eqb_refl. reflexivity.
Qed.

(** A run of the [Probing] variant that leaves the job completed went
    through the whole [try] block. *)
Lemma Probing_completed_ran tester id w a' :
  job id (snd (Probing.startAutomation tester id w)) = Some a' ->
  Automation.status a' = lit "completed" ->
  fst (Probing.startAutomationTry tester id w) = Ok tt.
Proof.
  intros J S.
  destruct (fst (Probing.startAutomationTry tester id w)) as [[]|e] eqn:T; [reflexivity|].
  exfalso. destruct (job id w) as [a|] eqn:Ha.
  - destruct (Probing_failed tester id w Ha T) as (a'' & J' & S' & _).
    rewrite J in J'. injection J' as <-. rewrite S in S'.
    apply failed_is_not_completed. symmetry. exact S'.
  - rewrite (Probing_not_found_stays tester id w Ha) in J. discriminate J.
Qed.



Section Within.

Variable R : World -> World -> Prop.
Hypothesis R_refl : forall w, R w w.
Hypothesis R_trans : forall w1 w2 w3, R w1 w2 -> R w2 w3 -> R w1 w3.

Lemma within_ret {A} (a : A) : within R (ret a).
Proof. intros w. apply R_refl. Qed.

Lemma within_throw {A} (e : exn) : within R (throw (A:=A) e).
Proof. intros w. apply R_refl. Qed.

Lemma within_gets {A} (f : World -> A) : within R (gets f).
Proof. intros w. apply R_refl. Qed.

Lemma within_sleep ms : within R (sleep ms).
Proof. intros w. apply R_refl. Qed.

Lemma within_bind {A B} (m : M A) (k : A -> M B) :
  within R m -> (forall a, within R (k a)) -> within R (bind m k).
Proof.
  intros Hm Hk w. unfold bind. specialize (Hm w).
  destruct (m w) as [[a|e] w1]; cbn [snd] in *; [|exact Hm].
  eapply R_trans; [exact Hm|apply Hk].
Qed.

Lemma within_tryCatch {A} (m : M A) (handler : exn -> M A) :
  within R m -> (forall e, within R (handler e)) -> within R (tryCatch m handler).
Proof.
  intros Hm Hh w. unfold tryCatch. specialize (Hm w).
  destruct (m w) as [[a|e] w1]; cbn [snd] in *; [exact Hm|].
  eapply R_trans; [exact Hm|apply Hh].
Qed.

Lemma within_tryFinally {A} (m : M A) (cleanup : M unit) :
  within R m -> within R cleanup -> within R (tryFinally m cleanup).
Proof.
  intros Hm Hc w. unfold tryFinally. specialize (Hm w).
  destruct (m w) as [r w1]; cbn [snd] in *. specialize (Hc w1).
  destruct (cleanup w1) as [[[]|e] w2]; cbn [snd] in *; eapply R_trans; eassumption.
Qed.

Lemma within_forEach {A} (l : list A) (f : A -> M unit) :
  (forall x, within R (f x)) -> within R (forEach l f).
Proof.
  intros Hf. induction l as [|x l IH]; cbn [forEach].
  - apply within_ret.
  - apply within_bind; [apply Hf|intros _; exact IH].
Qed.

End Within.

Lemma within_weaken (R S : World -> World -> Prop) {A} (m : M A) :
  (forall w w', R w w' -> S w w') -> within R m -> within S m.
Proof. intros RS H w. apply RS, H. Qed.

Lemma sameRecords_refl w : sameRecords w w.
Proof. repeat split. Qed.

Lemma sameRecords_trans w1 w2 w3 : sameRecords w1 w2 -> sameRecords w2 w3 -> sameRecords w1 w3.
Proof.
  intros (A1 & C1 & S1) (A2 & C2 & S2).
  split; [congruence|split; [congruence|]].
  intros id. rewrite S2. apply S1.
Qed.

Lemma jobStays_refl id w : jobStays id w w.
Proof. intros H. exact H. Qed.

Lemma jobStays_trans id w1 w2 w3 : jobStays id w1 w2 -> jobStays id w2 w3 -> jobStays id w1 w3.
Proof. unfold jobStays. auto. Qed.

Lemma sameRecords_jobStays id w w' : sameRecords w w' -> jobStays id w w'.
Proof. intros (A & _ & _) H. unfold job, MemStorage.getAutomation in *. rewrite A. exact H. Qed.

(** The primitives that leave the records alone. *)

Lemma records_createSystemLog insertLog : within sameRecords (createSystemLog insertLog).
Proof. intros w. repeat split. Qed.

Lemma records_broadcast msg : within sameRecords (broadcast msg).
Proof. intros w. repeat split. Qed.

Lemma records_external : within sameRecords external.
Proof. intros w. unfold external. destruct (faults w) as [|[e|] rest]; repeat split. Qed.

Lemma records_withBrowser b : within sameRecords (modify (withBrowser b)).
Proof. intros w. repeat split. Qed.

Lemma records_recorded c :
  match c with UpdateAutomation _ _ | UpdateOlxCode _ _ => False | _ => True end ->
  within sameRecords (modify (recorded c)).
Proof.
  intros H w. split; [reflexivity|split; [reflexivity|]].
  intros id. cbn [snd modify recorded history].
  rewrite persistedSteps_cons. destruct c; try contradiction; cbn; apply app_nil_r.
Qed.

Lemma records_getSettings : within sameRecords getSettings.
Proof. apply within_gets, sameRecords_refl. Qed.

Create HintDb records.
#[global] Hint Resolve records_createSystemLog records_broadcast records_external
  records_withBrowser records_getSettings : records.

Ltac records :=
  repeat first
    [ solve [auto with records nocore]
    | apply records_recorded; exact I
    | apply (within_ret _ sameRecords_refl)
    | apply (within_throw _ sameRecords_refl)
    | apply (within_gets _ sameRecords_refl)
    | apply (within_sleep _ sameRecords_refl)
    | progress cbv zeta
    | apply (within_bind sameRecords_trans); [|intros ?]
    | apply (within_tryFinally sameRecords_trans)
    | apply (within_tryCatch sameRecords_trans); [|intros ?]
    | match goal with
      | |- within _ (match ?x with _ => _ end) => destruct x
      end ].

Section GuardedRecords.

Variable randomBelow : Z -> Z.
Variable cwd : str.
Variable pathJoin : list str -> str.

Lemma records_log level message automationId metadata :
  within sameRecords (Guarded.log level message automationId metadata).
Proof. unfold Guarded.log. records. Qed.

Lemma records_getBrowser : within sameRecords Guarded.getBrowser.
Proof.
  unfold Guarded.getBrowser. records.
Qed.

Lemma records_newPage : within sameRecords Guarded.newPage.
Proof. unfold Guarded.newPage. records. Qed.

Lemma records_closePage : within sameRecords Guarded.closePage.
Proof. unfold Guarded.closePage. records. Qed.

#[local] Hint Resolve records_log records_getBrowser records_newPage records_closePage
  : records.

Lemma records_extractPropertyData propertyCode automationId :
  within sameRecords (Guarded.extractPropertyData randomBelow propertyCode automationId).
Proof. unfold Guarded.extractPropertyData. records. Qed.

Lemma records_downloadLoop photosDir automationId total photoUrls :
  forall i downloadedPaths,
    within sameRecords
           (Guarded.downloadLoop pathJoin photosDir automationId total i photoUrls
                                 downloadedPaths).
Proof.
  induction photoUrls as [|photoUrl rest IH]; intros i downloadedPaths;
    cbn [Guarded.downloadLoop]; records.
Qed.

#[local] Hint Resolve records_downloadLoop : records.

Lemma records_downloadPhotos photoUrls propertyCode automationId :
  within sameRecords
         (Guarded.downloadPhotos cwd pathJoin photoUrls propertyCode automationId).
Proof.
  unfold Guarded.downloadPhotos. records.
Qed.

Lemma records_createOLXListing propertyData automation photoPaths automationId :
  within sameRecords
         (Guarded.createOLXListing propertyData automation photoPaths automationId).
Proof.
  unfold Guarded.createOLXListing, getOlxCodeByCode. records.
Qed.

End GuardedRecords.

#[global] Hint Resolve records_log records_getBrowser records_newPage records_closePage
  records_extractPropertyData records_downloadPhotos records_createOLXListing : records.

(** *** The job stays in the storage *)

Lemma job_updateAutomation id j updates w :
  job id (snd (updateAutomation j updates w))
  = if N.eqb j id
    then option_map (fun a => Automation.spread a updates) (job id w)
    else job id w.
Proof.
  rewrite !job_observe, observe_updateAutomation.
  cbn [automationsOf obsUpdateAutomation].
  destruct (N.eqb j id) eqn:E.
  - apply N.eqb_eq in E. subst j.
    destruct (JsMap.get N.eqb id (automationsOf (observe w))) as [a|] eqn:G.
    + rewrite (get_set_same N.eqb N.eqb_eq). reflexivity.
    + rewrite G. reflexivity.
  - apply N.eqb_neq in E.
    destruct (JsMap.get N.eqb j (automationsOf (observe w))) as [a|]; [|reflexivity].
    apply (get_set_other N.eqb N.eqb_eq). exact E.
Qed.

Lemma stays_updateAutomation id j updates : within (jobStays id) (updateAutomation j updates).
Proof.
  intros w H. rewrite job_updateAutomation.
  destruct (N.eqb j id); [|exact H].
  destruct (job id w); [discriminate|contradiction].
Qed.

Lemma stays_records id {A} (m : M A) : within sameRecords m -> within (jobStays id) m.
Proof. apply within_weaken. apply sameRecords_jobStays. Qed.

Ltac stays :=
  repeat lazymatch goal with
    | |- within _ (bind _ _) => apply (within_bind (@jobStays_trans _)); [|intros ?]
    | |- within _ (updateAutomation _ _) => apply stays_updateAutomation
    | |- within _ (throw _) => apply within_throw, jobStays_refl
    | |- within _ (match ?x with _ => _ end) => destruct x
    | |- within (jobStays _) _ =>
        apply stays_records; solve [auto with records nocore | records]
    end.

Section GuardedRun.

Variable randomBelow : Z -> Z.
Variable cwd : str.
Variable pathJoin : list str -> str.

Lemma stays_try id automationId :
  within (jobStays id)
         (Guarded.startAutomationTry randomBelow cwd pathJoin automationId).
Proof.
  unfold Guarded.startAutomationTry, Guarded.updateProgress, getAutomation. stays.
Qed.

(** *** The steps of a run that returns *)

Lemma emits_bind id l1 l2 {A B} (m : M A) (k : A -> M B) :
  emits id l1 m -> (forall a, emits id l2 (k a)) -> emits id (l1 ++ l2) (bind m k).
Proof.
  intros Hm Hk w. unfold bind. specialize (Hm w).
  destruct (m w) as [[a|e] w1]; cbn [fst snd] in *; [|exact I].
  specialize (Hk a w1). destruct (k a w1) as [[b|e] w2]; cbn [fst snd] in *; [|exact I].
  rewrite Hk, Hm. symmetry. apply app_assoc.
Qed.

Lemma emits_records id {A} (m : M A) : within sameRecords m -> emits id [] m.
Proof.
  intros H w. destruct (H w) as (_ & _ & S).
  destruct (fst (m w)); [|exact I]. rewrite S. symmetry. apply app_nil_r.
Qed.

Lemma emits_throw id l {A} (e : exn) : emits id l (throw (A:=A) e).
Proof. intros w. exact I. Qed.

Lemma emits_updateAutomation id updates :
  emits id (persistedSteps id [UpdateAutomation id updates]) (updateAutomation id updates).
Proof. intros w. cbn [fst snd updateAutomation modify recorded history]. apply persistedSteps_cons. Qed.

Lemma emits_as id l l' {A} (m : M A) : emits id l' m -> l' = l -> emits id l m.
Proof. intros H <-. exact H. Qed.

Lemma emits_updateProgress id step progress message :
  emits id [(step, progress)] (Guarded.updateProgress id step progress message).
Proof.
  unfold Guarded.updateProgress.
  eapply emits_as.
  - eapply emits_bind; [apply emits_updateAutomation|intros _].
    apply emits_records. records.
  - unfold persistedSteps. cbn. rewrite N.eqb_refl. reflexivity.
Qed.

Lemma emits_status id updates :
  Automation.currentStep' updates = None ->
  emits id [] (updateAutomation id updates).
Proof.
  intros H. eapply emits_as; [apply emits_updateAutomation|].
  unfold persistedSteps. cbn. rewrite H. destruct (N.eqb id id); reflexivity.
Qed.

Lemma emits_try id :
  emits id [(connecting_univen, 10%Z); (extracting_data, 30%Z); (downloading_photos, 50%Z);
            (connecting_olx, 70%Z); (creating_listing, 85%Z); (finalizing, 100%Z)]
        (Guarded.startAutomationTry randomBelow cwd pathJoin id).
Proof.
  unfold Guarded.startAutomationTry.
  eapply emits_as.
  - eapply emits_bind; [apply emits_records; records|intros found].
    instantiate (1 := [(connecting_univen, 10%Z); (extracting_data, 30%Z);
                       (downloading_photos, 50%Z); (connecting_olx, 70%Z);
                       (creating_listing, 85%Z); (finalizing, 100%Z)]).
    destruct found as [automation|]; [|apply emits_throw].
    eapply emits_as.
    + eapply emits_bind; [apply emits_status; reflexivity|intros _].
      eapply emits_bind; [apply emits_records; records|intros _].
      eapply emits_bind; [apply emits_updateProgress|intros _].
      eapply emits_bind; [apply emits_records; records|intros propertyData].
      eapply emits_bind; [apply emits_updateProgress|intros _].
      eapply emits_bind; [apply emits_updateProgress|intros _].
      eapply emits_bind; [apply emits_records; records|intros photoPaths].
      eapply emits_bind; [apply emits_updateProgress|intros _].
      eapply emits_bind; [apply emits_updateProgress|intros _].
      eapply emits_bind; [apply emits_records; records|intros _].
      eapply emits_bind; [apply emits_updateProgress|intros _].
      eapply emits_bind; [apply emits_records; records|intros now].
      eapply emits_bind; [apply emits_status; reflexivity|intros _].
      apply emits_records; records.
    + reflexivity.
  - reflexivity.
Qed.

End GuardedRun.

(** *** The whole of [startAutomation] in the [Guarded] variant *)

Section GuardedStart.

Variable randomBelow : Z -> Z.
Variable cwd : str.
Variable pathJoin : list str -> str.

Local Abbreviation try_ := (Guarded.startAutomationTry randomBelow cwd pathJoin).
Local Abbreviation start := (Guarded.startAutomation randomBelow cwd pathJoin).

Lemma observe_Guarded_log level message automationId metadata w :
  observe (snd (Guarded.log level message automationId metadata w)) = observe w.
Proof. reflexivity. Qed.

Lemma Guarded_catch_ok id e w : fst (Guarded.startAutomationCatch id e w) = Ok tt.
Proof. reflexivity. Qed.

Lemma observe_Guarded_catch id e w :
  observe (snd (Guarded.startAutomationCatch id e w))
  = obsUpdateAutomation id (failedUpdate (messageOr (stringOf e) e)) (observe w).
Proof.
  unfold Guarded.startAutomationCatch.
  rewrite (bind_ok (Guarded.log _ _ _ _) _ w (a:=tt) eq_refl). cbv beta.
  rewrite observe_updateAutomation, observe_Guarded_log.
  destruct e; reflexivity.
Qed.

(** A second start of a job that is running only logs a warning. *)
Lemma Guarded_start_active id w :
  JsMap.has N.eqb id (activeAutomations w) = true ->
  start id w
  = Guarded.log Level.warning (Guarded.msgAlreadyRunning id) (Some id) None w.
Proof.
  intros H. unfold Guarded.startAutomation.
  rewrite (bind_ok (isActive id) _ w (a:=JsMap.has N.eqb id (activeAutomations w)) eq_refl).
  rewrite H. reflexivity.
Qed.

Lemma Guarded_start_unfold id w :
  JsMap.has N.eqb id (activeAutomations w) = false ->
  start id w
  = let w1 := snd (setActive id w) in
    match fst (try_ id w1) with
    | Ok _ => (Ok tt, snd (deleteActive id (snd (try_ id w1))))
    | Throw e =>
        (Ok tt, snd (deleteActive id
                       (snd (Guarded.startAutomationCatch id e (snd (try_ id w1))))))
    end.
Proof.
  intros H. unfold Guarded.startAutomation.
  rewrite (bind_ok (isActive id) _ w (a:=JsMap.has N.eqb id (activeAutomations w)) eq_refl).
  rewrite H.
  rewrite (bind_ok (setActive id) _ w (a:=tt) eq_refl).
  cbv zeta. unfold tryFinally, tryCatch.
  destruct (try_ id (snd (setActive id w))) as [[[]|e] w2]; reflexivity.
Qed.

Lemma Guarded_released id w :
  JsMap.has N.eqb id (activeAutomations w) = false ->
  JsMap.has N.eqb id (activeAutomations (snd (start id w))) = false.
Proof.
  intros H. rewrite (Guarded_start_unfold id w H). cbv zeta.
  destruct (fst (try_ id (snd (setActive id w)))); cbn [snd]; apply has_delete_same.
Qed.

Lemma Guarded_failed id w a e :
  job id w = Some a ->
  JsMap.has N.eqb id (activeAutomations w) = false ->
  fst (try_ id (snd (setActive id w))) = Throw e ->
  exists a', job id (snd (start id w)) = Some a'
             /\ Automation.status a' = lit "failed"
             /\ Automation.errorMessage a' = Some (messageOr (stringOf e) e).
Proof.
  intros Ha H T. rewrite (Guarded_start_unfold id w H). cbv zeta. rewrite T. cbn [snd].
  assert (S : job id (snd (try_ id (snd (setActive id w)))) <> None).
  { apply (stays_try randomBelow cwd pathJoin id id). change (job id w <> None).
    rewrite Ha. discriminate. }
  destruct (job id (snd (try_ id (snd (setActive id w))))) as [a2|] eqn:J; [|contradiction].
  rewrite job_observe in J.
  rewrite job_observe, observe_deleteActive, observe_Guarded_catch.
  cbn [automationsOf obsActive obsUpdateAutomation]. rewrite J.
  rewrite (get_set_same N.eqb N.eqb_eq).
  eexists. split; [reflexivity|]. split; reflexivity.
Qed.

Lemma Guarded_not_found_stays id w :
  job id w = None -> job id (snd (start id w)) = None.
Proof.
  intros Ha.
  destruct (JsMap.has N.eqb id (activeAutomations w)) eqn:H.
  - rewrite (Guarded_start_active id w H). exact Ha.
  - rewrite (Guarded_start_unfold id w H). cbv zeta.
    assert (T : try_ id (snd (setActive id w))
                = (Throw (JsError (Guarded.msgNotFound id)), snd (setActive id w))).
    { unfold Guarded.startAutomationTry.
      rewrite (bind_ok (getAutomation id) _ (snd (setActive id w)) (a:=job id w) eq_refl).
      rewrite Ha. reflexivity. }
    rewrite T. cbn [fst snd].
    rewrite job_observe, observe_deleteActive, observe_Guarded_catch.
    cbn [automationsOf obsActive obsUpdateAutomation].
    rewrite job_observe in Ha.
    change (observe (snd (setActive id w)))
      with (obsActive (JsMap.set N.eqb id true (activeOf (observe w))) (observe w)).
    cbn [automationsOf obsActive]. rewrite Ha. exact Ha.
Qed.

Lemma Guarded_completed_steps id w :
  JsMap.has N.eqb id (activeAutomations w) = false ->
  fst (try_ id (snd (setActive id w))) = Ok tt ->
  persistedSteps id (history (snd (start id w)))
  = persistedSteps id (history w)
    ++ [(connecting_univen, 10%Z); (extracting_data, 30%Z); (downloading_photos, 50%Z);
        (connecting_olx, 70%Z); (creating_listing, 85%Z); (finalizing, 100%Z)].
Proof.
  intros H T. rewrite (Guarded_start_unfold id w H). cbv zeta. rewrite T. cbn [snd].
  pose proof (emits_try randomBelow cwd pathJoin id (snd (setActive id w))) as E.
  rewrite T in E. exact E.
Qed.

Lemma Guarded_completed_ran id w a' :
  JsMap.has N.eqb id (activeAutomations w) = false ->
  job id (snd (start id w)) = Some a' ->
  Automation.status a' = lit "completed" ->
  fst (try_ id (snd (setActive id w))) = Ok tt.
Proof.
  intros H J S.
  destruct (fst (try_ id (snd (setActive id w)))) as [[]|e] eqn:T; [reflexivity|].
  exfalso. destruct (job id w) as [a|] eqn:Ha.
  - destruct (Guarded_failed id w Ha H T) as (a'' & J' & S' & _).
    rewrite J in J'. injection J' as <-. rewrite S in S'.
    apply failed_is_not_completed. symmetry. exact S'.
  - rewrite (Guarded_not_found_stays id w Ha) in J. discriminate J.
Qed.

End GuardedStart.

(* ================================================================== *)
(** ** The connectivity tests *)
(* ================================================================== *)

(** C1, as stated, fails: where the login would answer ["0!-!ignored"],
    which the classification reads as a success, and the browser finds the
    login page without a session, [testUnivenConnection] answers that there
    is no active session, a failure. *)
Lemma login_response_never_reaches_the_classification :
  let site :=
    {| ConnectivityTester.importPuppeteer := None;
       ConnectivityTester.launchBrowser := None;
       ConnectivityTester.navigation := ConnectivityTester.GotoStatus 200;
       ConnectivityTester.pageUrl := lit "https://www.univenweb.com.br/login";
       ConnectivityTester.readBody := None;
       ConnectivityTester.pageHtml := lit "<html><body><form>Entrar</form></body></html>";
       ConnectivityTester.closeBrowser := None;
       ConnectivityTester.loginResponseBody := lit "0!-!ignored" |} in
  success (fst (ConnectivityTester.classifyResponse 5000
                  (ConnectivityTester.loginResponseText
                     (ConnectivityTester.loginResponseBody site)))) = true
  /\ success (fst (ConnectivityTester.testUnivenConnection asciiLower 5000 site)) = false
  /\ message (fst (ConnectivityTester.testUnivenConnection asciiLower 5000 site))
     = ConnectivityTester.msgSemSessao.
Proof. vm_compute. repeat split; reflexivity. Qed.

Ltac same := lazymatch goal with |- ?a = ?a => reflexivity end.

Ltac settled :=
  cbn [fst success message univenResult];
  first [ left; split; same
        | right; split;
          [ same
          | first [ left; same
                  | right; left; same
                  | right; right;
                    lazymatch goal with
                    | |- exists status, ConnectivityTester.msgInacessivel ?s = _ =>
                        exists s; same
                    end ] ] ].

(** C1, amended: the classification of lines 812-921 is a function of the
    response text alone and gives the five verdicts of the claim: success
    for ["0!-!ignored"], the incorrect-password failure for ["1!-!bad"],
    the access-limit failure for ["3!-!x"], the system-error failure for
    the empty text, success for ["eval(window.open(...))"].
    [testUnivenConnection] returns before it: its result does not depend on
    what the login would answer, and it is the active-session success, or
    the failure of no session, of an unreachable site or of a connectivity
    error. *)
Theorem classification_is_pure_and_the_probe_returns_before_it :
  (forall now : Z,
      let verdict := fun text => fst (ConnectivityTester.classifyResponse now text) in
      success (verdict (lit "0!-!ignored")) = true
      /\ (success (verdict (lit "1!-!bad")) = false
          /\ message (verdict (lit "1!-!bad")) = ConnectivityTester.msgSenhaIncorreta)
      /\ (success (verdict (lit "3!-!x")) = false
          /\ message (verdict (lit "3!-!x")) = ConnectivityTester.msgAcessosExcedidos)
      /\ (success (verdict []) = false
          /\ message (verdict []) = ConnectivityTester.msgErroSistema)
      /\ success (verdict (lit "eval(window.open(...))")) = true)
  /\ (forall (toLowerCase : str -> str) (now : Z) importPuppeteer launchBrowser navigation
             pageUrl readBody pageHtml closeBrowser (body1 body2 : str),
         ConnectivityTester.testUnivenConnection toLowerCase now
           {| ConnectivityTester.importPuppeteer := importPuppeteer;
              ConnectivityTester.launchBrowser := launchBrowser;
              ConnectivityTester.navigation := navigation;
              ConnectivityTester.pageUrl := pageUrl;
              ConnectivityTester.readBody := readBody;
              ConnectivityTester.pageHtml := pageHtml;
              ConnectivityTester.closeBrowser := closeBrowser;
              ConnectivityTester.loginResponseBody := body1 |}
         = ConnectivityTester.testUnivenConnection toLowerCase now
             {| ConnectivityTester.importPuppeteer := importPuppeteer;
                ConnectivityTester.launchBrowser := launchBrowser;
                ConnectivityTester.navigation := navigation;
                ConnectivityTester.pageUrl := pageUrl;
                ConnectivityTester.readBody := readBody;
                ConnectivityTester.pageHtml := pageHtml;
                ConnectivityTester.closeBrowser := closeBrowser;
                ConnectivityTester.loginResponseBody := body2 |})
  /\ (forall (toLowerCase : str -> str) (now : Z) (site : ConnectivityTester.UnivenSite),
         let r := fst (ConnectivityTester.testUnivenConnection toLowerCase now site) in
         (success r = true /\ message r = ConnectivityTester.msgSessaoAtiva)
         \/ (success r = false
             /\ (message r = ConnectivityTester.msgSemSessao
                 \/ message r = ConnectivityTester.msgErroConectividade
                 \/ exists status, message r = ConnectivityTester.msgInacessivel status))).
Proof.
  split; [|split].
  - intros now verdict. subst verdict. vm_compute. repeat split; reflexivity.
  - reflexivity.
  - intros toLowerCase now site r. subst r.
    unfold ConnectivityTester.testUnivenConnection, ConnectivityTester.browserPhase,
      ConnectivityTester.detectSession.
    destruct (ConnectivityTester.importPuppeteer site); [settled|].
    destruct (ConnectivityTester.launchBrowser site); [settled|].
    destruct (ConnectivityTester.navigation site) as [e| |status]; [settled|settled|].
    destruct (negb (status =? 200)%N); [settled|].
    destruct (ConnectivityTester.urlOutsideLogin (ConnectivityTester.pageUrl site)).
    + destruct (ConnectivityTester.readBody site).
      { destruct (ConnectivityTester.closeBrowser site); settled. }
      destruct (ConnectivityTester.hasSessionIndicator toLowerCase
                  (ConnectivityTester.pageHtml site));
        destruct (ConnectivityTester.closeBrowser site); settled.
    + destruct (ConnectivityTester.closeBrowser site); settled.
Qed.

Lemma countTrue_positive (indicators : list bool) :
  In true indicators -> (0 <? BrowserProbe.countTrue indicators) = true.
Proof.
  unfold BrowserProbe.countTrue. induction indicators as [|b l IH]; intros H; [destruct H|].
  cbn [filter]. destruct b; [reflexivity|].
  destruct H as [H|H]; [discriminate H|]. apply IH, H.
Qed.

Ltac pick :=
  repeat lazymatch goal with
    | |- true = true \/ _ => left; reflexivity
    | |- _ \/ _ => right
    end.









(* ================================================================== *)
(** ** The browser that [getBrowser] launches *)
(* ================================================================== *)

(** C9: in both variants [getBrowser] makes the same calls whatever the
    settings store holds: none when a connected browser is there, and
    otherwise one launch with the fixed options of the variant, which are
    [headless: true] and a fixed list of flags.  The [headless] and
    [browserType] settings are read and not used. *)
Theorem the_launched_browser_ignores_the_settings :
  (forall (w : World) (settings1 settings2 : JsMap.t str Settings.t) (next1 next2 : N),
      let w1 := withStorage (MemStorage.withSettings settings1 next1 (storage w)) w in
      let w2 := withStorage (MemStorage.withSettings settings2 next2 (storage w)) w in
      history (snd (Probing.getBrowser w1)) = history (snd (Probing.getBrowser w2))
      /\ history (snd (Guarded.getBrowser w1)) = history (snd (Guarded.getBrowser w2)))
  /\ (forall w : World,
         history (snd (Probing.getBrowser w))
         = match browser w with
           | Some true => history w
           | _ => Launch Probing.launchOptions :: history w
           end
         /\ history (snd (Guarded.getBrowser w))
            = match browser w with
              | Some true => history w
              | _ => Launch Guarded.launchOptions :: history w
              end)
  /\ headless Probing.launchOptions = true
  /\ headless Guarded.launchOptions = true
  /\ length (args Probing.launchOptions) = 8
  /\ length (args Guarded.launchOptions) = 21.
Proof.
  assert (P : forall w, history (snd (Probing.getBrowser w))
                        = match browser w with
                          | Some true => history w
                          | _ => Launch Probing.launchOptions :: history w
                          end).
  { intros w.
    cbv beta iota delta [Probing.getBrowser bind gets getSettings modify ret external].
    destruct (browser w) as [[|]|]; cbv beta iota; cbn [faults recorded];
      try reflexivity; destruct (faults w) as [|[e|] rest]; reflexivity. }
  assert (G : forall w, history (snd (Guarded.getBrowser w))
                        = match browser w with
                          | Some true => history w
                          | _ => Launch Guarded.launchOptions :: history w
                          end).
  { intros w.
    cbv beta iota delta [Guarded.getBrowser bind gets getSettings modify ret external].
    destruct (browser w) as [[|]|]; cbv beta iota; cbn [faults recorded];
      try reflexivity; destruct (faults w) as [|[e|] rest]; reflexivity. }
  split; [|split; [|repeat split]].
  - intros w settings1 settings2 next1 next2 w1 w2.
    rewrite !P, !G. subst w1 w2. split; reflexivity.
  - intros w. split; [apply P | apply G].
Qed.

(* ================================================================== *)
(** ** [deleteSystemLogs] *)
(* ================================================================== *)

Section Sweep.

Variable V : Type.

Lemma filter_twice (f g : N * V -> bool) (m : list (N * V)) :
  filter f (filter g m) = filter (fun entry => g entry && f entry) m.
Proof.
  induction m as [|entry m IH]; cbn [filter]; [reflexivity|].
  destruct (g entry); cbn [filter andb]; [destruct (f entry)|]; congruence.
Qed.

(** Deleting a list of keys one after the other keeps the entries under the
    other keys, in their order, and counts the keys. *)
Lemma sweep_fold (ids : list N) (n : nat) (m : JsMap.t N V) :
  fold_left (fun (acc : nat * JsMap.t N V) id =>
               (S (fst acc), JsMap.delete N.eqb id (snd acc)))
            ids (n, m)
  = (length ids + n,
     filter (fun entry => negb (existsb (fun id => N.eqb id (fst entry)) ids)) m).
Proof.
  revert n m. induction ids as [|id ids IH]; intros n m; cbn [fold_left fst snd length].
  - cbn [existsb negb plus]. f_equal.
    induction m as [|entry m IHm]; cbn [filter]; congruence.
  - rewrite IH. f_equal; [lia|].
    unfold JsMap.delete. rewrite filter_twice.
    apply filter_ext. intros entry. cbn [existsb].
    symmetry. apply negb_orb.
Qed.

(** Under distinct keys, a key belongs to the selected entries exactly when
    its own entry is selected. *)
Lemma selected_key (select : N * V -> bool) (m : JsMap.t N V) (entry : N * V) :
  NoDup (JsMap.keys m) -> In entry m ->
  existsb (fun id => N.eqb id (fst entry)) (map fst (filter select m)) = select entry.
Proof.
  unfold JsMap.keys. induction m as [|e m IH]; intros D I; [destruct I|].
  cbn [map] in D. inversion D as [|k ks Hk Hks]; subst.
  cbn [filter]. destruct I as [->|I].
  - destruct (select entry) eqn:S; cbn [map existsb].
    + rewrite N.eqb_refl. reflexivity.
    + apply not_true_is_false. intros E. apply existsb_exists in E.
      destruct E as (id & Hid & E). apply N.eqb_eq in E. subst id.
      apply Hk. apply in_map_iff in Hid. destruct Hid as (e' & <- & He').
      apply filter_In in He'. apply in_map. apply He'.
  - assert (N.eqb (fst e) (fst entry) = false) as Ne.
    { apply N.eqb_neq. intros E. apply Hk. rewrite E. apply in_map. exact I. }
    destruct (select e); cbn [map existsb]; rewrite ?Ne; cbn [orb]; apply IH; assumption.
Qed.

End Sweep.

(** C10: on a map of log entries (distinct keys), [deleteSystemLogs] with a
    cutoff keeps, in their order and unchanged, exactly the entries whose
    timestamp is not earlier than the cutoff, and returns the number of the
    entries that are earlier; without a cutoff it empties the map and
    returns the number of entries it held. *)
Theorem deleteSystemLogs_removes_exactly_the_older_entries :
  forall s : MemStorage.t,
    NoDup (JsMap.keys (MemStorage.systemLogs s)) ->
    (forall olderThan : JsDate,
        let older := fun entry : N * SystemLog.t =>
                       before (SystemLog.timestamp (snd entry)) olderThan in
        let r := MemStorage.deleteSystemLogs (Some olderThan) s in
        MemStorage.systemLogs (snd r)
        = filter (fun entry => negb (older entry)) (MemStorage.systemLogs s)
        /\ fst r = length (filter older (MemStorage.systemLogs s)))
    /\ (forall (cutoff : Z) (entry : N * SystemLog.t),
           In entry (MemStorage.systemLogs
                       (snd (MemStorage.deleteSystemLogs (Some (ValidDate cutoff)) s)))
           <-> In entry (MemStorage.systemLogs s)
               /\ (cutoff <= SystemLog.timestamp (snd entry))%Z)
    /\ (let r := MemStorage.deleteSystemLogs None s in
        MemStorage.systemLogs (snd r) = []
        /\ fst r = length (MemStorage.systemLogs s)).
Proof.
  intros s D.
  assert (A : forall olderThan : JsDate,
             let older := fun entry : N * SystemLog.t =>
                            before (SystemLog.timestamp (snd entry)) olderThan in
             let r := MemStorage.deleteSystemLogs (Some olderThan) s in
             MemStorage.systemLogs (snd r)
             = filter (fun entry => negb (older entry)) (MemStorage.systemLogs s)
             /\ fst r = length (filter older (MemStorage.systemLogs s))).
  { intros olderThan older r. subst r. unfold MemStorage.deleteSystemLogs.
    rewrite sweep_fold. cbn [fst snd MemStorage.withSystemLogs MemStorage.systemLogs].
    split.
    - apply filter_ext_in. intros entry I. f_equal.
      apply (selected_key older _ entry D I).
    - rewrite length_map. fold older. lia. }
  split; [exact A|split].
  - intros cutoff entry. destruct (A (ValidDate cutoff)) as [-> _].
    rewrite filter_In. cbn [before]. rewrite negb_true_iff, Z.ltb_ge. reflexivity.
  - split; reflexivity.
Qed.

Lemma deleteSystemLogs_on_three_entries :
  NoDup (JsMap.keys (MemStorage.systemLogs Sample.threeLogs))
  /\ JsMap.keys (MemStorage.systemLogs
                  (snd (MemStorage.deleteSystemLogs (Some (ValidDate 200)) Sample.threeLogs)))
     = [2%N; 3%N]
  /\ fst (MemStorage.deleteSystemLogs (Some (ValidDate 200)) Sample.threeLogs) = 1.
Proof.
  assert (D : NoDup (JsMap.keys (MemStorage.systemLogs Sample.threeLogs))).
  { cbn. repeat constructor; cbn; intuition discriminate. }
  destruct (deleteSystemLogs_removes_exactly_the_older_entries Sample.threeLogs D) as (A & _ & _).
  destruct (A (ValidDate 200)) as [L C].
  split; [exact D|]. split.
  - rewrite L. reflexivity.
  - rewrite C. reflexivity.
Defined.

(* ================================================================== *)
(** ** Starting a job that is running *)
(* ================================================================== *)

(** The [Guarded] variant answers a second start of a running job with a
    warning in the log: no call is made, no job or code changes, the job
    stays in the active set. *)
Lemma Guarded_second_start_only_warns randomBelow cwd pathJoin id w :
  JsMap.has N.eqb id (activeAutomations w) = true ->
  let w' := snd (Guarded.startAutomation randomBelow cwd pathJoin id w) in
  observe w' = observe w
  /\ exists entry,
       MemStorage.systemLogs (storage w')
       = JsMap.set N.eqb (SystemLog.id entry) entry (MemStorage.systemLogs (storage w))
       /\ SystemLog.level entry = Level.warning
       /\ SystemLog.message entry = Guarded.msgAlreadyRunning id.
Proof.
  intros H w'. subst w'. rewrite (Guarded_start_active randomBelow cwd pathJoin id w H).
  split; [reflexivity|]. eexists. split; [reflexivity|]. split; reflexivity.
Qed.

(** C2, at a job that is running: in the [Probing] variant a second
    [startAutomation] of job 1 while 1 is in the active set goes through the
    whole run again.  It persists the seven step updates, takes a free OLX
    code, completes the job, and removes the id from the active set that the
    first run still relies on. *)
Theorem a_second_start_runs_the_probing_service_again :
  let w' := snd (Probing.startAutomation Sample.reachable 1 Sample.running) in
  JsMap.has N.eqb 1%N (activeAutomations Sample.running) = true
  /\ persistedSteps 1 (history w')
     = [(connecting_univen, 10%Z); (connecting_univen, 20%Z); (extracting_data, 40%Z);
        (downloading_photos, 60%Z); (connecting_olx, 80%Z); (creating_listing, 90%Z);
        (finalizing, 100%Z)]
  /\ option_map Automation.status (job 1 w') = Some (lit "completed")
  /\ map (fun c => (OlxCode.id c, OlxCode.isUsed c, OlxCode.currentAutomationId c))
         (JsMap.values (MemStorage.olxCodes (storage w')))
     = [(1%N, true, Some 7%N); (2%N, true, Some 1%N); (3%N, false, None)]
  /\ JsMap.has N.eqb 1%N (activeAutomations w') = false.
Proof. vm_compute. repeat split. Qed.

(* ================================================================== *)
(** ** Claiming an OLX code *)
(* ================================================================== *)



(* ================================================================== *)
(** ** Runs that fail *)
(* ================================================================== *)

(** C5: for a job that the storage holds, in both variants of the service:
    whatever the [try] block of [startAutomation] throws, the job is
    persisted as failed with the exception's message ([error.message] of an
    [Error]) as its [errorMessage]; and when [startAutomation] has returned,
    on any path, the job id is not in the active set.  The [Guarded] variant
    runs the job only when it is not running already. *)
Theorem a_thrown_exception_fails_the_job_and_frees_its_id :
  forall (tester : Probing.Tester) (randomBelow : Z -> Z) (cwd : str)
         (pathJoin : list str -> str) (id : N) (w : World) (a : Automation.t),
    job id w = Some a ->
    let probing := snd (Probing.startAutomation tester id w) in
    let guarded := snd (Guarded.startAutomation randomBelow cwd pathJoin id w) in
    (forall e : exn,
        fst (Probing.startAutomationTry tester id w) = Throw e ->
        exists a', job id probing = Some a'
                   /\ Automation.status a' = lit "failed"
                   /\ Automation.errorMessage a'
                      = Some (messageOr Probing.msgErroDesconhecido e))
    /\ JsMap.has N.eqb id (activeAutomations probing) = false
    /\ (JsMap.has N.eqb id (activeAutomations w) = false ->
        (forall e : exn,
            fst (Guarded.startAutomationTry randomBelow cwd pathJoin id (snd (setActive id w)))
            = Throw e ->
            exists a', job id guarded = Some a'
                       /\ Automation.status a' = lit "failed"
                       /\ Automation.errorMessage a' = Some (messageOr (stringOf e) e))
        /\ JsMap.has N.eqb id (activeAutomations guarded) = false)
    /\ (forall (m fallback : str), messageOr fallback (JsError m) = m).
Proof.
  intros tester randomBelow cwd pathJoin id w a Ha probing guarded.
  split; [|split; [|split]].
  - intros e T. exact (Probing_failed tester id w Ha T).
  - apply Probing_released.
  - intros H. split.
    + intros e T. exact (Guarded_failed randomBelow cwd pathJoin id w Ha H T).
    + apply Guarded_released. exact H.
  - reflexivity.
Qed.

(** On a storage without credentials and without codes both variants throw:
    the [Probing] variant for the missing UNIVEN credentials, the [Guarded]
    variant for the OLX code of the job that it does not find. *)
Lemma failing_runs_on_a_storage_without_codes :
  (exists a',
      job 1 (snd (Probing.startAutomation Sample.reachable 1 Sample.withoutCodes)) = Some a'
      /\ Automation.status a' = lit "failed"
      /\ Automation.errorMessage a'
         = Some (messageOr Probing.msgErroDesconhecido (JsError Probing.msgCredenciaisUniven)))
  /\ (exists a',
         job 1 (snd (Guarded.startAutomation Sample.randomBelow Sample.cwd Sample.pathJoin 1
                                             Sample.withoutCodes)) = Some a'
         /\ Automation.status a' = lit "failed"
         /\ Automation.errorMessage a'
            = Some (messageOr (stringOf (JsError (Guarded.msgOlxCodeNotFound (lit "HA00011"))))
                              (JsError (Guarded.msgOlxCodeNotFound (lit "HA00011")))))
  /\ JsMap.has N.eqb 1%N
       (activeAutomations (snd (Probing.startAutomation Sample.reachable 1 Sample.withoutCodes)))
     = false
  /\ JsMap.has N.eqb 1%N
       (activeAutomations
          (snd (Guarded.startAutomation Sample.randomBelow Sample.cwd Sample.pathJoin 1
                                        Sample.withoutCodes)))
     = false.
Proof.
  assert (J : job 1 Sample.withoutCodes = Some Sample.job) by (vm_compute; reflexivity).
  assert (H : JsMap.has N.eqb 1%N (activeAutomations Sample.withoutCodes) = false)
    by (vm_compute; reflexivity).
  destruct (a_thrown_exception_fails_the_job_and_frees_its_id
              Sample.reachable Sample.randomBelow Sample.cwd Sample.pathJoin
              1 Sample.withoutCodes J) as (P & RP & G & _).
  destruct (G H) as (G' & RG).
  split; [|split; [|split]].
  - refine (P (JsError Probing.msgCredenciaisUniven) _). vm_compute. reflexivity.
  - refine (G' (JsError (Guarded.msgOlxCodeNotFound (lit "HA00011"))) _). vm_compute. reflexivity.
  - exact RP.
  - exact RG.
Defined.

(** The run on a storage whose only code is used. *)
Lemma no_available_code_fails_the_job_when_sold_out :
  let tester := Sample.reachable in
  let id := 1%N in
  let w := Sample.soldOut in
  let w' := snd (Probing.startAutomation tester id w) in
  (exists a', job id w' = Some a'
              /\ Automation.status a' = lit "failed"
              /\ Automation.errorMessage a' = Some Probing.msgNenhumCodigo)
  /\ MemStorage.olxCodes (storage w') = MemStorage.olxCodes (storage w)
  /\ (exists calls, history w' = calls ++ history w /\ existsb isCodeUpdate calls = false)
  /\ Probing.msgNenhumCodigo <> Probing.msgErroDesconhecido
  /\ Probing.msgNenhumCodigo <> Probing.msgCredenciaisUniven
  /\ Probing.msgNenhumCodigo <> Probing.msgCredenciaisOlx.
Proof.
  intros tester id w.
  refine (no_available_code_fails_the_job tester id w (a:=Sample.job) _ _ _ _ _);
    vm_compute; reflexivity.
Defined.

(** The run on the settings that [MemStorage] starts with, which hold no
    credentials. *)
Lemma missing_credentials_stop_the_unconfigured_run :
  let tester := Sample.reachable in
  let id := 1%N in
  let w := Sample.unconfigured in
  let m := MissingUniven in
  let w' := snd (Probing.startAutomation tester id w) in
  (exists a', job id w' = Some a'
              /\ Automation.status a' = lit "failed"
              /\ Automation.errorMessage a' = Some (missingMessage m))
  /\ (exists calls, history w' = calls ++ history w
                    /\ existsb (probeOf m) calls = false).
Proof.
  intros tester id w m.
  refine (missing_credentials_stop_the_run_before_the_probe tester id w (a:=Sample.job) (m:=m) _ _);
    vm_compute; reflexivity.
Defined.

(** C8, as stated, fails on the [Guarded] variant: with no credentials in
    the settings its run does not fail, it completes. *)
Lemma guarded_run_completes_without_credentials :
  let w := Sample.unconfigured in
  let w' := snd (Guarded.startAutomation Sample.randomBelow Sample.cwd Sample.pathJoin 1 w) in
  missing (univenCredentials w) = true
  /\ missing (olxCredentials w) = true
  /\ option_map Automation.status (job 1 w') = Some (lit "completed")
  /\ option_map Automation.errorMessage (job 1 w') = Some None.
Proof. vm_compute. repeat split. Qed.

(* ================================================================== *)
(** ** The steps of a run that completes *)
(* ================================================================== *)

(** C6, as stated, fails on the [Probing] variant: its run that completes
    persists [connecting_univen] twice, so the persisted steps are not the
    six steps once each. *)
Lemma probing_run_persists_connecting_univen_twice :
  let w' := snd (Probing.startAutomation Sample.reachable 1 Sample.ready) in
  option_map Automation.status (job 1 w') = Some (lit "completed")
  /\ map fst (persistedSteps 1 (history w'))
     = [connecting_univen; connecting_univen; extracting_data; downloading_photos;
        connecting_olx; creating_listing; finalizing]
  /\ map fst (persistedSteps 1 (history w')) <> sixSteps.
Proof.
  vm_compute. split; [reflexivity|]. split; [reflexivity|]. discriminate.
Qed.

(** C6, amended: a run that leaves the job completed has persisted, after
    what was persisted before, in the [Guarded] variant the six steps in
    their order, once each, and in the [Probing] variant [connecting_univen]
    twice in a row and then the other five, which is the six steps in their
    order once adjacent repetitions are merged; in both the progress never
    goes down from one update to the next. *)
Theorem a_completed_run_walks_the_six_steps_in_order :
  forall (tester : Probing.Tester) (randomBelow : Z -> Z) (cwd : str)
         (pathJoin : list str -> str) (id : N) (w : World),
    let probing := snd (Probing.startAutomation tester id w) in
    let guarded := snd (Guarded.startAutomation randomBelow cwd pathJoin id w) in
    (forall a', job id probing = Some a' ->
                Automation.status a' = lit "completed" ->
                exists new,
                  persistedSteps id (history probing) = persistedSteps id (history w) ++ new
                  /\ map fst new = connecting_univen :: sixSteps
                  /\ merged (map fst new) = sixSteps
                  /\ nonDecreasing (map snd new) = true)
    /\ (JsMap.has N.eqb id (activeAutomations w) = false ->
        forall a', job id guarded = Some a' ->
                   Automation.status a' = lit "completed" ->
                   exists new,
                     persistedSteps id (history guarded) = persistedSteps id (history w) ++ new
                     /\ map fst new = sixSteps
                     /\ nonDecreasing (map snd new) = true).
Proof.
  intros tester randomBelow cwd pathJoin id w probing guarded. split.
  - intros a' J S.
    pose proof (Probing_completed_ran tester id w J S) as T.
    eexists. split; [exact (Probing_completed_steps tester id w T)|].
    split; [reflexivity|]. split; reflexivity.
  - intros H a' J S.
    pose proof (Guarded_completed_ran randomBelow cwd pathJoin id w H J S) as T.
    eexists. split; [exact (Guarded_completed_steps randomBelow cwd pathJoin id w H T)|].
    split; reflexivity.
Qed.

(** Both variants complete the ready job. *)
Lemma completed_runs_of_the_ready_job :
  (exists new,
      persistedSteps 1 (history (snd (Probing.startAutomation Sample.reachable 1 Sample.ready)))
      = persistedSteps 1 (history Sample.ready) ++ new
      /\ map fst new = connecting_univen :: sixSteps
      /\ merged (map fst new) = sixSteps
      /\ nonDecreasing (map snd new) = true)
  /\ (exists new,
         persistedSteps 1
           (history (snd (Guarded.startAutomation Sample.randomBelow Sample.cwd
                                                  Sample.pathJoin 1 Sample.ready)))
         = persistedSteps 1 (history Sample.ready) ++ new
         /\ map fst new = sixSteps
         /\ nonDecreasing (map snd new) = true).
Proof.
  destruct (a_completed_run_walks_the_six_steps_in_order
              Sample.reachable Sample.randomBelow Sample.cwd Sample.pathJoin 1 Sample.ready)
    as [P G].
  assert (JP : exists a',
             job 1 (snd (Probing.startAutomation Sample.reachable 1 Sample.ready)) = Some a'
             /\ Automation.status a' = lit "completed").
  { vm_compute. eexists. split; reflexivity. }
  assert (JG : exists a',
             job 1 (snd (Guarded.startAutomation Sample.randomBelow Sample.cwd
                                                 Sample.pathJoin 1 Sample.ready)) = Some a'
             /\ Automation.status a' = lit "completed").
  { vm_compute. eexists. split; reflexivity. }
  destruct JP as (aP & JP & SP). destruct JG as (aG & JG & SG).
  split.
  - exact (P aP JP SP).
  - refine (G _ aG JG SG). vm_compute. reflexivity.
Defined.

(* ================================================================== *)
(** ** More on the maps *)
(* ================================================================== *)

Section MoreMapFacts.

Variables K V : Type.
Variable keq : K -> K -> bool.
Hypothesis keq_eq : forall a b, keq a b = true <-> a = b.

Lemma get_absent (k : K) (m : JsMap.t K V) :
  JsMap.get keq k m = None <-> ~ In k (JsMap.keys m).
Proof.
  induction m as [|[k' v'] m IH]; cbn [JsMap.get JsMap.keys map In fst].
  - tauto.
  - destruct (keq k k') eqn:E.
    + apply keq_eq in E. subst k'. split; [discriminate|]. intros H. exfalso. apply H. now left.
    + assert (k' <> k) by (intros ->; rewrite (keq_refl keq keq_eq) in E; discriminate).
      fold (JsMap.keys m). tauto.
Qed.

Lemma get_present (k : K) (v : V) (m : JsMap.t K V) :
  JsMap.get keq k m = Some v -> In (k, v) m.
Proof.
  induction m as [|[k' v'] m IH]; cbn [JsMap.get In]; [discriminate|].
  destruct (keq k k') eqn:E.
  - apply keq_eq in E. subst k'. intros [= ->]. now left.
  - intros H. right. apply IH, H.
Qed.

Lemma get_entry (k : K) (v : V) (m : JsMap.t K V) :
  NoDup (JsMap.keys m) -> In (k, v) m -> JsMap.get keq k m = Some v.
Proof.
  induction m as [|[k' v'] m IH]; cbn [JsMap.get JsMap.keys map In fst]; [tauto|].
  intros D I. inversion D as [|? ? Hk Hm]; subst.
  destruct I as [[= -> ->]|I].
  - now rewrite (keq_refl keq keq_eq).
  - destruct (keq k k') eqn:E.
    + apply keq_eq in E. subst k'. exfalso. apply Hk.
      change k with (fst (k, v)). apply in_map, I.
    + apply IH; assumption.
Qed.

Lemma set_absent (k : K) (v : V) (m : JsMap.t K V) :
  JsMap.get keq k m = None -> JsMap.set keq k v m = m ++ [(k, v)].
Proof.
  induction m as [|[k' v'] m IH]; cbn [JsMap.get JsMap.set app]; [reflexivity|].
  destruct (keq k k'); [discriminate|]. intros H. now rewrite IH.
Qed.

Lemma set_present_keys (k : K) (v : V) (m : JsMap.t K V) :
  JsMap.get keq k m <> None -> JsMap.keys (JsMap.set keq k v m) = JsMap.keys m.
Proof.
  unfold JsMap.keys.
  induction m as [|[k' v'] m IH]; cbn [JsMap.get JsMap.set map fst]; [congruence|].
  destruct (keq k k') eqn:E; cbn [map fst].
  - apply keq_eq in E. now subst k'.
  - intros H. now rewrite IH.
Qed.

Lemma set_keeps_NoDup (k : K) (v : V) (m : JsMap.t K V) :
  NoDup (JsMap.keys m) -> NoDup (JsMap.keys (JsMap.set keq k v m)).
Proof.
  intros D. destruct (JsMap.get keq k m) as [v0|] eqn:G.
  - rewrite set_present_keys; [exact D|congruence].
  - rewrite set_absent by exact G. unfold JsMap.keys. rewrite map_app. cbn [map fst].
    apply Permutation_NoDup with (l := k :: map fst m).
    + apply Permutation_cons_append.
    + constructor; [|exact D]. now apply get_absent.
Qed.

Lemma set_entries (k : K) (v : V) (m : JsMap.t K V) (entry : K * V) :
  In entry (JsMap.set keq k v m) -> entry = (k, v) \/ In entry m.
Proof.
  induction m as [|[k' v'] m IH]; cbn [JsMap.set In].
  - intros [<-|[]]. now left.
  - destruct (keq k k'); cbn [In].
    + intros [<-|H]; [now left|right; now right].
    + intros [<-|H]; [right; now left|]. destruct (IH H); [now left|right; now right].
Qed.

Lemma get_delete (k k' : K) (m : JsMap.t K V) :
  JsMap.get keq k' (JsMap.delete keq k m)
  = if keq k k' then None else JsMap.get keq k' m.
Proof.
  destruct (keq k k') eqn:E.
  - apply keq_eq in E. subst k'. apply (get_delete_same keq).
  - unfold JsMap.delete.
    induction m as [|[k0 v0] m IH]; cbn [filter JsMap.get fst]; [reflexivity|].
    destruct (keq k k0) eqn:E0; cbn [negb JsMap.get].
    + apply keq_eq in E0. subst k0.
      destruct (keq k' k) eqn:E1; [|exact IH].
      apply keq_eq in E1. subst k'. rewrite (keq_refl keq keq_eq) in E. discriminate.
    + now rewrite IH.
Qed.

Lemma delete_absent (k : K) (m : JsMap.t K V) :
  JsMap.get keq k m = None -> JsMap.delete keq k m = m.
Proof.
  unfold JsMap.delete.
  induction m as [|[k' v'] m IH]; cbn [JsMap.get filter fst]; [reflexivity|].
  destruct (keq k k'); [discriminate|]. cbn [negb]. intros H. now rewrite IH.
Qed.

Lemma delete_entries (k : K) (m : JsMap.t K V) (entry : K * V) :
  In entry (JsMap.delete keq k m) -> In entry m.
Proof. unfold JsMap.delete. intros H. apply filter_In in H. apply H. Qed.

Lemma delete_keeps_NoDup (k : K) (m : JsMap.t K V) :
  NoDup (JsMap.keys m) -> NoDup (JsMap.keys (JsMap.delete keq k m)).
Proof.
  unfold JsMap.keys, JsMap.delete.
  induction m as [|[k' v'] m IH]; cbn [filter map fst]; [auto|].
  intros D. inversion D as [|? ? Hk Hm]; subst.
  destruct (keq k k'); cbn [negb map fst]; [now apply IH|].
  constructor; [|now apply IH].
  intros I. apply Hk. apply in_map_iff in I. destruct I as (e & <- & I).
  apply filter_In in I. apply in_map, I.
Qed.

End MoreMapFacts.

Lemma str_eqb_eq (a b : str) : eqb a b = true <-> a = b.
Proof.
  revert b. induction a as [|x a IH]; destruct b as [|y b]; cbn [eqb];
    try (split; [discriminate|discriminate]); [tauto|].
  rewrite andb_true_iff, N.eqb_eq, IH. split; [intros [-> ->]; reflexivity|].
  intros [= -> ->]. tauto.
Qed.

(* ================================================================== *)
(** ** The maps of [MemStorage] stay well formed *)
(* ================================================================== *)

Section Keyed.

Variable V : Type.
Variable idOf : V -> N.

Lemma keyed_fresh next (m : JsMap.t N V) :
  MemStorage.keyed idOf next m -> JsMap.get N.eqb next m = None.
Proof.
  intros [_ F]. apply (@get_absent _ _ N.eqb N.eqb_eq). intros I.
  apply in_map_iff in I. destruct I as (entry & E & I).
  rewrite Forall_forall in F. specialize (F entry I). lia.
Qed.

Lemma keyed_later next next' (m : JsMap.t N V) :
  (next <= next')%N -> MemStorage.keyed idOf next m -> MemStorage.keyed idOf next' m.
Proof.
  intros L [D F]. split; [exact D|].
  eapply Forall_impl; [|exact F]. cbn beta. intros entry [E B]. split; [exact E|lia].
Qed.

Lemma keyed_new next (v : V) (m : JsMap.t N V) :
  MemStorage.keyed idOf next m -> idOf v = next ->
  MemStorage.keyed idOf (next + 1) (JsMap.set N.eqb next v m)
  /\ JsMap.set N.eqb next v m = m ++ [(next, v)].
Proof.
  intros K E. pose proof (keyed_fresh K) as G.
  assert (S : JsMap.set N.eqb next v m = m ++ [(next, v)]) by (now apply set_absent).
  split; [|exact S]. split.
  - apply (@set_keeps_NoDup _ _ N.eqb N.eqb_eq), K.
  - rewrite S. apply Forall_app. split.
    + destruct K as [_ F]. eapply Forall_impl; [|exact F]. cbn beta.
      intros entry [E' B]. split; [exact E'|lia].
    + constructor; [|constructor]. cbn [fst snd]. split; [congruence|lia].
Qed.

Lemma keyed_update next k (v : V) (m : JsMap.t N V) :
  MemStorage.keyed idOf next m -> JsMap.get N.eqb k m <> None -> idOf v = k ->
  MemStorage.keyed idOf next (JsMap.set N.eqb k v m).
Proof.
  intros [D F] G E. split; [apply (@set_keeps_NoDup _ _ N.eqb N.eqb_eq), D|].
  rewrite Forall_forall in *. intros entry I.
  apply set_entries in I. destruct I as [->|I']; [|apply F, I'].
  cbn [fst snd]. split; [congruence|].
  destruct (JsMap.get N.eqb k m) as [v0|] eqn:G0; [|congruence].
  apply (@get_present _ _ N.eqb N.eqb_eq) in G0. apply (F _ G0).
Qed.

Lemma keyed_delete next k (m : JsMap.t N V) :
  MemStorage.keyed idOf next m -> MemStorage.keyed idOf next (JsMap.delete N.eqb k m).
Proof.
  intros [D F]. split; [apply delete_keeps_NoDup, D|].
  rewrite Forall_forall in *. intros entry I. apply F. eapply delete_entries, I.
Qed.

Lemma keyed_filter next (keep : N * V -> bool) (m : JsMap.t N V) :
  MemStorage.keyed idOf next m -> MemStorage.keyed idOf next (filter keep m).
Proof.
  intros [D F]. split.
  - unfold JsMap.keys in *. clear F.
    induction m as [|e m IH]; cbn [filter map]; [constructor|].
    inversion D as [|? ? Hk Hm]; subst.
    destruct (keep e); cbn [map]; [|now apply IH].
    constructor; [|now apply IH].
    intros I. apply Hk. apply in_map_iff in I. destruct I as (e' & <- & I).
    apply filter_In in I. apply in_map, I.
  - rewrite Forall_forall in *. intros entry I. apply F. apply filter_In in I. apply I.
Qed.

End Keyed.

Lemma wellFormed_withNewOlxCode (olxCode : OlxCode.t) (s : MemStorage.t) :
  MemStorage.wellFormed s ->
  OlxCode.id olxCode = MemStorage.currentOlxCodeId s ->
  MemStorage.wellFormed (MemStorage.withNewOlxCode olxCode s).
Proof.
  intros (A & C & L & S) E. unfold MemStorage.wellFormed, MemStorage.withNewOlxCode.
  cbn [MemStorage.automations MemStorage.olxCodes MemStorage.systemLogs MemStorage.settings
       MemStorage.currentAutomationId MemStorage.currentOlxCodeId MemStorage.currentLogId
       MemStorage.currentSettingId].
  split; [exact A|]. split; [|split; [exact L|exact S]].
  rewrite E. apply keyed_new; assumption.
Qed.

Lemma wellFormed_bulkCreateLoop now brokerId codes :
  forall created s,
    MemStorage.wellFormed s ->
    MemStorage.wellFormed (snd (MemStorage.bulkCreateLoop now brokerId codes created s)).
Proof.
  induction codes as [|code rest IH]; intros created s W; cbn [MemStorage.bulkCreateLoop snd].
  - exact W.
  - apply IH. apply wellFormed_withNewOlxCode; [exact W|reflexivity].
Qed.

Section WellFormedKept.

Variable s : MemStorage.t.
Hypothesis W : MemStorage.wellFormed s.

Lemma wellFormed_createAutomation now insertAutomation :
  MemStorage.wellFormed (snd (MemStorage.createAutomation now insertAutomation s)).
Proof.
  pose proof W as (A & C & L & SD & SF).
  unfold MemStorage.createAutomation. cbv zeta. cbn [snd].
  split; [|split; [exact C|split; [exact L|split; [exact SD|exact SF]]]].
  cbn [MemStorage.automations MemStorage.currentAutomationId Automation.id].
  apply keyed_new; [exact A|reflexivity].
Qed.

Lemma wellFormed_updateAutomation id updates :
  MemStorage.wellFormed (snd (MemStorage.updateAutomation id updates s)).
Proof.
  pose proof W as (A & C & L & SD & SF). unfold MemStorage.updateAutomation.
  destruct (JsMap.get N.eqb id (MemStorage.automations s)) as [a|] eqn:G; cbn [snd];
    [|exact W].
  split; [|split; [exact C|split; [exact L|split; [exact SD|exact SF]]]].
  cbn [MemStorage.withAutomations MemStorage.automations MemStorage.currentAutomationId].
  apply keyed_update; [exact A|congruence|].
  destruct A as [D F]. rewrite Forall_forall in F.
  apply (@get_present _ _ N.eqb N.eqb_eq) in G. destruct (F _ G) as [E _].
  cbn [fst snd] in E. cbn [Automation.spread Automation.id]. congruence.
Qed.

Lemma wellFormed_deleteAutomation id :
  MemStorage.wellFormed (snd (MemStorage.deleteAutomation id s)).
Proof.
  pose proof W as (A & C & L & SD & SF). cbn [MemStorage.deleteAutomation snd].
  split; [|split; [exact C|split; [exact L|split; [exact SD|exact SF]]]].
  apply keyed_delete, A.
Qed.

Lemma wellFormed_createOlxCode now insertOlxCode :
  MemStorage.wellFormed (snd (MemStorage.createOlxCode now insertOlxCode s)).
Proof.
  unfold MemStorage.createOlxCode. cbv zeta. cbn [snd].
  apply wellFormed_withNewOlxCode; [exact W|reflexivity].
Qed.

Lemma wellFormed_bulkCreateOlxCodes now brokerId codes :
  MemStorage.wellFormed (snd (MemStorage.bulkCreateOlxCodes now brokerId codes s)).
Proof. apply wellFormed_bulkCreateLoop, W. Qed.

Lemma wellFormed_updateOlxCode id updates :
  MemStorage.wellFormed (snd (MemStorage.updateOlxCode id updates s)).
Proof.
  pose proof W as (A & C & L & SD & SF). unfold MemStorage.updateOlxCode.
  destruct (JsMap.get N.eqb id (MemStorage.olxCodes s)) as [c|] eqn:G; cbn [snd];
    [|exact W].
  split; [exact A|split; [|split; [exact L|split; [exact SD|exact SF]]]].
  cbn [MemStorage.withOlxCodes MemStorage.olxCodes MemStorage.currentOlxCodeId].
  apply keyed_update; [exact C|congruence|].
  destruct C as [D F]. rewrite Forall_forall in F.
  apply (@get_present _ _ N.eqb N.eqb_eq) in G. destruct (F _ G) as [E _].
  cbn [fst snd] in E. cbn [OlxCode.spread OlxCode.id]. congruence.
Qed.

Lemma wellFormed_deleteOlxCode id :
  MemStorage.wellFormed (snd (MemStorage.deleteOlxCode id s)).
Proof.
  pose proof W as (A & C & L & SD & SF). cbn [MemStorage.deleteOlxCode snd].
  split; [exact A|split; [|split; [exact L|split; [exact SD|exact SF]]]].
  apply keyed_delete, C.
Qed.

Lemma wellFormed_createSystemLog now insertLog :
  MemStorage.wellFormed (snd (MemStorage.createSystemLog now insertLog s)).
Proof.
  pose proof W as (A & C & L & SD & SF).
  unfold MemStorage.createSystemLog. cbv zeta. cbn [snd].
  split; [exact A|split; [exact C|split; [|split; [exact SD|exact SF]]]].
  cbn [MemStorage.withSystemLogs MemStorage.systemLogs MemStorage.currentLogId SystemLog.id].
  apply keyed_new; [exact L|reflexivity].
Qed.

Lemma wellFormed_deleteSystemLogs olderThan :
  MemStorage.wellFormed (snd (MemStorage.deleteSystemLogs olderThan s)).
Proof.
  pose proof W as (A & C & L & SD & SF).
  destruct olderThan as [olderThan|]; unfold MemStorage.deleteSystemLogs.
  - rewrite sweep_fold. cbn [fst snd].
    split; [exact A|split; [exact C|split; [|split; [exact SD|exact SF]]]].
    cbn [MemStorage.withSystemLogs MemStorage.systemLogs MemStorage.currentLogId].
    apply keyed_filter, L.
  - cbv zeta. cbn [snd].
    split; [exact A|split; [exact C|split; [|split; [exact SD|exact SF]]]].
    split; [constructor|constructor].
Qed.

Lemma wellFormed_setSetting now key value :
  MemStorage.wellFormed (snd (MemStorage.setSetting now key value s)).
Proof.
  pose proof W as (A & C & L & SD & SF).
  unfold MemStorage.setSetting. cbv zeta. cbn [snd].
  split; [exact A|split; [exact C|split; [exact L|]]].
  cbn [MemStorage.withSettings MemStorage.settings MemStorage.currentSettingId].
  split; [apply (@set_keeps_NoDup _ _ eqb str_eqb_eq), SD|].
  rewrite Forall_forall in *. intros entry I. apply set_entries in I.
  destruct I as [->|I].
  - cbn [fst snd Settings.key Settings.id]. split; [reflexivity|].
    destruct (JsMap.get eqb key (MemStorage.settings s)) as [e|] eqn:G; [|lia].
    apply (@get_present _ _ eqb str_eqb_eq) in G. destruct (SF _ G) as [_ B]. cbn [snd] in B.
    destruct (N.eqb (Settings.id e) 0); lia.
  - destruct (SF _ I) as [E B]. split; [exact E|].
    destruct (JsMap.get eqb key (MemStorage.settings s)) as [e|];
      [destruct (N.eqb (Settings.id e) 0)|]; lia.
Qed.

End WellFormedKept.

Lemma spread_as_fields_Automation (automation : Automation.t) (updates : Automation.partial) :
  Automation.spread automation updates
  = Automation.assign automation (Automation.asFields updates).
Proof.
  destruct updates as [status progress currentStep propertyData errorMessage completedAt].
  unfold Automation.spread, Automation.assign, Automation.asFields, Automation.over. cbv zeta.
  cbn [Automation.status' Automation.progress' Automation.currentStep' Automation.propertyData'
       Automation.errorMessage' Automation.completedAt'
       Automation.setId Automation.setPropertyCode Automation.setOlxCode
       Automation.setUnivenCode Automation.setBrokerId Automation.setStatus
       Automation.setProgress Automation.setCurrentStep Automation.setVideoUrl
       Automation.setTourUrl Automation.setPropertyData Automation.setErrorMessage
       Automation.setCreatedAt Automation.setCompletedAt].
  destruct status, progress, currentStep, propertyData, errorMessage, completedAt; reflexivity.
Qed.

Lemma spread_as_fields_OlxCode (olxCode : OlxCode.t) (updates : OlxCode.partial) :
  OlxCode.spread olxCode updates = OlxCode.assign olxCode (OlxCode.asFields updates).
Proof.
  destruct updates as [isUsed isHighlighted isActive currentAutomationId univenCode].
  unfold OlxCode.spread, OlxCode.assign, OlxCode.asFields, OlxCode.over.
  cbn [OlxCode.isUsed' OlxCode.isHighlighted' OlxCode.isActive' OlxCode.currentAutomationId'
       OlxCode.univenCode'
       OlxCode.setId OlxCode.setCode OlxCode.setBrokerId OlxCode.setIsUsed
       OlxCode.setIsHighlighted OlxCode.setIsActive OlxCode.setCurrentAutomationId
       OlxCode.setUnivenCode OlxCode.setCreatedAt].
  destruct isUsed, isHighlighted, isActive, currentAutomationId, univenCode; reflexivity.
Qed.

Lemma updateAutomation_as_fields id updates s :
  MemStorage.updateAutomation id updates s
  = MemStorage.updateAutomationWith id (Automation.asFields updates) s.
Proof.
  unfold MemStorage.updateAutomation, MemStorage.updateAutomationWith.
  destruct (JsMap.get N.eqb id (MemStorage.automations s)) as [a|]; [|reflexivity].
  cbv zeta. rewrite spread_as_fields_Automation. reflexivity.
Qed.

Lemma updateOlxCode_as_fields id updates s :
  MemStorage.updateOlxCode id updates s
  = MemStorage.updateOlxCodeWith id (OlxCode.asFields updates) s.
Proof.
  unfold MemStorage.updateOlxCode, MemStorage.updateOlxCodeWith.
  destruct (JsMap.get N.eqb id (MemStorage.olxCodes s)) as [c|]; [|reflexivity].
  cbv zeta. rewrite spread_as_fields_OlxCode. reflexivity.
Qed.

Section KeyedBroken.

Variable V : Type.
Variable idOf : V -> N.

(** A row stored under a key that is not its id. *)
Lemma keyed_broken next k (v : V) (m : JsMap.t N V) :
  idOf v <> k -> ~ MemStorage.keyed idOf next (JsMap.set N.eqb k v m).
Proof.
  intros D [_ F]. rewrite Forall_forall in F.
  assert (I : In (k, v) (JsMap.set N.eqb k v m)).
  { apply (@get_present _ _ N.eqb N.eqb_eq). apply (get_set_same N.eqb N.eqb_eq). }
  destruct (F _ I) as [E _]. cbn [fst snd] in E. congruence.
Qed.

End KeyedBroken.

Section WellFormedUpdates.

Variable s : MemStorage.t.
Hypothesis W : MemStorage.wellFormed s.

Lemma wellFormed_updateAutomationWith id updates :
  Automation.setId updates = None \/ Automation.setId updates = Some id ->
  MemStorage.wellFormed (snd (MemStorage.updateAutomationWith id updates s)).
Proof.
  intros H. pose proof W as (A & C & L & SD & SF). unfold MemStorage.updateAutomationWith.
  destruct (JsMap.get N.eqb id (MemStorage.automations s)) as [a|] eqn:G; cbn [snd];
    [|exact W].
  split; [|split; [exact C|split; [exact L|split; [exact SD|exact SF]]]].
  cbn [MemStorage.withAutomations MemStorage.automations MemStorage.currentAutomationId].
  apply keyed_update; [exact A|congruence|].
  destruct A as [D F]. rewrite Forall_forall in F.
  apply (@get_present _ _ N.eqb N.eqb_eq) in G. destruct (F _ G) as [E _].
  cbn [fst snd] in E. unfold Automation.assign. cbv zeta. cbn [Automation.id].
  destruct H as [-> | ->]; congruence.
Qed.

Lemma wellFormed_updateOlxCodeWith id updates :
  OlxCode.setId updates = None \/ OlxCode.setId updates = Some id ->
  MemStorage.wellFormed (snd (MemStorage.updateOlxCodeWith id updates s)).
Proof.
  intros H. pose proof W as (A & C & L & SD & SF). unfold MemStorage.updateOlxCodeWith.
  destruct (JsMap.get N.eqb id (MemStorage.olxCodes s)) as [c|] eqn:G; cbn [snd];
    [|exact W].
  split; [exact A|split; [|split; [exact L|split; [exact SD|exact SF]]]].
  cbn [MemStorage.withOlxCodes MemStorage.olxCodes MemStorage.currentOlxCodeId].
  apply keyed_update; [exact C|congruence|].
  destruct C as [D F]. rewrite Forall_forall in F.
  apply (@get_present _ _ N.eqb N.eqb_eq) in G. destruct (F _ G) as [E _].
  cbn [fst snd] in E. unfold OlxCode.assign, OlxCode.over. cbn [OlxCode.id].
  destruct H as [-> | ->]; congruence.
Qed.

End WellFormedUpdates.

Lemma broken_updateAutomationWith id other updates s :
  MemStorage.getAutomation id s <> None ->
  Automation.setId updates = Some other -> other <> id ->
  ~ MemStorage.wellFormed (snd (MemStorage.updateAutomationWith id updates s)).
Proof.
  intros G E D (A & _). unfold MemStorage.getAutomation in G.
  unfold MemStorage.updateAutomationWith in A.
  destruct (JsMap.get N.eqb id (MemStorage.automations s)) as [a|]; [|congruence].
  cbn [snd MemStorage.withAutomations MemStorage.automations MemStorage.currentAutomationId] in A.
  revert A. apply keyed_broken.
  unfold Automation.assign. cbv zeta. cbn [Automation.id]. rewrite E. exact D.
Qed.

Lemma broken_updateOlxCodeWith id other updates s :
  MemStorage.getOlxCode id s <> None ->
  OlxCode.setId updates = Some other -> other <> id ->
  ~ MemStorage.wellFormed (snd (MemStorage.updateOlxCodeWith id updates s)).
Proof.
  intros G E D (_ & C & _). unfold MemStorage.getOlxCode in G.
  unfold MemStorage.updateOlxCodeWith in C.
  destruct (JsMap.get N.eqb id (MemStorage.olxCodes s)) as [c|]; [|congruence].
  cbn [snd MemStorage.withOlxCodes MemStorage.olxCodes MemStorage.currentOlxCodeId] in C.
  revert C. apply keyed_broken.
  unfold OlxCode.assign, OlxCode.over. cbn [OlxCode.id]. rewrite E. exact D.
Qed.

(** X1: every operation of [MemStorage] that writes keeps its maps well
    formed, an update provided that its object has no [id] key or gives the
    id of the row: the rows of automations, codes and logs stay under their
    own ids, each id once and below the counter that gives the next id, and
    the settings stay under their own keys, each key once.  [updateAutomation]
    and [updateOlxCode] spread the object they get over the row, so an
    object that gives another id to a row that exists breaks this: the row
    is stored under a key that is not its id. *)
Theorem MemStorage_keeps_its_maps_well_formed :
  forall s : MemStorage.t,
    MemStorage.wellFormed s ->
    (forall now insertAutomation,
        MemStorage.wellFormed (snd (MemStorage.createAutomation now insertAutomation s)))
    /\ (forall id updates,
           Automation.setId updates = None \/ Automation.setId updates = Some id ->
           MemStorage.wellFormed (snd (MemStorage.updateAutomationWith id updates s)))
    /\ (forall id other updates,
           MemStorage.getAutomation id s <> None ->
           Automation.setId updates = Some other -> other <> id ->
           ~ MemStorage.wellFormed (snd (MemStorage.updateAutomationWith id updates s)))
    /\ (forall id, MemStorage.wellFormed (snd (MemStorage.deleteAutomation id s)))
    /\ (forall now insertOlxCode,
           MemStorage.wellFormed (snd (MemStorage.createOlxCode now insertOlxCode s)))
    /\ (forall now brokerId codes,
           MemStorage.wellFormed (snd (MemStorage.bulkCreateOlxCodes now brokerId codes s)))
    /\ (forall id updates,
           OlxCode.setId updates = None \/ OlxCode.setId updates = Some id ->
           MemStorage.wellFormed (snd (MemStorage.updateOlxCodeWith id updates s)))
    /\ (forall id other updates,
           MemStorage.getOlxCode id s <> None ->
           OlxCode.setId updates = Some other -> other <> id ->
           ~ MemStorage.wellFormed (snd (MemStorage.updateOlxCodeWith id updates s)))
    /\ (forall id, MemStorage.wellFormed (snd (MemStorage.deleteOlxCode id s)))
    /\ (forall now insertLog,
           MemStorage.wellFormed (snd (MemStorage.createSystemLog now insertLog s)))
    /\ (forall olderThan, MemStorage.wellFormed (snd (MemStorage.deleteSystemLogs olderThan s)))
    /\ (forall now key value,
           MemStorage.wellFormed (snd (MemStorage.setSetting now key value s)))
    /\ (forall id updates,
           MemStorage.updateAutomation id updates s
           = MemStorage.updateAutomationWith id (Automation.asFields updates) s)
    /\ (forall id updates,
           MemStorage.updateOlxCode id updates s
           = MemStorage.updateOlxCodeWith id (OlxCode.asFields updates) s).
Proof.
  intros s W.
  split; [intros; apply wellFormed_createAutomation, W|].
  split; [intros; apply wellFormed_updateAutomationWith; assumption|].
  split; [intros id other updates G E D; exact (@broken_updateAutomationWith id other updates s G E D)|].
  split; [intros; apply wellFormed_deleteAutomation, W|].
  split; [intros; apply wellFormed_createOlxCode, W|].
  split; [intros; apply wellFormed_bulkCreateOlxCodes, W|].
  split; [intros; apply wellFormed_updateOlxCodeWith; assumption|].
  split; [intros id other updates G E D; exact (@broken_updateOlxCodeWith id other updates s G E D)|].
  split; [intros; apply wellFormed_deleteOlxCode, W|].
  split; [intros; apply wellFormed_createSystemLog, W|].
  split; [intros; apply wellFormed_deleteSystemLogs, W|].
  split; [intros; apply wellFormed_setSetting, W|].
  split; [intros; apply updateAutomation_as_fields|intros; apply updateOlxCode_as_fields].
Qed.

(* ================================================================== *)
(** ** Creating, reading, updating and deleting rows *)
(* ================================================================== *)

Lemma values_app {K V : Type} (m1 m2 : JsMap.t K V) :
  JsMap.values (m1 ++ m2) = JsMap.values m1 ++ JsMap.values m2.
Proof. apply map_app. Qed.

(** X2: [createOlxCode] stores the new row under the id that the counter
    gives, which no row had: [getOlxCode] finds the row there, every other
    id reads as before, the row comes last in the map, and a code created
    without flags is available to its broker at once. *)
Theorem createOlxCode_adds_the_row_under_a_new_id :
  forall (now : Z) (insertOlxCode : OlxCode.insert) (s : MemStorage.t),
    MemStorage.wellFormed s ->
    let created := fst (MemStorage.createOlxCode now insertOlxCode s) in
    let s' := snd (MemStorage.createOlxCode now insertOlxCode s) in
    OlxCode.id created = MemStorage.currentOlxCodeId s
    /\ MemStorage.getOlxCode (OlxCode.id created) s = None
    /\ MemStorage.getOlxCode (OlxCode.id created) s' = Some created
    /\ (forall k, k <> OlxCode.id created ->
                  MemStorage.getOlxCode k s' = MemStorage.getOlxCode k s)
    /\ JsMap.values (MemStorage.olxCodes s') = JsMap.values (MemStorage.olxCodes s) ++ [created]
    /\ (OlxCode.givenIsUsed insertOlxCode = None ->
        OlxCode.givenIsActive insertOlxCode = None ->
        MemStorage.getAvailableOlxCodes (OlxCode.givenBrokerId insertOlxCode) s'
        = MemStorage.getAvailableOlxCodes (OlxCode.givenBrokerId insertOlxCode) s
          ++ [created]).
Proof.
  intros now ins s (_ & C & _) created s'.
  assert (G : MemStorage.getOlxCode (OlxCode.id created) s = None) by (apply (keyed_fresh C)).
  assert (S : MemStorage.olxCodes s' = MemStorage.olxCodes s ++ [(OlxCode.id created, created)]).
  { apply (@set_absent _ _ N.eqb). exact G. }
  split; [reflexivity|]. split; [exact G|]. split; [|split; [|split]].
  - apply (get_set_same N.eqb N.eqb_eq).
  - intros k Hk. apply (get_set_other N.eqb N.eqb_eq).
    intros E. apply Hk. rewrite <- E. reflexivity.
  - rewrite S, values_app. reflexivity.
  - intros U A. unfold MemStorage.getAvailableOlxCodes. rewrite S, values_app, filter_app.
    f_equal. cbn [JsMap.values map snd filter].
    subst created. unfold MemStorage.createOlxCode. cbv zeta.
    cbn [fst OlxCode.brokerId OlxCode.isActive OlxCode.isUsed]. rewrite U, A.
    destruct (OlxCode.givenBrokerId ins) as [b|]; cbn [MemStorage.sameBroker];
      rewrite ?N.eqb_refl; reflexivity.
Qed.

Lemma wellFormed_ready : MemStorage.wellFormed (storage Sample.ready).
Proof.
  assert (D : forall (A B : Type) (l : list (A * B)),
             NoDup (map fst l) -> NoDup (JsMap.keys l)) by (intros; assumption).
  repeat split.
  - apply D. cbn. repeat constructor; cbn; intuition discriminate.
  - repeat constructor.
  - apply D. cbn. repeat constructor; cbn; intuition discriminate.
  - repeat constructor.
  - constructor.
  - constructor.
  - apply D. vm_compute. repeat constructor; cbn; intuition discriminate.
  - vm_compute. repeat constructor.
Qed.

Lemma combine_seq_shift {A B : Type} (f g : nat * A -> B) (l : list A) :
  (forall i c, f (i, c) = g (S i, c)) ->
  forall start, map f (combine (seq start (length l)) l)
                = map g (combine (seq (S start) (length l)) l).
Proof.
  intros H. induction l as [|c l IH]; intros start; cbn [length seq combine map];
    [reflexivity|].
  rewrite H, IH. reflexivity.
Qed.

Lemma bulkCreateLoop_rows now brokerId codes :
  forall created s,
    MemStorage.wellFormed s ->
    let r := MemStorage.bulkCreateLoop now brokerId codes created s in
    let rows := map (fun ic => MemStorage.newCode now (MemStorage.currentOlxCodeId s
                                                       + N.of_nat (fst ic))%N
                                                  brokerId (snd ic))
                    (combine (seq 0 (length codes)) codes) in
    fst r = created ++ rows
    /\ JsMap.values (MemStorage.olxCodes (snd r)) = JsMap.values (MemStorage.olxCodes s) ++ rows
    /\ MemStorage.currentOlxCodeId (snd r)
       = (MemStorage.currentOlxCodeId s + N.of_nat (length codes))%N.
Proof.
  induction codes as [|code rest IH]; intros created s W;
    cbn [MemStorage.bulkCreateLoop length seq combine map fst snd].
  - rewrite !app_nil_r, N.add_0_r. auto.
  - set (olxCode := MemStorage.newCode now (MemStorage.currentOlxCodeId s) brokerId code).
    assert (W' : MemStorage.wellFormed (MemStorage.withNewOlxCode olxCode s))
      by (apply wellFormed_withNewOlxCode; [exact W|reflexivity]).
    destruct (IH (created ++ [olxCode]) _ W') as (F & V & Hn). clear IH.
    destruct W as (_ & C & _).
    assert (S : MemStorage.olxCodes (MemStorage.withNewOlxCode olxCode s)
                = MemStorage.olxCodes s ++ [(MemStorage.currentOlxCodeId s, olxCode)]).
    { apply (@set_absent _ _ N.eqb). apply (keyed_fresh C). }
    assert (R : map (fun ic => MemStorage.newCode now
                                 (MemStorage.currentOlxCodeId
                                    (MemStorage.withNewOlxCode olxCode s)
                                  + N.of_nat (fst ic))%N brokerId (snd ic))
                    (combine (seq 0 (length rest)) rest)
                = map (fun ic => MemStorage.newCode now
                                   (MemStorage.currentOlxCodeId s + N.of_nat (fst ic))%N
                                   brokerId (snd ic))
                      (combine (seq 1 (length rest)) rest)).
    { apply combine_seq_shift. intros i c.
      cbn [fst snd MemStorage.withNewOlxCode MemStorage.currentOlxCodeId]. f_equal. lia. }
    rewrite R in F, V. rewrite N.add_0_r. fold olxCode.
    split; [|split].
    + rewrite F, <- app_assoc. reflexivity.
    + rewrite V, S, values_app, <- app_assoc. reflexivity.
    + rewrite Hn. cbn [MemStorage.withNewOlxCode MemStorage.currentOlxCodeId]. lia.
Qed.

(** X3: [bulkCreateOlxCodes] makes one row for each code, in the order
    given, under consecutive ids from the counter on; the rows go to the end
    of the map, and all of them are available to the broker at once, after
    the codes that were available before. *)
Theorem bulkCreateOlxCodes_adds_available_codes_in_order :
  forall (now : Z) (brokerId : N) (codes : list str) (s : MemStorage.t),
    MemStorage.wellFormed s ->
    let created := fst (MemStorage.bulkCreateOlxCodes now brokerId codes s) in
    let s' := snd (MemStorage.bulkCreateOlxCodes now brokerId codes s) in
    map OlxCode.code created = codes
    /\ map OlxCode.id created
       = map (fun i => (MemStorage.currentOlxCodeId s + N.of_nat i)%N) (seq 0 (length codes))
    /\ JsMap.values (MemStorage.olxCodes s') = JsMap.values (MemStorage.olxCodes s) ++ created
    /\ MemStorage.getAvailableOlxCodes (Some brokerId) s'
       = MemStorage.getAvailableOlxCodes (Some brokerId) s ++ created
    /\ MemStorage.currentOlxCodeId s'
       = (MemStorage.currentOlxCodeId s + N.of_nat (length codes))%N.
Proof.
  intros now brokerId codes s W created s'. subst created s'.
  unfold MemStorage.bulkCreateOlxCodes.
  destruct (bulkCreateLoop_rows now brokerId codes [] W) as (F & V & Hn).
  cbn [app] in F.
  assert (L : forall (start : nat) (l : list str),
             map snd (combine (seq start (length l)) l) = l
             /\ map fst (combine (seq start (length l)) l) = seq start (length l)).
  { intros start l. revert start. induction l as [|c l IH]; intros start; cbn; [auto|].
    destruct (IH (S start)) as [-> ->]. auto. }
  split; [|split; [|split; [|split]]].
  - rewrite F, map_map. cbn [MemStorage.newCode OlxCode.code]. apply L.
  - rewrite F, map_map. cbn [MemStorage.newCode OlxCode.id].
    rewrite <- (proj2 (L 0%nat codes)) at 2. rewrite map_map. reflexivity.
  - rewrite V, F. reflexivity.
  - unfold MemStorage.getAvailableOlxCodes. rewrite V, filter_app. f_equal.
    rewrite F.
    apply forallb_filter_id. rewrite forallb_forall. intros c I.
    apply in_map_iff in I. destruct I as (ic & <- & _).
    cbn [MemStorage.newCode OlxCode.brokerId OlxCode.isActive OlxCode.isUsed
         MemStorage.sameBroker]. rewrite N.eqb_refl. reflexivity.
  - exact Hn.
Qed.

(** X4: [deleteOlxCode] and [deleteAutomation] answer whether the id had a
    row; afterwards the id has none, every other id reads as before, and a
    second deletion answers [false]. *)
Theorem deleting_a_row_removes_it_and_nothing_else :
  forall (id : N) (s : MemStorage.t),
    (fst (MemStorage.deleteOlxCode id s)
     = match MemStorage.getOlxCode id s with Some _ => true | None => false end
     /\ MemStorage.getOlxCode id (snd (MemStorage.deleteOlxCode id s)) = None
     /\ (forall k, k <> id ->
                   MemStorage.getOlxCode k (snd (MemStorage.deleteOlxCode id s))
                   = MemStorage.getOlxCode k s)
     /\ fst (MemStorage.deleteOlxCode id (snd (MemStorage.deleteOlxCode id s))) = false
     /\ (MemStorage.getOlxCode id s = None ->
         MemStorage.olxCodes (snd (MemStorage.deleteOlxCode id s)) = MemStorage.olxCodes s))
    /\ (fst (MemStorage.deleteAutomation id s)
        = match MemStorage.getAutomation id s with Some _ => true | None => false end
        /\ MemStorage.getAutomation id (snd (MemStorage.deleteAutomation id s)) = None
        /\ (forall k, k <> id ->
                      MemStorage.getAutomation k (snd (MemStorage.deleteAutomation id s))
                      = MemStorage.getAutomation k s)
        /\ fst (MemStorage.deleteAutomation id (snd (MemStorage.deleteAutomation id s))) = false
        /\ (MemStorage.getAutomation id s = None ->
            MemStorage.automations (snd (MemStorage.deleteAutomation id s))
            = MemStorage.automations s)).
Proof.
  intros id s. split.
  - split; [reflexivity|]. split; [apply (get_delete_same N.eqb)|]. split; [|split].
    + intros k Hk. unfold MemStorage.getOlxCode, MemStorage.deleteOlxCode.
      cbn [snd MemStorage.withOlxCodes MemStorage.olxCodes].
      rewrite (@get_delete _ _ N.eqb N.eqb_eq).
      destruct (N.eqb id k) eqn:E; [apply N.eqb_eq in E; congruence|reflexivity].
    + cbn [MemStorage.deleteOlxCode fst snd MemStorage.withOlxCodes MemStorage.olxCodes].
      unfold JsMap.has. rewrite (get_delete_same N.eqb). reflexivity.
    + intros G. apply (@delete_absent _ _ N.eqb). exact G.
  - split; [reflexivity|]. split; [apply (get_delete_same N.eqb)|]. split; [|split].
    + intros k Hk. unfold MemStorage.getAutomation, MemStorage.deleteAutomation.
      cbn [snd MemStorage.withAutomations MemStorage.automations].
      rewrite (@get_delete _ _ N.eqb N.eqb_eq).
      destruct (N.eqb id k) eqn:E; [apply N.eqb_eq in E; congruence|reflexivity].
    + cbn [MemStorage.deleteAutomation fst snd MemStorage.withAutomations
           MemStorage.automations].
      unfold JsMap.has. rewrite (get_delete_same N.eqb). reflexivity.
    + intros G. apply (@delete_absent _ _ N.eqb). exact G.
Qed.

Section KeyedValues.

Variable V : Type.
Variable idOf : V -> N.

(** Under well-formed keys, writing a row under its id replaces it where it
    stands. *)
Lemma values_set_keyed next k (v : V) (m : JsMap.t N V) :
  MemStorage.keyed idOf next m -> JsMap.get N.eqb k m <> None ->
  JsMap.values (JsMap.set N.eqb k v m)
  = map (fun row => if N.eqb (idOf row) k then v else row) (JsMap.values m).
Proof.
  intros [D F]. unfold JsMap.keys, JsMap.values in *.
  induction m as [|[k' v'] m IH]; cbn [JsMap.get JsMap.set map fst snd]; [congruence|].
  inversion D as [|? ? Hk Hm]. inversion F as [|? ? [E _] Fm]. cbn [fst snd] in E.
  destruct (N.eqb k k') eqn:Ek; cbn [map snd]; intros G.
  - apply N.eqb_eq in Ek.
    assert (T : N.eqb (idOf v') k = true) by (apply N.eqb_eq; congruence).
    rewrite T. f_equal.
    rewrite <- (map_id (map snd m)) at 1. apply map_ext_in. intros row I.
    destruct (N.eqb (idOf row) k) eqn:Er; [|reflexivity].
    exfalso. apply Hk. apply N.eqb_eq in Er.
    apply in_map_iff in I. destruct I as ([k0 v0] & R & I). cbn [snd] in R.
    rewrite Forall_forall in Fm. destruct (Fm _ I) as [E0 _]. cbn [fst snd] in E0.
    assert (X : k' = k0) by congruence. rewrite X.
    change k0 with (fst (k0, v0)). apply in_map, I.
  - assert (T : N.eqb (idOf v') k = false).
    { apply N.eqb_neq. apply N.eqb_neq in Ek. congruence. }
    rewrite T. f_equal. apply IH; assumption.
Qed.

Lemma keyed_row_id next (m : JsMap.t N V) (row : V) :
  MemStorage.keyed idOf next m -> In row (JsMap.values m) ->
  JsMap.get N.eqb (idOf row) m = Some row.
Proof.
  intros [D F] I. apply in_map_iff in I. destruct I as ([k v] & <- & I). cbn [snd].
  rewrite Forall_forall in F. destruct (F _ I) as [E _]. cbn [fst snd] in E. rewrite <- E.
  apply (@get_entry _ _ N.eqb N.eqb_eq); assumption.
Qed.

End KeyedValues.

(** X5: marking a code used takes exactly this code off the list of
    available codes, of every broker, and leaves the others in their
    order; an id without a row changes nothing. *)
Theorem marking_a_code_used_takes_it_off_the_available_codes :
  forall (id : N) (updates : OlxCode.partial) (s : MemStorage.t),
    MemStorage.wellFormed s ->
    OlxCode.isUsed' updates = Some true ->
    forall brokerId : option N,
      MemStorage.getAvailableOlxCodes brokerId (snd (MemStorage.updateOlxCode id updates s))
      = filter (fun code => negb (N.eqb (OlxCode.id code) id))
               (MemStorage.getAvailableOlxCodes brokerId s).
Proof.
  intros id updates s (_ & C & _) U brokerId.
  unfold MemStorage.getAvailableOlxCodes, MemStorage.updateOlxCode.
  set (p := fun code => MemStorage.sameBroker (OlxCode.brokerId code) brokerId
                        && OlxCode.isActive code && negb (OlxCode.isUsed code)).
  destruct (JsMap.get N.eqb id (MemStorage.olxCodes s)) as [c|] eqn:G; cbn [snd].
  - cbn [MemStorage.withOlxCodes MemStorage.olxCodes].
    rewrite (@values_set_keyed _ OlxCode.id _ id _ _ C) by congruence.
    induction (JsMap.values (MemStorage.olxCodes s)) as [|row rows IH]; cbn [map filter];
      [reflexivity|].
    destruct (N.eqb (OlxCode.id row) id) eqn:E.
    + assert (P : p (OlxCode.spread c updates) = false).
      { unfold p. cbn [OlxCode.spread OlxCode.isUsed]. rewrite U. cbn [OlxCode.over negb].
        apply andb_false_r. }
      rewrite P. destruct (p row); cbn [filter]; rewrite ?E; cbn [negb]; exact IH.
    + destruct (p row); cbn [filter]; rewrite ?E; cbn [negb]; [f_equal|]; exact IH.
  - symmetry. apply forallb_filter_id. rewrite forallb_forall. intros row I.
    apply filter_In in I. destruct I as [I _].
    pose proof (@keyed_row_id _ OlxCode.id _ _ row C I) as R.
    destruct (N.eqb (OlxCode.id row) id) eqn:E; [|reflexivity].
    apply N.eqb_eq in E. rewrite E in R. congruence.
Qed.

(** The storages of the sample worlds are well formed, and code 2 is the
    free code that a claim takes off the list. *)
Lemma marking_code_2_used_in_the_ready_storage :
  MemStorage.getAvailableOlxCodes (Some 1%N)
    (snd (MemStorage.updateOlxCode 2 (claim 1 (lit "AP100")) (storage Sample.ready)))
  = filter (fun code => negb (N.eqb (OlxCode.id code) 2))
           (MemStorage.getAvailableOlxCodes (Some 1%N) (storage Sample.ready)).
Proof.
  apply (marking_a_code_used_takes_it_off_the_available_codes
           2 (claim 1 (lit "AP100")) wellFormed_ready).
  reflexivity.
Defined.

Lemma str_eqb_sym (a b : str) : eqb a b = eqb b a.
Proof.
  destruct (eqb a b) eqn:E, (eqb b a) eqn:E'; try reflexivity.
  - apply str_eqb_eq in E. subst b. rewrite (proj2 (str_eqb_eq a a) eq_refl) in E'. discriminate.
  - apply str_eqb_eq in E'. subst b. rewrite (proj2 (str_eqb_eq a a) eq_refl) in E. discriminate.
Qed.

(** What the services read with [settings.find(s => s.key === key)?.value]
    is what the map holds under the key. *)
Lemma settingValue_get (key : str) (s : MemStorage.t) :
  Forall (fun entry => fst entry = Settings.key (snd entry)) (MemStorage.settings s) ->
  settingValue key (MemStorage.getSettings s)
  = match MemStorage.getSetting key s with
    | Some setting => Settings.value setting
    | None => VUndefined
    end.
Proof.
  unfold settingValue, MemStorage.getSettings, MemStorage.getSetting, JsMap.values.
  induction (MemStorage.settings s) as [|[k' v'] m IH]; intros F;
    cbn [map snd find JsMap.get]; [reflexivity|].
  inversion F as [|? ? E Fm]; subst. cbn [fst snd] in E. rewrite <- E, (str_eqb_sym k' key).
  destruct (eqb key k'); [reflexivity|]. apply IH, Fm.
Qed.

Lemma keys_by_key (m : JsMap.t str Settings.t) :
  Forall (fun entry => fst entry = Settings.key (snd entry)) m ->
  map Settings.key (JsMap.values m) = JsMap.keys m.
Proof.
  unfold JsMap.values, JsMap.keys. induction 1 as [|[k v] m E F IH]; cbn [map fst snd];
    [reflexivity|].
  cbn [fst snd] in E. congruence.
Qed.

(** X6: [setSetting] stores the value under the key: [getSetting] and the
    lookup of the services through [getSettings] give it back, every other
    key reads as before, a key that was there keeps its place and its id,
    and a new key goes last with the id that the counter gives. *)
Theorem setSetting_stores_the_value_under_the_key :
  forall (now : Z) (key : str) (value : JsValue) (s : MemStorage.t),
    MemStorage.wellFormed s ->
    let stored := fst (MemStorage.setSetting now key value s) in
    let s' := snd (MemStorage.setSetting now key value s) in
    MemStorage.getSetting key s' = Some stored
    /\ Settings.key stored = key
    /\ Settings.value stored = value
    /\ Settings.updatedAt stored = now
    /\ settingValue key (MemStorage.getSettings s') = value
    /\ (forall other, other <> key ->
                      MemStorage.getSetting other s' = MemStorage.getSetting other s
                      /\ settingValue other (MemStorage.getSettings s')
                         = settingValue other (MemStorage.getSettings s))
    /\ match MemStorage.getSetting key s with
       | Some old =>
           (Settings.id old <> 0%N -> Settings.id stored = Settings.id old)
           /\ map Settings.key (MemStorage.getSettings s')
              = map Settings.key (MemStorage.getSettings s)
       | None =>
           Settings.id stored = MemStorage.currentSettingId s
           /\ MemStorage.getSettings s' = MemStorage.getSettings s ++ [stored]
       end.
Proof.
  intros now key value s W stored s'.
  assert (W' : MemStorage.wellFormed s').
  { apply wellFormed_setSetting, W. }
  assert (K : forall t, MemStorage.wellFormed t ->
                        Forall (fun entry => fst entry = Settings.key (snd entry))
                               (MemStorage.settings t)).
  { intros t (_&_&_&_&F). eapply Forall_impl; [|exact F]. cbn beta. tauto. }
  assert (G : MemStorage.getSetting key s' = Some stored)
    by (apply (get_set_same eqb str_eqb_eq)).
  assert (O : forall other, other <> key ->
                            MemStorage.getSetting other s' = MemStorage.getSetting other s).
  { intros other H. apply (get_set_other eqb str_eqb_eq). congruence. }
  split; [exact G|]. split; [reflexivity|]. split; [reflexivity|]. split; [reflexivity|].
  split; [|split].
  - rewrite (settingValue_get key s' (K _ W')), G. reflexivity.
  - intros other H. split; [apply O, H|].
    rewrite (settingValue_get other s' (K _ W')), (settingValue_get other s (K _ W)), (O _ H).
    reflexivity.
  - unfold MemStorage.getSetting, MemStorage.getSettings.
    destruct (JsMap.get eqb key (MemStorage.settings s)) as [old|] eqn:Go.
    + split.
      * intros Hz. apply N.eqb_neq in Hz. subst stored.
        unfold MemStorage.setSetting. cbv zeta. cbn [fst Settings.id]. rewrite Go, Hz.
        reflexivity.
      * rewrite (keys_by_key (K _ W)).
        change (JsMap.set eqb key ?v (MemStorage.settings s)) with (MemStorage.settings s').
        rewrite (keys_by_key (K _ W')).
        apply (@set_present_keys _ _ eqb str_eqb_eq). congruence.
    + split.
      * subst stored. unfold MemStorage.setSetting. cbv zeta. cbn [fst Settings.id].
        rewrite Go. reflexivity.
      * change (MemStorage.settings s')
          with (JsMap.set eqb key stored (MemStorage.settings s)).
        rewrite (@set_absent _ _ eqb _ _ _ Go), values_app. reflexivity.
Qed.

Lemma filter_and {A : Type} (p q : A -> bool) (l : list A) :
  filter p (filter q l) = filter (fun x => q x && p x) l.
Proof.
  induction l as [|x l IH]; cbn [filter]; [reflexivity|].
  destruct (q x); cbn [filter andb]; [destruct (p x)|]; congruence.
Qed.

(** X7: [getOlxCodes] lists the active codes only; without a broker, or
    with the broker id 0, it lists those of every broker, and with another
    id those of that broker.  The available and the highlighted codes of a
    broker are the codes of this list that are not used, or that are
    highlighted. *)
Theorem getOlxCodes_lists_the_active_codes_of_the_broker :
  forall s : MemStorage.t,
    MemStorage.getOlxCodes None s = filter OlxCode.isActive (JsMap.values (MemStorage.olxCodes s))
    /\ MemStorage.getOlxCodes (Some 0%N) s = MemStorage.getOlxCodes None s
    /\ (forall (brokerId : option N) (code : OlxCode.t),
           In code (MemStorage.getOlxCodes brokerId s) -> OlxCode.isActive code = true)
    /\ (forall b : N,
           b <> 0%N ->
           (forall code, In code (MemStorage.getOlxCodes (Some b) s) ->
                         OlxCode.brokerId code = Some b)
           /\ MemStorage.getAvailableOlxCodes (Some b) s
              = filter (fun code => negb (OlxCode.isUsed code))
                       (MemStorage.getOlxCodes (Some b) s)
           /\ MemStorage.getHighlightedCodes (Some b) s
              = filter OlxCode.isHighlighted (MemStorage.getOlxCodes (Some b) s)).
Proof.
  intros s. split; [reflexivity|]. split; [reflexivity|]. split.
  - intros brokerId code. unfold MemStorage.getOlxCodes.
    destruct brokerId as [b|]; [destruct (N.eqb b 0)|]; rewrite ?filter_In; tauto.
  - intros b Hb. apply N.eqb_neq in Hb. unfold MemStorage.getOlxCodes. rewrite Hb.
    split; [|split].
    + intros code I. apply filter_In in I. destruct I as [_ B].
      destruct (OlxCode.brokerId code) as [x|]; cbn [MemStorage.sameBroker] in B;
        [|discriminate]. apply N.eqb_eq in B. congruence.
    + unfold MemStorage.getAvailableOlxCodes. rewrite !filter_and.
      apply filter_ext. intros code.
      destruct (MemStorage.sameBroker _ _), (OlxCode.isActive code), (OlxCode.isUsed code);
        reflexivity.
    + unfold MemStorage.getHighlightedCodes. rewrite !filter_and.
      apply filter_ext. intros code.
      destruct (MemStorage.sameBroker _ _), (OlxCode.isActive code),
        (OlxCode.isHighlighted code); reflexivity.
Qed.

Lemma spread_twice (a : Automation.t) (updates : Automation.partial) :
  Automation.spread (Automation.spread a updates) updates = Automation.spread a updates.
Proof.
  unfold Automation.spread. cbn.
  destruct updates as [st pr cs pd em ca]. cbn.
  destruct st, pr, cs, pd, em, ca; reflexivity.
Qed.

(** X8: [updateAutomation] of an id without a row answers [undefined] and
    changes nothing; of an id with a row it answers and stores the row
    with the updates laid over it, keeps the rows in their places, leaves
    every other id as it was, and making the same update again changes
    nothing more. *)
Theorem updateAutomation_overlays_the_updates_on_the_row :
  forall (id : N) (updates : Automation.partial) (s : MemStorage.t),
    let r := MemStorage.updateAutomation id updates s in
    match MemStorage.getAutomation id s with
    | None => r = (None, s)
    | Some automation =>
        fst r = Some (Automation.spread automation updates)
        /\ MemStorage.getAutomation id (snd r) = Some (Automation.spread automation updates)
        /\ JsMap.keys (MemStorage.automations (snd r)) = JsMap.keys (MemStorage.automations s)
        /\ MemStorage.updateAutomation id updates (snd r) = r
    end
    /\ (forall other, other <> id ->
                      MemStorage.getAutomation other (snd r) = MemStorage.getAutomation other s).
Proof.
  intros id updates s r. subst r. unfold MemStorage.updateAutomation, MemStorage.getAutomation.
  destruct (JsMap.get N.eqb id (MemStorage.automations s)) as [a|] eqn:G; cbv zeta;
    cbn [fst snd MemStorage.withAutomations MemStorage.automations].
  - split; [|intros other H; apply (get_set_other N.eqb N.eqb_eq); congruence].
    split; [reflexivity|]. split; [apply (get_set_same N.eqb N.eqb_eq)|]. split.
    + apply (@set_present_keys _ _ N.eqb N.eqb_eq). congruence.
    + rewrite (get_set_same N.eqb N.eqb_eq). rewrite spread_twice.
      unfold MemStorage.withAutomations.
      cbn [MemStorage.automations MemStorage.olxCodes MemStorage.systemLogs
           MemStorage.settings MemStorage.currentAutomationId MemStorage.currentOlxCodeId
           MemStorage.currentLogId MemStorage.currentSettingId].
      rewrite (set_set N.eqb N.eqb_eq). reflexivity.
  - split; [reflexivity|]. intros other H. reflexivity.
Qed.

(* ================================================================== *)
(** ** Listings: newest first, and limited *)
(* ================================================================== *)

Section SortFacts.

Variable A : Type.
Variable key : A -> Z.

Lemma insertBefore_perm (x : A) (l : list A) :
  Permutation (JsArray.insertBefore key x l) (x :: l).
Proof.
  induction l as [|y l IH]; cbn [JsArray.insertBefore]; [reflexivity|].
  destruct (key y <=? key x)%Z; [reflexivity|].
  rewrite IH. apply perm_swap.
Qed.

Lemma sortDescending_perm (l : list A) : Permutation (JsArray.sortDescending key l) l.
Proof.
  unfold JsArray.sortDescending. induction l as [|x l IH]; cbn [fold_right]; [reflexivity|].
  rewrite insertBefore_perm. now constructor.
Qed.

Lemma insertBefore_sorted (x : A) (l : list A) :
  StronglySorted (fun a b => (key b <= key a)%Z) l ->
  StronglySorted (fun a b => (key b <= key a)%Z) (JsArray.insertBefore key x l).
Proof.
  induction 1 as [|y l S IH F]; cbn [JsArray.insertBefore].
  - repeat constructor.
  - destruct (key y <=? key x)%Z eqn:E.
    + apply Z.leb_le in E. constructor; [constructor; assumption|].
      constructor; [exact E|]. eapply Forall_impl; [|exact F]. cbn beta. intros; lia.
    + apply Z.leb_gt in E. constructor; [exact IH|].
      apply (Permutation_Forall (Permutation_sym (insertBefore_perm x l))).
      constructor; [lia|exact F].
Qed.

Lemma sortDescending_sorted (l : list A) :
  StronglySorted (fun a b => (key b <= key a)%Z) (JsArray.sortDescending key l).
Proof.
  unfold JsArray.sortDescending. induction l as [|x l IH]; cbn [fold_right];
    [constructor|].
  apply insertBefore_sorted, IH.
Qed.

(** The sort is stable: the elements of one key keep their order. *)
Lemma insertBefore_stable (t : Z) (x : A) (l : list A) :
  filter (fun a => (key a =? t)%Z) (JsArray.insertBefore key x l)
  = filter (fun a => (key a =? t)%Z) (x :: l).
Proof.
  induction l as [|y l IH]; cbn [JsArray.insertBefore]; [reflexivity|].
  destruct (key y <=? key x)%Z eqn:E; [reflexivity|].
  apply Z.leb_gt in E. cbn [filter] in *. rewrite IH.
  destruct (key x =? t)%Z eqn:Ex, (key y =? t)%Z eqn:Ey; try reflexivity.
  apply Z.eqb_eq in Ex, Ey. lia.
Qed.

Lemma sortDescending_stable (t : Z) (l : list A) :
  filter (fun a => (key a =? t)%Z) (JsArray.sortDescending key l)
  = filter (fun a => (key a =? t)%Z) l.
Proof.
  unfold JsArray.sortDescending. induction l as [|x l IH]; cbn [fold_right];
    [reflexivity|].
  rewrite insertBefore_stable. cbn [filter]. now rewrite IH.
Qed.

(** An element added at the end of the array that is newer than all goes
    first; one that is not newer than any goes last. *)
Lemma sortDescending_newest (x : A) (l : list A) :
  Forall (fun a => (key a < key x)%Z) l ->
  JsArray.sortDescending key (l ++ [x]) = x :: JsArray.sortDescending key l.
Proof.
  unfold JsArray.sortDescending. induction 1 as [|a l Ha F IH]; cbn [app fold_right];
    [reflexivity|].
  rewrite IH. cbn [JsArray.insertBefore].
  destruct (key x <=? key a)%Z eqn:E; [apply Z.leb_le in E; lia|reflexivity].
Qed.

Lemma insertBefore_snoc (a x : A) (l : list A) :
  (key x <= key a)%Z ->
  JsArray.insertBefore key a (l ++ [x]) = JsArray.insertBefore key a l ++ [x].
Proof.
  intros H. induction l as [|y l IH]; cbn [app JsArray.insertBefore].
  - apply Z.leb_le in H. now rewrite H.
  - destruct (key y <=? key a)%Z; [reflexivity|]. now rewrite IH.
Qed.

Lemma sortDescending_oldest (x : A) (l : list A) :
  Forall (fun a => (key x <= key a)%Z) l ->
  JsArray.sortDescending key (l ++ [x]) = JsArray.sortDescending key l ++ [x].
Proof.
  unfold JsArray.sortDescending. induction 1 as [|a l Ha F IH]; cbn [app fold_right];
    [reflexivity|].
  rewrite IH. apply insertBefore_snoc, Ha.
Qed.

Lemma limited_cases (l : list A) :
  JsArray.limited None l = l
  /\ JsArray.limited (Some 0%Z) l = l
  /\ (forall n, (0 < n)%Z -> JsArray.limited (Some n) l = firstn (Z.to_nat n) l)
  /\ (forall n, (n < 0)%Z ->
                JsArray.limited (Some n) l = firstn (length l - Z.to_nat (- n)) l).
Proof.
  split; [reflexivity|]. split; [reflexivity|]. split.
  - intros n H. unfold JsArray.limited, JsArray.slice0.
    destruct (n =? 0)%Z eqn:E; [apply Z.eqb_eq in E; lia|].
    destruct (n <? 0)%Z eqn:E'; [apply Z.ltb_lt in E'; lia|reflexivity].
  - intros n H. unfold JsArray.limited, JsArray.slice0.
    destruct (n =? 0)%Z eqn:E; [apply Z.eqb_eq in E; lia|].
    destruct (n <? 0)%Z eqn:E'; [|apply Z.ltb_ge in E'; lia].
    f_equal. lia.
Qed.

End SortFacts.

(** X9: [getSystemLogs] gives the entries of the level asked for (all of
    them without a level, with the empty level or with ["all"]), the latest
    first and entries of one time in the order they were written.  A
    positive limit keeps that many from the front, no limit or 0 keeps
    all, and a negative limit drops that many from the end. *)
Theorem getSystemLogs_lists_the_latest_first :
  forall (level : option str) (s : MemStorage.t),
    let shown := fun log =>
                   match level with
                   | None => true
                   | Some l => if eqb l [] || eqb l (lit "all") then true
                               else eqb (SystemLog.level log) l
                   end in
    let wanted := filter shown (JsMap.values (MemStorage.systemLogs s)) in
    let all := MemStorage.getSystemLogs None level s in
    Permutation all wanted
    /\ StronglySorted (fun a b => (SystemLog.timestamp b <= SystemLog.timestamp a)%Z) all
    /\ (forall time,
           filter (fun log => (SystemLog.timestamp log =? time)%Z) all
           = filter (fun log => (SystemLog.timestamp log =? time)%Z) wanted)
    /\ MemStorage.getSystemLogs (Some 0%Z) level s = all
    /\ (forall n, (0 < n)%Z ->
                  MemStorage.getSystemLogs (Some n) level s = firstn (Z.to_nat n) all)
    /\ (forall n, (n < 0)%Z ->
                  MemStorage.getSystemLogs (Some n) level s
                  = firstn (length all - Z.to_nat (- n)) all).
Proof.
  intros level s shown wanted all.
  assert (E : all = JsArray.sortDescending SystemLog.timestamp wanted).
  { subst all wanted shown. unfold MemStorage.getSystemLogs. cbv zeta.
    cbn [JsArray.limited]. f_equal.
    destruct level as [l|]; [|symmetry; apply forallb_filter_id, forallb_forall; reflexivity].
    destruct (eqb l []), (eqb l (lit "all")); cbn [negb andb orb];
      try (symmetry; apply forallb_filter_id, forallb_forall; reflexivity).
    reflexivity. }
  assert (L : forall limit, MemStorage.getSystemLogs limit level s = JsArray.limited limit all).
  { intros limit. rewrite E. subst wanted shown. unfold MemStorage.getSystemLogs. cbv zeta.
    f_equal. f_equal.
    destruct level as [l|]; [|symmetry; apply forallb_filter_id, forallb_forall; reflexivity].
    destruct (eqb l []), (eqb l (lit "all")); cbn [negb andb orb];
      try (symmetry; apply forallb_filter_id, forallb_forall; reflexivity).
    reflexivity. }
  destruct (limited_cases all) as (_ & L0 & Lp & Ln).
  clearbody all. subst all.
  split; [apply sortDescending_perm|]. split; [apply sortDescending_sorted|].
  split; [intros time; apply sortDescending_stable|].
  split; [rewrite L; exact L0|]. split.
  - intros n H. rewrite L. apply Lp, H.
  - intros n H. rewrite L. apply Ln, H.
Qed.

(** The time a row was created at, for the rows that have one. *)
Lemma getAutomations_dated (limit : option Z) (s : MemStorage.t) :
  Forall (fun a => Automation.createdAt a <> None) (JsMap.values (MemStorage.automations s)) ->
  MemStorage.getAutomations limit s
  = Some (JsArray.limited limit
            (JsArray.sortDescending
               (fun a => match Automation.createdAt a with Some time => time | None => 0%Z end)
               (JsMap.values (MemStorage.automations s)))).
Proof.
  intros D. unfold MemStorage.getAutomations. cbv zeta.
  replace (existsb _ (JsMap.values (MemStorage.automations s))) with false;
    [now rewrite andb_false_r|].
  symmetry. apply not_true_is_false. intros E. apply existsb_exists in E.
  destruct E as (a & I & E). rewrite Forall_forall in D. specialize (D a I).
  destruct (Automation.createdAt a); [discriminate|congruence].
Qed.

(** X10: when every row has its [createdAt], [getAutomations] gives all the
    rows, the latest created first and rows of one time in the order they
    were created; a positive limit keeps that many from the front, no limit
    or 0 keeps all, a negative limit drops that many from the end.  With two
    rows or more of which one has no [createdAt] the call fails. *)
Theorem getAutomations_lists_the_newest_first :
  forall s : MemStorage.t,
    let rows := JsMap.values (MemStorage.automations s) in
    let createdAt := fun a => match Automation.createdAt a with
                              | Some time => time
                              | None => 0%Z
                              end in
    (Forall (fun a => Automation.createdAt a <> None) rows ->
     exists all,
       MemStorage.getAutomations None s = Some all
       /\ Permutation all rows
       /\ StronglySorted (fun a b => (createdAt b <= createdAt a)%Z) all
       /\ (forall time, filter (fun a => (createdAt a =? time)%Z) all
                        = filter (fun a => (createdAt a =? time)%Z) rows)
       /\ MemStorage.getAutomations (Some 0%Z) s = Some all
       /\ (forall n, (0 < n)%Z ->
                     MemStorage.getAutomations (Some n) s = Some (firstn (Z.to_nat n) all))
       /\ (forall n, (n < 0)%Z ->
                     MemStorage.getAutomations (Some n) s
                     = Some (firstn (length all - Z.to_nat (- n)) all)))
    /\ (forall limit,
           (2 <= length rows)%nat ->
           (exists a, In a rows /\ Automation.createdAt a = None) ->
           MemStorage.getAutomations limit s = None).
Proof.
  intros s rows createdAt. split.
  - intros D. exists (JsArray.sortDescending createdAt rows).
    destruct (limited_cases (JsArray.sortDescending createdAt rows)) as (_ & L0 & Lp & Ln).
    split; [apply (getAutomations_dated None s D)|].
    split; [apply sortDescending_perm|]. split; [apply sortDescending_sorted|].
    split; [intros time; apply sortDescending_stable|].
    split; [rewrite (getAutomations_dated _ s D); f_equal; exact L0|]. split.
    + intros n H. rewrite (getAutomations_dated _ s D). f_equal. apply Lp, H.
    + intros n H. rewrite (getAutomations_dated _ s D). f_equal. apply Ln, H.
  - intros limit L (a & I & E). unfold MemStorage.getAutomations. cbv zeta. fold rows.
    apply Nat.leb_le in L. rewrite L.
    replace (existsb _ rows) with true; [reflexivity|].
    symmetry. apply existsb_exists. exists a. split; [exact I|]. now rewrite E.
Qed.

(** X11: [createAutomation] stores the job under the id that the counter
    gives, which no row had, and [getAutomation] reads it back.  In the
    listing of [getAutomations] the new job comes first when every other
    row was created strictly earlier, and last when none was: two jobs
    created at the same time are listed in the order of their creation. *)
Theorem createAutomation_then_getAutomations :
  forall (now : Z) (insertAutomation : Automation.insert) (s : MemStorage.t),
    MemStorage.wellFormed s ->
    Forall (fun a => Automation.createdAt a <> None) (JsMap.values (MemStorage.automations s)) ->
    let created := fst (MemStorage.createAutomation now insertAutomation s) in
    let s' := snd (MemStorage.createAutomation now insertAutomation s) in
    Automation.id created = MemStorage.currentAutomationId s
    /\ MemStorage.getAutomation (Automation.id created) s = None
    /\ MemStorage.getAutomation (Automation.id created) s' = Some created
    /\ Automation.createdAt created = Some now
    /\ Forall (fun a => Automation.createdAt a <> None)
              (JsMap.values (MemStorage.automations s'))
    /\ exists before,
         MemStorage.getAutomations None s = Some before
         /\ (Forall (fun a => exists time, Automation.createdAt a = Some time /\ (time < now)%Z)
                    (JsMap.values (MemStorage.automations s)) ->
             MemStorage.getAutomations None s' = Some (created :: before)
             /\ MemStorage.getAutomations (Some 1%Z) s' = Some [created])
         /\ (Forall (fun a => exists time, Automation.createdAt a = Some time /\ (now <= time)%Z)
                    (JsMap.values (MemStorage.automations s)) ->
             MemStorage.getAutomations None s' = Some (before ++ [created])).
Proof.
  intros now ins s (A & _) D created s'.
  assert (G : MemStorage.getAutomation (Automation.id created) s = None)
    by (apply (keyed_fresh A)).
  assert (S : JsMap.values (MemStorage.automations s')
              = JsMap.values (MemStorage.automations s) ++ [created]).
  { change (MemStorage.automations s')
      with (JsMap.set N.eqb (Automation.id created) created (MemStorage.automations s)).
    rewrite (@set_absent _ _ N.eqb _ _ _ G), values_app. reflexivity. }
  assert (D' : Forall (fun a => Automation.createdAt a <> None)
                      (JsMap.values (MemStorage.automations s'))).
  { rewrite S. apply Forall_app. split; [exact D|]. constructor; [discriminate|constructor]. }
  split; [reflexivity|]. split; [exact G|].
  split; [apply (get_set_same N.eqb N.eqb_eq)|]. split; [reflexivity|]. split; [exact D'|].
  eexists. split; [apply (getAutomations_dated None s D)|].
  cbn [JsArray.limited]. split.
  - intros F.
    assert (N1 : JsArray.sortDescending
                   (fun a => match Automation.createdAt a with
                             | Some time => time
                             | None => 0%Z
                             end)
                   (JsMap.values (MemStorage.automations s'))
                 = created :: JsArray.sortDescending
                                (fun a => match Automation.createdAt a with
                                          | Some time => time
                                          | None => 0%Z
                                          end)
                                (JsMap.values (MemStorage.automations s))).
    { rewrite S. apply sortDescending_newest.
      eapply Forall_impl; [|exact F]. cbn beta. intros a (time & -> & H). exact H. }
    rewrite !(getAutomations_dated _ s' D'), N1. split; reflexivity.
  - intros F. rewrite (getAutomations_dated _ s' D'), S. cbn [JsArray.limited]. f_equal.
    apply sortDescending_oldest.
    eapply Forall_impl; [|exact F]. cbn beta. intros a (time & -> & H). exact H.
Qed.

(* ================================================================== *)
(** ** What every step of the services respects, the whole service
       respects *)
(* ================================================================== *)

Section Respects.

Variable R : World -> World -> Prop.
Hypothesis R_refl : forall w, R w w.
Hypothesis R_trans : forall w1 w2 w3, R w1 w2 -> R w2 w3 -> R w1 w3.

Hypothesis R_createSystemLog : forall insertLog, within R (createSystemLog insertLog).
Hypothesis R_broadcast : forall msg, within R (broadcast msg).
Hypothesis R_updateAutomation : forall id updates, within R (updateAutomation id updates).
Hypothesis R_updateOlxCode : forall id updates, within R (updateOlxCode id updates).
Hypothesis R_setActive : forall id, within R (setActive id).
Hypothesis R_deleteActive : forall id, within R (deleteActive id).
Hypothesis R_external : within R external.
Hypothesis R_browserCall :
  forall c, match c with Launch _ | NewPage | ClosePage => True | _ => False end ->
            within R (modify (recorded c)).
Hypothesis R_probeCall :
  forall c, match c with
            | TestUnivenConnection _ _ | TestOlxConnection _ _ => True
            | _ => False
            end ->
            within R (modify (recorded c)).
Hypothesis R_withBrowser : forall b, within R (modify (withBrowser b)).

Ltac walk :=
  repeat lazymatch goal with
    | |- within _ (bind _ _) => apply (within_bind R_trans); [|intros ?]
    | |- within _ (tryCatch _ _) => apply (within_tryCatch R_trans); [|intros ?]
    | |- within _ (tryFinally _ _) => apply (within_tryFinally R_trans)
    | |- within _ (forEach _ _) => apply (within_forEach R_refl R_trans); intros ?
    | |- within _ (ret _) => apply (within_ret _ R_refl)
    | |- within _ (throw _) => apply (within_throw _ R_refl)
    | |- within _ (gets _) => apply (within_gets _ R_refl)
    | |- within _ (sleep _) => apply (within_sleep _ R_refl)
    | |- within _ (createSystemLog _) => apply R_createSystemLog
    | |- within _ (broadcast _) => apply R_broadcast
    | |- within _ (updateAutomation _ _) => apply R_updateAutomation
    | |- within _ (updateOlxCode _ _) => apply R_updateOlxCode
    | |- within _ (setActive _) => apply R_setActive
    | |- within _ (deleteActive _) => apply R_deleteActive
    | |- within _ external => apply R_external
    | |- within _ (modify (recorded (Launch _))) => apply R_browserCall; exact I
    | |- within _ (modify (recorded NewPage)) => apply R_browserCall; exact I
    | |- within _ (modify (recorded ClosePage)) => apply R_browserCall; exact I
    | |- within _ (modify (recorded (TestUnivenConnection _ _))) => apply R_probeCall; exact I
    | |- within _ (modify (recorded (TestOlxConnection _ _))) => apply R_probeCall; exact I
    | |- within _ (modify (recorded ?c)) => destruct c
    | |- within _ (modify (withBrowser _)) => apply R_withBrowser
    | |- within _ (match ?x with _ => _ end) => destruct x
    | |- within _ (let _ := _ in _) => cbv zeta
    | |- within _ _ => match goal with H : _ |- _ => solve [apply H] end
    end.

Lemma respects_Guarded_downloadLoop pathJoin photosDir automationId total photoUrls :
  forall i downloadedPaths,
    within R (Guarded.downloadLoop pathJoin photosDir automationId total i photoUrls
                                   downloadedPaths).
Proof.
  induction photoUrls as [|photoUrl rest IH]; intros i downloadedPaths;
    cbn [Guarded.downloadLoop]; unfold Guarded.log; walk.
Qed.

Lemma respects_Guarded_start randomBelow cwd pathJoin id :
  within R (Guarded.startAutomation randomBelow cwd pathJoin id).
Proof.
  pose proof (respects_Guarded_downloadLoop pathJoin) as L.
  unfold Guarded.startAutomation, Guarded.startAutomationTry, Guarded.startAutomationCatch,
    Guarded.createOLXListing, Guarded.downloadPhotos, Guarded.extractPropertyData,
    Guarded.updateProgress, Guarded.closePage, Guarded.newPage, Guarded.getBrowser,
    Guarded.log, isActive, getAutomation, getSettings, getOlxCodeByCode.
  walk.
Qed.

Lemma respects_Guarded_stop id : within R (Guarded.stopAutomation id).
Proof. unfold Guarded.stopAutomation, Guarded.log, isActive. walk. Qed.

Lemma respects_Probing_start tester id : within R (Probing.startAutomation tester id).
Proof.
  unfold Probing.startAutomation, Probing.startAutomationTry, Probing.startAutomationCatch,
    Probing.createOLXListing, Probing.downloadPhotos, Probing.extractPropertyData,
    Probing.probe, Probing.updateProgress, Probing.log, getAutomation, getSettings,
    getAvailableOlxCodes.
  walk.
Qed.

Lemma respects_Probing_stop id : within R (Probing.stopAutomation id).
Proof. unfold Probing.stopAutomation, Probing.log, isActive. walk. Qed.

End Respects.

(* ================================================================== *)
(** ** What a run never does *)
(* ================================================================== *)

Lemma codesUntouched_refl w : codesUntouched w w.
Proof. repeat split. Qed.

Lemma codesUntouched_trans w1 w2 w3 :
  codesUntouched w1 w2 -> codesUntouched w2 w3 -> codesUntouched w1 w3.
Proof. intros (A1 & B1 & C1) (A2 & B2 & C2). repeat split; congruence. Qed.

(** X12: the [Guarded] variant, on every path of [startAutomation] and of
    [stopAutomation] and whatever the browser and the file system do,
    changes no OLX code and no setting, and never calls [updateOlxCode] or
    a connectivity probe. *)
Theorem the_guarded_service_never_touches_codes_or_probes :
  forall (randomBelow : Z -> Z) (cwd : str) (pathJoin : list str -> str) (id : N) (w : World),
    codesUntouched w (snd (Guarded.startAutomation randomBelow cwd pathJoin id w))
    /\ codesUntouched w (snd (Guarded.stopAutomation id w)).
Proof.
  intros randomBelow cwd pathJoin id w.
  assert (L : forall i, within codesUntouched (createSystemLog i)) by (intros i v; repeat split).
  assert (B : forall m, within codesUntouched (broadcast m)) by (intros m v; repeat split).
  assert (U : forall j u, within codesUntouched (updateAutomation j u)).
  { intros j u v. unfold updateAutomation, modify, MemStorage.updateAutomation. cbn [snd].
    destruct (JsMap.get N.eqb j (MemStorage.automations (storage v))); repeat split. }
  assert (D : forall j, within codesUntouched (deleteActive j)) by (intros j v; repeat split).
  split.
  - apply (respects_Guarded_start codesUntouched_refl codesUntouched_trans L B U);
      try solve [intros; intros v; repeat split].
    + intros v. unfold external. destruct (faults v) as [|[e|] rest]; repeat split.
    + intros c H v. destruct c; try contradiction; repeat split.
  - apply (respects_Guarded_stop codesUntouched_refl codesUntouched_trans L B U D).
Qed.

Lemma browserUntouched_refl w : browserUntouched w w.
Proof. repeat split. Qed.

Lemma browserUntouched_trans w1 w2 w3 :
  browserUntouched w1 w2 -> browserUntouched w2 w3 -> browserUntouched w1 w3.
Proof. intros (A1 & B1 & C1) (A2 & B2 & C2). repeat split; congruence. Qed.

(** X13: the [Probing] variant, on every path of [startAutomation] and of
    [stopAutomation], leaves the browser of the service as it is and makes
    no call to the browser or to the file system. *)
Theorem the_probing_service_never_uses_the_browser :
  forall (tester : Probing.Tester) (id : N) (w : World),
    browserUntouched w (snd (Probing.startAutomation tester id w))
    /\ browserUntouched w (snd (Probing.stopAutomation id w)).
Proof.
  intros tester id w.
  assert (L : forall i, within browserUntouched (createSystemLog i)) by (intros i v; repeat split).
  assert (B : forall m, within browserUntouched (broadcast m)) by (intros m v; repeat split).
  assert (U : forall j u, within browserUntouched (updateAutomation j u)) by (intros j u v; repeat split).
  assert (D : forall j, within browserUntouched (deleteActive j)) by (intros j v; repeat split).
  split.
  - apply (respects_Probing_start browserUntouched_refl browserUntouched_trans L B U);
      try solve [intros; intros v; repeat split].
    intros c H v. destruct c; try contradiction; repeat split.
  - apply (respects_Probing_stop browserUntouched_refl browserUntouched_trans L B U D).
Qed.

Lemma deliver_more (first second : list WsMessage) (client : Client) :
  deliver second (deliver first client) = deliver (first ++ second) client.
Proof.
  destruct client as [[|] messages]; unfold deliver; cbn [readyStateOpen received];
    [rewrite app_assoc|]; reflexivity.
Qed.

(** X14: [log] sends one log message, with the level, the message, the job
    and the time of the send, and in the [Probing] variant the metadata, to
    every client whose socket is open at that moment, after the messages the
    client had, and nothing to a client whose socket is not open.
    [updateProgress] persists the step and the progress and sends two
    messages to the open clients, the log message of its text at the level
    [info] and then the progress message with the step and the progress it
    persisted.  The promises of [MemStorage] are settled without waiting for
    an event, so no socket opens or closes within one call. *)
Theorem log_and_updateProgress_reach_exactly_the_open_clients :
  forall (level message : str) (automationId : option N) (metadata : option PropertyData.t)
         (id : N) (step : AutomationStep) (progress : Z) (text : str) (w : World),
    (clients (snd (Probing.log level message automationId metadata w))
     = map (deliver [WsLog level message automationId (option_map MetaObject metadata)
                           (clock w)])
           (clients w)
     /\ clients (snd (Guarded.log level message automationId metadata w))
        = map (deliver [WsLog level message automationId None (clock w)]) (clients w))
    /\ (clients (snd (Probing.updateProgress id step progress text w))
        = map (deliver [WsLog Level.info text (Some id) None (clock w);
                        WsProgress id step progress text (clock w)])
              (clients w)
        /\ clients (snd (Guarded.updateProgress id step progress text w))
           = map (deliver [WsLog Level.info text (Some id) None (clock w);
                           WsProgress id step progress text (clock w)])
                 (clients w)
        /\ persistedSteps id (history (snd (Probing.updateProgress id step progress text w)))
           = persistedSteps id (history w) ++ [(step, progress)]
        /\ persistedSteps id (history (snd (Guarded.updateProgress id step progress text w)))
           = persistedSteps id (history w) ++ [(step, progress)])
    /\ (forall (extra : list WsMessage) (client : Client),
           (readyStateOpen client = true ->
            readyStateOpen (deliver extra client) = true
            /\ received (deliver extra client) = received client ++ extra)
           /\ (readyStateOpen client = false -> deliver extra client = client)).
Proof.
  intros level message automationId metadata id step progress text w.
  split; [split; reflexivity|]. split.
  - assert (M : forall l : list Client,
               map (deliver [WsProgress id step progress text (clock w)])
                   (map (deliver [WsLog Level.info text (Some id) None (clock w)]) l)
               = map (deliver [WsLog Level.info text (Some id) None (clock w);
                               WsProgress id step progress text (clock w)]) l).
    { intros l. rewrite map_map. apply map_ext. intros client. apply deliver_more. }
    split; [rewrite <- M; reflexivity|].
    split; [rewrite <- M; reflexivity|].
    split.
    + change (history (snd (Probing.updateProgress id step progress text w)))
        with (UpdateAutomation id (stepUpdate step progress) :: history w).
      rewrite persistedSteps_cons. f_equal.
      unfold persistedSteps, stepUpdate.
      cbn [rev app flat_map Automation.currentStep' Automation.progress'].
      rewrite N.eqb_refl. reflexivity.
    + change (history (snd (Guarded.updateProgress id step progress text w)))
        with (UpdateAutomation id (stepUpdate step progress) :: history w).
      rewrite persistedSteps_cons. f_equal.
      unfold persistedSteps, stepUpdate.
      cbn [rev app flat_map Automation.currentStep' Automation.progress'].
      rewrite N.eqb_refl. reflexivity.
  - intros extra client. unfold deliver. split; intros H; rewrite H; [split|]; reflexivity.
Qed.

Lemma storageKept_refl w : storageKept w w.
Proof. intros H. exact H. Qed.

Lemma storageKept_trans w1 w2 w3 : storageKept w1 w2 -> storageKept w2 w3 -> storageKept w1 w3.
Proof. unfold storageKept. auto. Qed.

Lemma storageKept_same w w' : storage w' = storage w -> storageKept w w'.
Proof. intros E H. rewrite E. exact H. Qed.

(** X15: a storage that is well formed is well formed after
    [startAutomation] and after [stopAutomation], in both variants and on
    every path: the services keep the rows of the storage under their ids. *)
Theorem the_services_keep_the_storage_well_formed :
  forall (tester : Probing.Tester) (randomBelow : Z -> Z) (cwd : str)
         (pathJoin : list str -> str) (id : N) (w : World),
    MemStorage.wellFormed (storage w) ->
    MemStorage.wellFormed (storage (snd (Probing.startAutomation tester id w)))
    /\ MemStorage.wellFormed (storage (snd (Probing.stopAutomation id w)))
    /\ MemStorage.wellFormed
         (storage (snd (Guarded.startAutomation randomBelow cwd pathJoin id w)))
    /\ MemStorage.wellFormed (storage (snd (Guarded.stopAutomation id w))).
Proof.
  intros tester randomBelow cwd pathJoin id w W.
  assert (L : forall i, within storageKept (createSystemLog i)).
  { intros i v H. apply wellFormed_createSystemLog, H. }
  assert (B : forall m, within storageKept (broadcast m)).
  { intros m v. now apply storageKept_same. }
  assert (U : forall j u, within storageKept (updateAutomation j u)).
  { intros j u v H. apply wellFormed_updateAutomation, H. }
  assert (C : forall j u, within storageKept (updateOlxCode j u)).
  { intros j u v H. apply wellFormed_updateOlxCode, H. }
  assert (A : forall j, within storageKept (setActive j)).
  { intros j v. now apply storageKept_same. }
  assert (D : forall j, within storageKept (deleteActive j)).
  { intros j v. now apply storageKept_same. }
  assert (X : within storageKept external).
  { intros v. apply storageKept_same. unfold external.
    destruct (faults v) as [|[e|] rest]; reflexivity. }
  assert (K : forall c, within storageKept (modify (recorded c))).
  { intros c v. now apply storageKept_same. }
  assert (S : forall b, within storageKept (modify (withBrowser b))).
  { intros b v. now apply storageKept_same. }
  split; [|split; [|split]].
  - apply (respects_Probing_start storageKept_refl storageKept_trans L B U C A D);
      [intros c _; apply K|exact W].
  - apply (respects_Probing_stop storageKept_refl storageKept_trans L B U D). exact W.
  - apply (respects_Guarded_start storageKept_refl storageKept_trans L B U A D X);
      [intros c _; apply K|exact S|exact W].
  - apply (respects_Guarded_stop storageKept_refl storageKept_trans L B U D). exact W.
Qed.

(* ================================================================== *)
(** ** The tester that probes with [fetch] *)
(* ================================================================== *)

Lemma tryEndpoints_first fetch remaining :
  fst (ConnectivityTest.tryEndpoints fetch remaining)
  = match find (answersOk fetch) remaining with
    | Some endpoint => (true, endpoint)
    | None => (false, [])
    end.
Proof.
  induction remaining as [|endpoint rest IH]; [reflexivity|].
  cbn [ConnectivityTest.tryEndpoints find]. unfold answersOk at 1.
  destruct (fetch (ConnectivityTest.Head endpoint)) as [status|e].
  - destruct (ConnectivityTest.ok status); [reflexivity|exact IH].
  - exact IH.
Qed.

(** X16: the UNIVEN probe of [connectivity-test.ts] tries its addresses in
    order and goes on with the first that answers a [HEAD] request with an
    ok status.  It reports failure when no address does, or when both
    credentials are given and the login request to that address answers
    with a status that is not ok; a login request that is rejected is
    reported as a success, and so is a probe without credentials. *)
Theorem the_univen_probe_counts_a_rejected_login_as_success :
  forall (fetch : ConnectivityTest.Request -> ConnectivityTest.FetchOutcome)
         (now : Z) (username password : JsValue),
    success (fst (ConnectivityTest.testUnivenConnection fetch now username password))
    = match find (answersOk fetch) ConnectivityTest.endpoints with
      | None => false
      | Some endpoint =>
          if truthy username && truthy password then
            match fetch (ConnectivityTest.PostLogin (endpoint ++ lit "/login")
                                                    username password) with
            | ConnectivityTest.Response status => ConnectivityTest.ok status
            | ConnectivityTest.Rejected _ => true
            end
          else true
      end.
Proof.
  intros fetch now username password.
  unfold ConnectivityTest.testUnivenConnection. cbv zeta.
  rewrite tryEndpoints_first.
  destruct (find (answersOk fetch) ConnectivityTest.endpoints) as [endpoint|];
    cbn [fst snd negb]; [|reflexivity].
  destruct (truthy username); cbn [negb orb andb]; [|reflexivity].
  destruct (truthy password); cbn [negb orb andb]; [|reflexivity].
  destruct (fetch _) as [status|e]; [|reflexivity].
  destruct (ConnectivityTest.ok status); reflexivity.
Qed.

(* ================================================================== *)
(** ** More on the runs of the [Probing] variant *)
(* ================================================================== *)

Lemma Probing_try_missing tester id w :
  job id w = None ->
  Probing.startAutomationTry tester id w
  = (Throw (JsError (Probing.msgNotFound id)), snd (setActive id w)).
Proof.
  intros H. unfold Probing.startAutomationTry.
  rewrite (bind_ok (setActive id) _ w (a:=tt) eq_refl).
  rewrite (bind_ok (getAutomation id) _ (snd (setActive id w)) (a:=job id w) eq_refl).
  rewrite H. reflexivity.
Qed.

(** X17: in the [Probing] variant, when the UNIVEN credentials are set and
    the UNIVEN probe reports a failure, the run ends with the job failed and
    the message of the probe after [Falha na conexão UNIVEN: ]; it has
    persisted the step [connecting_univen] twice and no other, has not
    probed OLX, and has left the OLX codes as they were. *)
Theorem a_failed_univen_probe_fails_the_job :
  forall (tester : Probing.Tester) (id : N) (w : World) (a : Automation.t),
    job id w = Some a ->
    missing (univenCredentials w) = false ->
    success (univenAnswer tester w) = false ->
    let w' := snd (Probing.startAutomation tester id w) in
    (exists a', job id w' = Some a'
                /\ Automation.status a' = lit "failed"
                /\ Automation.errorMessage a'
                   = Some (Probing.msgFalhaUniven (message (univenAnswer tester w))))
    /\ persistedSteps id (history w')
       = persistedSteps id (history w) ++ [(connecting_univen, 10%Z); (connecting_univen, 20%Z)]
    /\ (exists calls, history w' = calls ++ history w
                      /\ existsb isOlxProbe calls = false
                      /\ existsb isCodeUpdate calls = false)
    /\ MemStorage.olxCodes (storage w') = MemStorage.olxCodes (storage w).
Proof.
  intros tester id w a Ha Hm Hs w'.
  pose proof (Probing_start_observe tester id w Ha) as O. fold w' in O.
  rewrite missing_univen in Hm. rewrite univenAnswer_observe in Hs |- *.
  unfold ProbingEnd, ProbingSummary in O. cbv zeta in O.
  rewrite Hm, Hs in O. cbn [negb fst snd] in O.
  assert (J : job id w' = JsMap.get N.eqb id (automationsOf (observe w'))) by reflexivity.
  assert (H : history w' = historyOf (observe w')) by reflexivity.
  assert (C : MemStorage.olxCodes (storage w') = olxCodesOf (observe w')) by reflexivity.
  change (history w) with (historyOf (observe w)).
  change (MemStorage.olxCodes (storage w)) with (olxCodesOf (observe w)).
  rewrite O in J, H, C.
  cbn [automationsOf historyOf olxCodesOf obsActive obsUpdateAutomation ran rev app] in J, H, C.
  rewrite (get_set_same N.eqb N.eqb_eq) in J. cbv iota beta in J.
  rewrite (get_set_same N.eqb N.eqb_eq) in J.
  split; [|split; [|split]].
  - eexists. split; [exact J|]. cbn [messageOr]. split; reflexivity.
  - rewrite H.
    match goal with
    | |- persistedSteps _ (?c1 :: ?c2 :: ?c3 :: ?c4 :: ?before) = _ =>
        change (c1 :: c2 :: c3 :: c4 :: before) with ([c1; c2; c3; c4] ++ before)
    end.
    rewrite persistedSteps_app. f_equal.
    unfold persistedSteps, stepCall, stepUpdate.
    cbn [rev app flat_map Automation.currentStep' Automation.progress' failedUpdate].
    rewrite N.eqb_refl. reflexivity.
  - eexists [_; _; _; _]. split; [exact H|]. split; reflexivity.
  - exact C.
Qed.

(** The run of [Sample.ready] over a network that rejects every request. *)
Lemma a_failed_univen_probe_fails_the_job_when_offline :
  let w' := snd (Probing.startAutomation (fetchTester Sample.offline 5000) 1 Sample.ready) in
  (exists a', job 1 w' = Some a'
              /\ Automation.status a' = lit "failed"
              /\ Automation.errorMessage a'
                 = Some (Probing.msgFalhaUniven
                           (message (univenAnswer (fetchTester Sample.offline 5000)
                                                  Sample.ready))))
  /\ persistedSteps 1 (history w')
     = persistedSteps 1 (history Sample.ready)
       ++ [(connecting_univen, 10%Z); (connecting_univen, 20%Z)]
  /\ (exists calls, history w' = calls ++ history Sample.ready
                    /\ existsb isOlxProbe calls = false
                    /\ existsb isCodeUpdate calls = false)
  /\ MemStorage.olxCodes (storage w') = MemStorage.olxCodes (storage Sample.ready).
Proof.
  apply (@a_failed_univen_probe_fails_the_job (fetchTester Sample.offline 5000) 1
           Sample.ready Sample.job); vm_compute; reflexivity.
Defined.

(** X18: in the [Probing] variant the answer of the OLX probe decides
    nothing: two testers with the same UNIVEN probe leave the same jobs,
    OLX codes, settings, active jobs and calls behind, whatever their OLX
    probes answer.  A failing OLX probe only adds a warning to the log. *)
Theorem the_olx_probe_never_changes_the_run :
  forall (testUniven testOlx testOlx' : JsValue -> JsValue -> ConnectivityTestResult * list LogLine)
         (id : N) (w : World),
    observe (snd (Probing.startAutomation
                    {| Probing.testUniven := testUniven; Probing.testOlx := testOlx |} id w))
    = observe (snd (Probing.startAutomation
                      {| Probing.testUniven := testUniven; Probing.testOlx := testOlx' |} id w)).
Proof.
  intros testUniven testOlx testOlx' id w.
  destruct (job id w) as [a|] eqn:Ha.
  - rewrite (Probing_start_observe _ id w Ha), (Probing_start_observe _ id w Ha).
    reflexivity.
  - rewrite !Probing_start_unfold, !(Probing_try_missing _ id w Ha). reflexivity.
Qed.

(* ================================================================== *)
(** ** Stopping, and what the caller of the service gets *)
(* ================================================================== *)

Lemma Probing_log_ok level message automationId metadata w :
  fst (Probing.log level message automationId metadata w) = Ok tt.
Proof. reflexivity. Qed.

Lemma Guarded_log_ok level message automationId metadata w :
  fst (Guarded.log level message automationId metadata w) = Ok tt.
Proof. reflexivity. Qed.

Lemma Probing_stop_idle id w :
  JsMap.has N.eqb id (activeAutomations w) = false ->
  Probing.stopAutomation id w = (Ok tt, w).
Proof.
  intros H. unfold Probing.stopAutomation.
  rewrite (bind_ok (isActive id) _ w (a:=JsMap.has N.eqb id (activeAutomations w)) eq_refl).
  rewrite H. reflexivity.
Qed.

Lemma Guarded_stop_idle id w :
  JsMap.has N.eqb id (activeAutomations w) = false ->
  Guarded.stopAutomation id w = (Ok tt, w).
Proof.
  intros H. unfold Guarded.stopAutomation.
  rewrite (bind_ok (isActive id) _ w (a:=JsMap.has N.eqb id (activeAutomations w)) eq_refl).
  rewrite H. reflexivity.
Qed.

(** X19: [startAutomation] returns only when the run is over and the id
    is free again, so a [stopAutomation] that follows it finds nothing to
    stop and changes nothing: the job keeps the status that the run gave
    it.  In the [Guarded] variant this holds for a job that was not running
    when it was started. *)
Theorem stopping_after_a_run_changes_nothing :
  forall (tester : Probing.Tester) (randomBelow : Z -> Z) (cwd : str)
         (pathJoin : list str -> str) (id : N) (w : World),
    Probing.stopAutomation id (snd (Probing.startAutomation tester id w))
    = (Ok tt, snd (Probing.startAutomation tester id w))
    /\ (JsMap.has N.eqb id (activeAutomations w) = false ->
        Guarded.stopAutomation id (snd (Guarded.startAutomation randomBelow cwd pathJoin id w))
        = (Ok tt, snd (Guarded.startAutomation randomBelow cwd pathJoin id w))).
Proof.
  intros tester randomBelow cwd pathJoin id w. split.
  - apply Probing_stop_idle, Probing_released.
  - intros H. apply Guarded_stop_idle, Guarded_released, H.
Qed.

Lemma stopping_after_the_run_of_the_ready_job :
  Probing.stopAutomation 1%N (snd (Probing.startAutomation Sample.reachable 1%N Sample.ready))
  = (Ok tt, snd (Probing.startAutomation Sample.reachable 1%N Sample.ready))
  /\ Guarded.stopAutomation 1%N
       (snd (Guarded.startAutomation Sample.randomBelow Sample.cwd Sample.pathJoin 1%N
                                     Sample.ready))
     = (Ok tt, snd (Guarded.startAutomation Sample.randomBelow Sample.cwd Sample.pathJoin 1%N
                                            Sample.ready)).
Proof.
  destruct (stopping_after_a_run_changes_nothing Sample.reachable Sample.randomBelow
              Sample.cwd Sample.pathJoin 1%N Sample.ready) as [P G].
  split; [exact P|apply G; reflexivity].
Defined.

Lemma job_after_update id updates w a :
  job id w = Some a ->
  job id (snd (updateAutomation id updates w)) = Some (Automation.spread a updates).
Proof.
  intros H. rewrite job_observe, observe_updateAutomation.
  cbn [automationsOf obsUpdateAutomation]. rewrite <- job_observe, H.
  apply (get_set_same N.eqb N.eqb_eq).
Qed.

(** X20: [stopAutomation] of a job that is running frees its id and
    records the stop on the job with the message [Automation stopped by
    user]: the [Probing] variant gives the job the status [stopped], the
    [Guarded] variant the status [failed], as for a run that failed.
    Progress and step of the job stay as they were. *)
Theorem stopping_a_running_job_marks_it :
  forall (id : N) (w : World) (a : Automation.t),
    JsMap.has N.eqb id (activeAutomations w) = true ->
    job id w = Some a ->
    let stopped := snd (Probing.stopAutomation id w) in
    let failed := snd (Guarded.stopAutomation id w) in
    (exists a', job id stopped = Some a'
                /\ Automation.status a' = lit "stopped"
                /\ Automation.errorMessage a' = Some (lit "Automation stopped by user")
                /\ Automation.progress a' = Automation.progress a
                /\ Automation.currentStep a' = Automation.currentStep a)
    /\ JsMap.has N.eqb id (activeAutomations stopped) = false
    /\ (exists a', job id failed = Some a'
                   /\ Automation.status a' = lit "failed"
                   /\ Automation.errorMessage a' = Some (lit "Automation stopped by user")
                   /\ Automation.progress a' = Automation.progress a
                   /\ Automation.currentStep a' = Automation.currentStep a)
    /\ JsMap.has N.eqb id (activeAutomations failed) = false.
Proof.
  intros id w a H Ha stopped failed.
  assert (J : job id (snd (deleteActive id w)) = Some a) by exact Ha.
  assert (P : stopped
              = snd (Probing.log Level.warning
                       (lit "Automation " ++ showN id ++ lit " stopped by user") (Some id) None
                       (snd (updateAutomation id
                               {| Automation.status' := Some (lit "stopped");
                                  Automation.progress' := None;
                                  Automation.currentStep' := None;
                                  Automation.propertyData' := None;
                                  Automation.errorMessage' :=
                                    Some (lit "Automation stopped by user");
                                  Automation.completedAt' := None |}
                               (snd (deleteActive id w)))))).
  { unfold stopped, Probing.stopAutomation.
    rewrite (bind_ok (isActive id) _ w (a:=JsMap.has N.eqb id (activeAutomations w)) eq_refl).
    rewrite H.
    rewrite (bind_ok (deleteActive id) _ w (a:=tt) eq_refl).
    rewrite (bind_ok (updateAutomation id _) _ _ (a:=tt) eq_refl). reflexivity. }
  assert (G : failed
              = snd (Guarded.log Level.warning
                       (lit "Automation " ++ showN id ++ lit " stopped by user") (Some id) None
                       (snd (updateAutomation id
                               (failedUpdate (lit "Automation stopped by user"))
                               (snd (deleteActive id w)))))).
  { unfold failed, Guarded.stopAutomation.
    rewrite (bind_ok (isActive id) _ w (a:=JsMap.has N.eqb id (activeAutomations w)) eq_refl).
    rewrite H.
    rewrite (bind_ok (deleteActive id) _ w (a:=tt) eq_refl).
    rewrite (bind_ok (updateAutomation id _) _ _ (a:=tt) eq_refl). reflexivity. }
  split; [|split; [|split]].
  - exists (Automation.spread a
              {| Automation.status' := Some (lit "stopped");
                 Automation.progress' := None;
                 Automation.currentStep' := None;
                 Automation.propertyData' := None;
                 Automation.errorMessage' := Some (lit "Automation stopped by user");
                 Automation.completedAt' := None |}).
    split; [|repeat split].
    rewrite P. rewrite <- (job_after_update id _ _ J). reflexivity.
  - rewrite P. apply (has_delete_same).
  - exists (Automation.spread a (failedUpdate (lit "Automation stopped by user"))).
    split; [|repeat split].
    rewrite G. rewrite <- (job_after_update id _ _ J). reflexivity.
  - rewrite G. apply (has_delete_same).
Qed.

Lemma stopping_the_running_sample_job :
  let stopped := snd (Probing.stopAutomation 1%N Sample.running) in
  let failed := snd (Guarded.stopAutomation 1%N Sample.running) in
  (exists a', job 1%N stopped = Some a'
              /\ Automation.status a' = lit "stopped"
              /\ Automation.errorMessage a' = Some (lit "Automation stopped by user")
              /\ Automation.progress a' = Automation.progress Sample.job
              /\ Automation.currentStep a' = Automation.currentStep Sample.job)
  /\ JsMap.has N.eqb 1%N (activeAutomations stopped) = false
  /\ (exists a', job 1%N failed = Some a'
                 /\ Automation.status a' = lit "failed"
                 /\ Automation.errorMessage a' = Some (lit "Automation stopped by user")
                 /\ Automation.progress a' = Automation.progress Sample.job
                 /\ Automation.currentStep a' = Automation.currentStep Sample.job)
  /\ JsMap.has N.eqb 1%N (activeAutomations failed) = false.
Proof.
  apply (@stopping_a_running_job_marks_it 1%N Sample.running Sample.job); reflexivity.
Defined.

Lemma Probing_cleanup_ok w : fst (Probing.cleanup w) = Ok tt.
Proof.
  unfold Probing.cleanup, tryCatch, bind, gets, external, modify, ret.
  destruct (browser w) as [b|]; [|reflexivity].
  destruct (faults w) as [|[e|] rest]; reflexivity.
Qed.

Lemma Guarded_cleanup_ok w : fst (Guarded.cleanup w) = Ok tt.
Proof.
  unfold Guarded.cleanup, tryCatch, bind, gets, external, modify, ret.
  destruct (browser w) as [b|]; [|reflexivity].
  destruct (faults w) as [|[e|] rest]; reflexivity.
Qed.

Lemma Probing_stop_ok id w : fst (Probing.stopAutomation id w) = Ok tt.
Proof.
  unfold Probing.stopAutomation.
  rewrite (bind_ok (isActive id) _ w (a:=JsMap.has N.eqb id (activeAutomations w)) eq_refl).
  destruct (JsMap.has N.eqb id (activeAutomations w)); reflexivity.
Qed.

Lemma Guarded_stop_ok id w : fst (Guarded.stopAutomation id w) = Ok tt.
Proof.
  unfold Guarded.stopAutomation.
  rewrite (bind_ok (isActive id) _ w (a:=JsMap.has N.eqb id (activeAutomations w)) eq_refl).
  destruct (JsMap.has N.eqb id (activeAutomations w)); reflexivity.
Qed.

(** X21: no call of the service rejects.  Whatever goes wrong in a run,
    in the browser, in the file system or in a probe, is caught by
    [startAutomation] and recorded; [stopAutomation] and [cleanup] return as
    well, in both variants. *)
Theorem the_service_never_rejects :
  forall (tester : Probing.Tester) (randomBelow : Z -> Z) (cwd : str)
         (pathJoin : list str -> str) (id : N) (w : World),
    fst (Probing.startAutomation tester id w) = Ok tt
    /\ fst (Probing.stopAutomation id w) = Ok tt
    /\ fst (Probing.cleanup w) = Ok tt
    /\ fst (Guarded.startAutomation randomBelow cwd pathJoin id w) = Ok tt
    /\ fst (Guarded.stopAutomation id w) = Ok tt
    /\ fst (Guarded.cleanup w) = Ok tt.
Proof.
  intros tester randomBelow cwd pathJoin id w.
  split; [|split; [|split; [|split; [|split]]]].
  - rewrite Probing_start_unfold.
    destruct (fst (Probing.startAutomationTry tester id w)); reflexivity.
  - apply Probing_stop_ok.
  - apply Probing_cleanup_ok.
  - destruct (JsMap.has N.eqb id (activeAutomations w)) eqn:H.
    + rewrite (Guarded_start_active randomBelow cwd pathJoin id w H). reflexivity.
    + rewrite (Guarded_start_unfold randomBelow cwd pathJoin id w H). cbv zeta.
      destruct (fst (Guarded.startAutomationTry _ _ _ _ _)); reflexivity.
  - apply Guarded_stop_ok.
  - apply Guarded_cleanup_ok.
Qed.

(* ================================================================== *)
(** ** The browser and the photos *)
(* ================================================================== *)







Section Photos.

Variable cwd : str.
Variable pathJoin : list str -> str.

Lemma downloadLoop_paths photosDir id total photoUrls :
  forall i downloadedPaths w,
    fst (Guarded.downloadLoop pathJoin photosDir id total i photoUrls downloadedPaths w)
    = Ok (downloadedPaths
          ++ map (fun k => pathJoin [photosDir; lit "photo_" ++ showNat k ++ lit ".jpg"])
                 (seq (i + 1) (length photoUrls))).
Proof.
  induction photoUrls as [|photoUrl rest IH]; intros i downloadedPaths w.
  - cbn [Guarded.downloadLoop length seq map]. rewrite app_nil_r. reflexivity.
  - cbn [Guarded.downloadLoop].
    rewrite (bind_ok (sleep 1000) _ w (a:=tt) eq_refl).
    rewrite (bind_ok (Guarded.log _ _ _ _) _ _ (a:=tt) eq_refl).
    rewrite IH. cbn [length seq map]. rewrite <- app_assoc.
    replace (S i + 1)%nat with (S (i + 1)) by lia. reflexivity.
Qed.

End Photos.

(** X23: [downloadPhotos] of the [Guarded] variant never rejects.  It
    returns the URLs it was given when the setting [downloadPhotos] is off
    or the directory cannot be made, and otherwise one path for each URL,
    [photo_1.jpg] to [photo_n.jpg] in the directory [photos] of the property
    under the working directory. *)
Theorem downloadPhotos_returns_the_paths_or_the_urls :
  forall (cwd : str) (pathJoin : list str -> str) (photoUrls : list str)
         (propertyCode : str) (id : N) (w : World),
    fst (Guarded.downloadPhotos cwd pathJoin photoUrls propertyCode id w)
    = Ok (if truthy (settingValue (lit "downloadPhotos") (MemStorage.getSettings (storage w)))
             && negb (nextCallRejects w)
          then photoPaths pathJoin (pathJoin [cwd; lit "photos"; propertyCode])
                          (length photoUrls)
          else photoUrls).
Proof.
  intros cwd pathJoin photoUrls propertyCode id w.
  unfold Guarded.downloadPhotos, nextCallRejects, photoPaths.
  rewrite (bind_ok getSettings _ w (a:=MemStorage.getSettings (storage w)) eq_refl).
  cbv zeta.
  destruct (truthy _); cbn [negb andb]; [|reflexivity].
  unfold tryCatch.
  destruct (faults w) as [|[e|] rest] eqn:F.
  - assert (X : external w = (Ok tt, w)) by (unfold external; rewrite F; reflexivity).
    rewrite (bind_ok external _ w (a:=tt)) by (rewrite X; reflexivity).
    rewrite (bind_ok (Guarded.downloadLoop _ _ _ _ _ _ _) _ _ (downloadLoop_paths _ _ _ _ _ _ _ _)).
    rewrite (bind_ok (Guarded.log _ _ _ _) _ _ (a:=tt) eq_refl).
    reflexivity.
  - assert (X : external w = (Throw e, withFaults rest w))
      by (unfold external; rewrite F; reflexivity).
    rewrite (bind_thrown external _ w (e:=e)) by (rewrite X; reflexivity).
    cbn iota beta.
    rewrite (bind_ok (Guarded.log _ _ _ _) _ _ (a:=tt) eq_refl).
    reflexivity.
  - assert (X : external w = (Ok tt, withFaults rest w))
      by (unfold external; rewrite F; reflexivity).
    rewrite (bind_ok external _ w (a:=tt)) by (rewrite X; reflexivity).
    rewrite (bind_ok (Guarded.downloadLoop _ _ _ _ _ _ _) _ _ (downloadLoop_paths _ _ _ _ _ _ _ _)).
    rewrite (bind_ok (Guarded.log _ _ _ _) _ _ (a:=tt) eq_refl).
    reflexivity.
Qed.

(* ================================================================== *)
(** ** The codes that a run leaves alone *)
(* ================================================================== *)

Lemma Probing_summary_codes tester id a o :
  olxCodesOf (snd (ProbingSummary tester id a o)) = olxCodesOf o
  \/ exists olxCode rest,
       availableIn (Automation.brokerId a) (olxCodesOf o) = olxCode :: rest
       /\ olxCodesOf (snd (ProbingSummary tester id a o))
          = match JsMap.get N.eqb (OlxCode.id olxCode) (olxCodesOf o) with
            | Some held =>
                JsMap.set N.eqb (OlxCode.id olxCode)
                          (OlxCode.spread held (claim id (Automation.univenCode a)))
                          (olxCodesOf o)
            | None => olxCodesOf o
            end.
Proof.
  unfold ProbingSummary. cbv zeta.
  destruct (negb _ || negb _); [left; reflexivity|].
  destruct (negb (success _)); [left; reflexivity|].
  destruct (negb _ || negb _); [left; reflexivity|].
  destruct (availableIn _ _) as [|olxCode rest]; [left; reflexivity|].
  right. exists olxCode, rest. split; reflexivity.
Qed.

Lemma Probing_end_codes tester id a o :
  olxCodesOf (ProbingEnd tester id a o) = olxCodesOf (snd (ProbingSummary tester id a o)).
Proof.
  unfold ProbingEnd. cbv zeta.
  destruct (fst (ProbingSummary tester id a o)); reflexivity.
Qed.

Lemma Probing_missing_codes tester id w :
  job id w = None ->
  MemStorage.olxCodes (storage (snd (Probing.startAutomation tester id w)))
  = MemStorage.olxCodes (storage w).
Proof.
  intros Ha. rewrite Probing_start_unfold, (Probing_try_missing tester id w Ha).
  cbn [fst snd].
  change (olxCodesOf (observe (snd (deleteActive id
            (snd (Probing.startAutomationCatch id (JsError (Probing.msgNotFound id))
                    (snd (setActive id w)))))))
          = olxCodesOf (observe w)).
  rewrite observe_deleteActive, observe_Probing_catch. reflexivity.
Qed.

(** X24: a run of the [Probing] variant never changes a code that is in
    use.  Over a well-formed storage, every row of [olx_codes] with [isUsed]
    set is the same after [startAutomation] as before, so a code that one
    run claimed is not given to a later run. *)
Theorem a_run_never_changes_a_code_in_use :
  forall (tester : Probing.Tester) (id : N) (w : World) (k : N) (code : OlxCode.t),
    MemStorage.wellFormed (storage w) ->
    MemStorage.getOlxCode k (storage w) = Some code ->
    OlxCode.isUsed code = true ->
    MemStorage.getOlxCode k (storage (snd (Probing.startAutomation tester id w))) = Some code.
Proof.
  intros tester id w k code W G U. unfold MemStorage.getOlxCode in *.
  destruct (job id w) as [a|] eqn:Ha; [|rewrite (Probing_missing_codes tester id w Ha); exact G].
  change (MemStorage.olxCodes (storage (snd (Probing.startAutomation tester id w))))
    with (olxCodesOf (observe (snd (Probing.startAutomation tester id w)))).
  rewrite (Probing_start_observe tester id w Ha), Probing_end_codes.
  destruct (Probing_summary_codes tester id a (observe w)) as [E|(olxCode & rest & A & E)];
    rewrite E; [exact G|].
  cbn [olxCodesOf observe] in *.
  assert (I : In olxCode (availableIn (Automation.brokerId a)
                                      (MemStorage.olxCodes (storage w))))
    by (rewrite A; now left).
  unfold availableIn in I. apply filter_In in I. destruct I as [I S].
  destruct W as (_ & Kc & _).
  pose proof (@keyed_row_id _ OlxCode.id _ _ olxCode Kc I) as R. rewrite R.
  destruct (N.eq_dec (OlxCode.id olxCode) k) as [<-|D].
  - rewrite R in G. injection G as <-.
    rewrite U in S. rewrite andb_false_r in S. discriminate.
  - rewrite (get_set_other N.eqb N.eqb_eq _ _ D). exact G.
Qed.

Lemma the_run_of_the_ready_job_keeps_the_used_code :
  MemStorage.getOlxCode 1
    (storage (snd (Probing.startAutomation Sample.reachable 1 Sample.ready)))
  = Some (Sample.usedCode 1 (lit "HA00011")).
Proof.
  apply (@a_run_never_changes_a_code_in_use Sample.reachable 1%N Sample.ready 1%N
           (Sample.usedCode 1 (lit "HA00011")) wellFormed_ready); reflexivity.
Defined.

(* ================================================================== *)
(** ** The session-detecting probe of [storage.ts] *)
(* ================================================================== *)

(** X25: the UNIVEN probe of [storage.ts] reports success exactly when it
    found a session in the browser: puppeteer loads and launches, the page
    answers with status 200, its address is outside the login, its content
    can be read and shows one of the session indicators, and the browser
    closes.  In every other case it reports failure. *)
Theorem the_session_probe_succeeds_exactly_on_a_session :
  forall (toLowerCase : str -> str) (now : Z) (site : ConnectivityTester.UnivenSite),
    success (fst (ConnectivityTester.testUnivenConnection toLowerCase now site)) = true
    <-> ConnectivityTester.importPuppeteer site = None
        /\ ConnectivityTester.launchBrowser site = None
        /\ ConnectivityTester.navigation site = ConnectivityTester.GotoStatus 200
        /\ ConnectivityTester.urlOutsideLogin (ConnectivityTester.pageUrl site) = true
        /\ ConnectivityTester.readBody site = None
        /\ ConnectivityTester.hasSessionIndicator toLowerCase (ConnectivityTester.pageHtml site)
           = true
        /\ ConnectivityTester.closeBrowser site = None.
Proof.
  intros toLowerCase now site.
  unfold ConnectivityTester.testUnivenConnection, ConnectivityTester.browserPhase,
    ConnectivityTester.detectSession.
  cbv zeta.
  destruct (ConnectivityTester.importPuppeteer site) as [e|];
    [cbn [fst success univenResult]; split; [discriminate|intros (H & _); discriminate]|].
  destruct (ConnectivityTester.launchBrowser site) as [e|];
    [cbn [fst success]; split; [discriminate|intros (_ & H & _); discriminate]|].
  destruct (ConnectivityTester.navigation site) as [e| |status];
    [cbn [fst success]; split; [discriminate|intros (_ & _ & H & _); discriminate]
    |cbn [fst success univenResult]; split; [discriminate|intros (_ & _ & H & _); discriminate]|].
  destruct (N.eqb_spec status 200) as [->|D]; cbn [negb];
    [|cbn [fst success univenResult]; split;
      [discriminate|intros (_ & _ & H & _); congruence]].
  destruct (ConnectivityTester.urlOutsideLogin _);
    [|destruct (ConnectivityTester.closeBrowser site); cbn [fst success]; split;
      try discriminate; intros (_ & _ & _ & H & _); discriminate].
  destruct (ConnectivityTester.readBody site) as [e|];
    [destruct (ConnectivityTester.closeBrowser site); cbn [fst success]; split;
     try discriminate; intros (_ & _ & _ & _ & H & _); discriminate|].
  destruct (ConnectivityTester.hasSessionIndicator _ _);
    [|destruct (ConnectivityTester.closeBrowser site); cbn [fst success]; split;
      try discriminate; intros (_ & _ & _ & _ & _ & H & _); discriminate].
  destruct (ConnectivityTester.closeBrowser site) as [e|]; cbn [fst success].
  - split; [discriminate|intros (_ & _ & _ & _ & _ & _ & H); discriminate].
  - split; [intros _; repeat split|reflexivity].
Qed.

(* ================================================================== *)
(** ** The storage that the constructor builds *)
(* ================================================================== *)

(** X26: the storage that the constructor builds is well formed.  Its forty
    codes are all available to the main broker, in the order of the list,
    and it holds the six default settings, none of them a credential, and no
    job. *)
Theorem a_new_storage_is_well_formed_and_stocked :
  forall now : Z,
    MemStorage.wellFormed (MemStorage.new now)
    /\ map OlxCode.code (MemStorage.getAvailableOlxCodes (Some 1%N) (MemStorage.new now))
       = MemStorage.yourOlxCodes
    /\ map (fun setting => (Settings.key setting, Settings.value setting))
           (MemStorage.getSettings (MemStorage.new now))
       = MemStorage.defaultSettings
    /\ MemStorage.getAutomations None (MemStorage.new now) = Some [].
Proof.
  intros now.
  assert (D : forall (A B : Type) (l : list (A * B)),
             NoDup (map fst l) -> NoDup (JsMap.keys l)) by (intros; assumption).
  split; [|split; [|split]]; [|vm_compute; reflexivity..].
  split; [|split; [|split; [|split]]].
  - split; constructor.
  - split.
    + apply D. vm_compute. repeat constructor; cbn; intuition discriminate.
    + vm_compute. repeat constructor.
  - split; constructor.
  - apply D. vm_compute. repeat constructor; cbn; intuition discriminate.
  - vm_compute. repeat constructor.
Qed.

(* ================================================================== *)
(** ** The theorems with a precondition, at the sample worlds *)
(* ================================================================== *)

Lemma the_ready_storage_stays_well_formed :
  let marked := {| OlxCode.setId := None; OlxCode.setCode := None; OlxCode.setBrokerId := None;
                   OlxCode.setIsUsed := Some true; OlxCode.setIsHighlighted := None;
                   OlxCode.setIsActive := None; OlxCode.setCurrentAutomationId := Some (Some 1%N);
                   OlxCode.setUnivenCode := Some None; OlxCode.setCreatedAt := None |} in
  let renumbered := {| OlxCode.setId := Some 2%N; OlxCode.setCode := None;
                       OlxCode.setBrokerId := None; OlxCode.setIsUsed := None;
                       OlxCode.setIsHighlighted := None; OlxCode.setIsActive := None;
                       OlxCode.setCurrentAutomationId := None; OlxCode.setUnivenCode := None;
                       OlxCode.setCreatedAt := None |} in
  MemStorage.wellFormed
    (snd (MemStorage.createAutomation 5000 Sample.request (storage Sample.ready)))
  /\ MemStorage.wellFormed
       (snd (MemStorage.setSetting 5000 (lit "headless") (VBool true) (storage Sample.ready)))
  /\ MemStorage.wellFormed
       (snd (MemStorage.updateOlxCodeWith 2 marked (storage Sample.ready)))
  /\ ~ MemStorage.wellFormed
         (snd (MemStorage.updateOlxCodeWith 1 renumbered (storage Sample.ready))).
Proof.
  intros marked renumbered.
  destruct (MemStorage_keeps_its_maps_well_formed wellFormed_ready)
    as (A & _ & _ & _ & _ & _ & U & B & _ & _ & _ & S & _).
  split; [apply A|]. split; [apply S|].
  split; [apply U; left; reflexivity|].
  apply (B 1%N 2%N); [discriminate|reflexivity|discriminate].
Defined.

Lemma createOlxCode_in_the_ready_storage :
  let created := fst (MemStorage.createOlxCode 5000 Sample.offer (storage Sample.ready)) in
  let s' := snd (MemStorage.createOlxCode 5000 Sample.offer (storage Sample.ready)) in
  OlxCode.id created = 41%N
  /\ MemStorage.getOlxCode 41 (storage Sample.ready) = None
  /\ MemStorage.getOlxCode 41 s' = Some created
  /\ MemStorage.getAvailableOlxCodes (Some 1%N) s'
     = MemStorage.getAvailableOlxCodes (Some 1%N) (storage Sample.ready) ++ [created].
Proof.
  destruct (createOlxCode_adds_the_row_under_a_new_id 5000 Sample.offer wellFormed_ready)
    as (I & B & G & _ & _ & A).
  split; [exact I|split; [exact B|split; [exact G|apply A; reflexivity]]].
Defined.

Lemma bulkCreateOlxCodes_in_the_ready_storage :
  let created := fst (MemStorage.bulkCreateOlxCodes 5000 1 [lit "HA00098"; lit "HA00099"]
                                                    (storage Sample.ready)) in
  let s' := snd (MemStorage.bulkCreateOlxCodes 5000 1 [lit "HA00098"; lit "HA00099"]
                                               (storage Sample.ready)) in
  map OlxCode.code created = [lit "HA00098"; lit "HA00099"]
  /\ map OlxCode.id created = [41%N; 42%N]
  /\ MemStorage.getAvailableOlxCodes (Some 1%N) s'
     = MemStorage.getAvailableOlxCodes (Some 1%N) (storage Sample.ready) ++ created.
Proof.
  destruct (bulkCreateOlxCodes_adds_available_codes_in_order 5000 1
              [lit "HA00098"; lit "HA00099"] wellFormed_ready)
    as (C & I & _ & A & _).
  split; [exact C|split; [exact I|exact A]].
Defined.

Lemma setSetting_in_the_ready_storage :
  let stored := fst (MemStorage.setSetting 5000 (lit "univenUsername") (VStr (lit "outro"))
                                           (storage Sample.ready)) in
  let s' := snd (MemStorage.setSetting 5000 (lit "univenUsername") (VStr (lit "outro"))
                                       (storage Sample.ready)) in
  MemStorage.getSetting (lit "univenUsername") s' = Some stored
  /\ settingValue (lit "univenUsername") (MemStorage.getSettings s') = VStr (lit "outro").
Proof.
  destruct (setSetting_stores_the_value_under_the_key 5000 (lit "univenUsername")
              (VStr (lit "outro")) wellFormed_ready)
    as (G & _ & _ & _ & V & _).
  split; [exact G|exact V].
Defined.

Lemma the_listing_of_the_ready_storage :
  exists all,
    MemStorage.getAutomations None (storage Sample.ready) = Some all
    /\ Permutation all (JsMap.values (MemStorage.automations (storage Sample.ready))).
Proof.
  destruct (getAutomations_lists_the_newest_first (storage Sample.ready)) as [L _].
  destruct L as (all & E & P & _).
  - repeat constructor. discriminate.
  - exists all. split; [exact E|exact P].
Defined.

Lemma createAutomation_in_the_ready_storage :
  let created := fst (MemStorage.createAutomation 5000 Sample.request (storage Sample.ready)) in
  let s' := snd (MemStorage.createAutomation 5000 Sample.request (storage Sample.ready)) in
  Automation.id created = 2%N
  /\ MemStorage.getAutomation 2 s' = Some created
  /\ MemStorage.getAutomations (Some 1%Z) s' = Some [created].
Proof.
  assert (F : Forall (fun a => Automation.createdAt a <> None)
                     (JsMap.values (MemStorage.automations (storage Sample.ready))))
    by (repeat constructor; discriminate).
  destruct (createAutomation_then_getAutomations 5000 Sample.request wellFormed_ready F)
    as (I & _ & G & _ & _ & before & _ & N' & _).
  split; [exact I|split; [exact G|]].
  apply N'. repeat constructor. exists 1000%Z. split; [reflexivity|reflexivity].
Defined.

Lemma the_services_keep_the_ready_storage_well_formed :
  MemStorage.wellFormed
    (storage (snd (Probing.startAutomation Sample.reachable 1 Sample.ready)))
  /\ MemStorage.wellFormed (storage (snd (Probing.stopAutomation 1 Sample.ready)))
  /\ MemStorage.wellFormed
       (storage (snd (Guarded.startAutomation Sample.randomBelow Sample.cwd Sample.pathJoin
                                              1 Sample.ready)))
  /\ MemStorage.wellFormed (storage (snd (Guarded.stopAutomation 1 Sample.ready))).
Proof.
  exact (the_services_keep_the_storage_well_formed Sample.reachable Sample.randomBelow
           Sample.cwd Sample.pathJoin 1 Sample.ready wellFormed_ready).
Defined.

(* ================================================================== *)
(** ** The runs of the [Guarded] variant over a browser that works *)
(* ================================================================== *)

Lemma through_ret {A} (a : A) : runsThrough (ret a).
Proof. intros w F. split; [exists a; reflexivity|]. split; [exact F|]. split; [reflexivity|auto]. Qed.

Lemma through_gets {A} (f : World -> A) : runsThrough (gets f).
Proof. intros w F. split; [eexists; reflexivity|]. split; [exact F|]. split; [reflexivity|auto]. Qed.

Lemma through_sleep ms : runsThrough (sleep ms).
Proof. apply through_ret. Qed.

Lemma through_external : runsThrough external.
Proof.
  intros w F. unfold external. rewrite F.
  split; [exists tt; reflexivity|]. split; [exact F|]. split; [reflexivity|auto].
Qed.

Lemma through_bind {A B} (m : M A) (k : A -> M B) :
  runsThrough m -> (forall a, runsThrough (k a)) -> runsThrough (bind m k).
Proof.
  intros Hm Hk w F. destruct (Hm w F) as ((a & E) & F1 & C1 & J1).
  rewrite (bind_ok m k w E).
  destruct (Hk a _ F1) as (R & F2 & C2 & J2).
  split; [exact R|]. split; [exact F2|]. split; [congruence|]. auto.
Qed.

Lemma through_tryFinally {A} (m : M A) (cleanup : M unit) :
  runsThrough m -> runsThrough cleanup -> runsThrough (tryFinally m cleanup).
Proof.
  intros Hm Hc w F. destruct (Hm w F) as ((a & E) & F1 & C1 & J1).
  destruct (Hc _ F1) as (([] & E2) & F2 & C2 & J2).
  unfold tryFinally. destruct (m w) as [r w1]. cbn [fst snd] in *. subst r.
  destruct (cleanup w1) as [r2 w2]. cbn [fst snd] in *. subst r2. cbn [fst snd].
  split; [exists a; reflexivity|]. split; [exact F2|]. split; [congruence|]. auto.
Qed.

Lemma through_tryCatch {A} (m : M A) (handler : exn -> M A) :
  runsThrough m -> runsThrough (tryCatch m handler).
Proof.
  intros Hm w F. destruct (Hm w F) as ((a & E) & F1 & C1 & J1).
  unfold tryCatch. destruct (m w) as [r w1]. cbn [fst snd] in *. subst r. cbn [fst snd].
  split; [exists a; reflexivity|]. split; [exact F1|]. split; [exact C1|]. exact J1.
Qed.

Lemma through_createSystemLog insertLog : runsThrough (createSystemLog insertLog).
Proof.
  intros w F. split; [exists tt; reflexivity|]. split; [exact F|]. split; [reflexivity|auto].
Qed.

Lemma through_broadcast msg : runsThrough (broadcast msg).
Proof.
  intros w F. split; [exists tt; reflexivity|]. split; [exact F|]. split; [reflexivity|auto].
Qed.

Lemma through_recorded c : runsThrough (modify (recorded c)).
Proof.
  intros w F. split; [exists tt; reflexivity|]. split; [exact F|]. split; [reflexivity|auto].
Qed.

Lemma through_withBrowser b : runsThrough (modify (withBrowser b)).
Proof.
  intros w F. split; [exists tt; reflexivity|]. split; [exact F|]. split; [reflexivity|auto].
Qed.

Lemma through_updateAutomation id updates : runsThrough (updateAutomation id updates).
Proof.
  intros w F. split; [exists tt; reflexivity|]. split; [exact F|]. split.
  - unfold updateAutomation, modify, MemStorage.updateAutomation. cbn [snd storage recorded withStorage].
    destruct (JsMap.get N.eqb id (MemStorage.automations (storage w))); reflexivity.
  - intros j. apply (stays_updateAutomation j id updates w).
Qed.

Ltac through :=
  repeat lazymatch goal with
    | |- runsThrough (bind _ _) => apply through_bind; [|intros ?]
    | |- runsThrough (ret _) => apply through_ret
    | |- runsThrough (gets _) => apply through_gets
    | |- runsThrough (sleep _) => apply through_sleep
    | |- runsThrough external => apply through_external
    | |- runsThrough (createSystemLog _) => apply through_createSystemLog
    | |- runsThrough (broadcast _) => apply through_broadcast
    | |- runsThrough (updateAutomation _ _) => apply through_updateAutomation
    | |- runsThrough (modify (recorded _)) => apply through_recorded
    | |- runsThrough (modify (withBrowser _)) => apply through_withBrowser
    | |- runsThrough (tryFinally _ _) => apply through_tryFinally
    | |- runsThrough (tryCatch _ _) => apply through_tryCatch
    | |- runsThrough (match ?x with _ => _ end) => destruct x
    | |- runsThrough (let _ := _ in _) => cbv zeta
    end.

Section GuardedThrough.

Variable randomBelow : Z -> Z.
Variable cwd : str.
Variable pathJoin : list str -> str.

Lemma through_log level message automationId metadata :
  runsThrough (Guarded.log level message automationId metadata).
Proof. unfold Guarded.log. through. Qed.

Lemma through_updateProgress automationId step progress message :
  runsThrough (Guarded.updateProgress automationId step progress message).
Proof. unfold Guarded.updateProgress. through; apply through_log. Qed.

Lemma through_getBrowser : runsThrough Guarded.getBrowser.
Proof. unfold Guarded.getBrowser, getSettings. through. Qed.

Lemma through_newPage : runsThrough Guarded.newPage.
Proof. unfold Guarded.newPage. through. Qed.

Lemma through_closePage : runsThrough Guarded.closePage.
Proof. unfold Guarded.closePage. through. Qed.

Lemma through_extractPropertyData propertyCode automationId :
  runsThrough (Guarded.extractPropertyData randomBelow propertyCode automationId).
Proof.
  unfold Guarded.extractPropertyData.
  apply through_bind; [apply through_getBrowser|intros _].
  apply through_bind; [apply through_newPage|intros _].
  apply through_tryFinally; [|apply through_closePage].
  apply through_bind; [apply through_log|intros _].
  apply through_bind; [apply through_sleep|intros _].
  cbv zeta.
  apply through_bind; [apply through_log|intros _].
  apply through_ret.
Qed.

Lemma through_downloadLoop photosDir automationId total photoUrls :
  forall i downloadedPaths,
    runsThrough (Guarded.downloadLoop pathJoin photosDir automationId total i photoUrls
                                      downloadedPaths).
Proof.
  induction photoUrls as [|photoUrl rest IH]; intros i downloadedPaths;
    cbn [Guarded.downloadLoop]; [apply through_ret|].
  cbv zeta.
  apply through_bind; [apply through_sleep|intros _].
  apply through_bind; [apply through_log|intros _].
  apply IH.
Qed.

Lemma through_downloadPhotos photoUrls propertyCode automationId :
  runsThrough (Guarded.downloadPhotos cwd pathJoin photoUrls propertyCode automationId).
Proof.
  unfold Guarded.downloadPhotos, getSettings.
  apply through_bind; [apply through_gets|intros settings]. cbv zeta.
  destruct (negb _).
  - apply through_bind; [apply through_log|intros _]. apply through_ret.
  - apply through_tryCatch.
    apply through_bind; [apply through_external|intros _].
    apply through_bind; [apply through_downloadLoop|intros paths].
    apply through_bind; [apply through_log|intros _]. apply through_ret.
Qed.

End GuardedThrough.

Lemma tryFinally_outcome {A} (m : M A) (cleanup : M unit) w :
  runsThrough cleanup ->
  faults (snd (m w)) = [] ->
  fst (tryFinally m cleanup w) = fst (m w)
  /\ faults (snd (tryFinally m cleanup w)) = []
  /\ MemStorage.olxCodes (storage (snd (tryFinally m cleanup w)))
     = MemStorage.olxCodes (storage (snd (m w)))
  /\ (forall id, job id (snd (m w)) <> None -> job id (snd (tryFinally m cleanup w)) <> None).
Proof.
  intros Hc F. destruct (Hc _ F) as (([] & E) & F2 & C2 & J2).
  unfold tryFinally. destruct (m w) as [r w1]. cbn [fst snd] in *.
  destruct (cleanup w1) as [r2 w2]. cbn [fst snd] in *. subst r2. cbn [fst snd].
  repeat split; assumption.
Qed.

Ltac quiet :=
  repeat lazymatch goal with
    | |- runsThrough (Guarded.log _ _ _ _) => apply through_log
    | |- runsThrough (Guarded.updateProgress _ _ _ _) => apply through_updateProgress
    | |- runsThrough (bind _ _) => apply through_bind; [|intros ?]
    | |- runsThrough (ret _) => apply through_ret
    | |- runsThrough (gets _) => apply through_gets
    | |- runsThrough (sleep _) => apply through_sleep
    | |- runsThrough (updateAutomation _ _) => apply through_updateAutomation
    | |- runsThrough (match ?x with _ => _ end) => destruct x
    | |- runsThrough (let _ := _ in _) => cbv zeta
    end.

Section GuardedQuiet.

Variable randomBelow : Z -> Z.
Variable cwd : str.
Variable pathJoin : list str -> str.

Local Abbreviation try_ := (Guarded.startAutomationTry randomBelow cwd pathJoin).
Local Abbreviation start := (Guarded.startAutomation randomBelow cwd pathJoin).

(** [createOLXListing] over a browser that works: it rejects when the table
    has no row with the OLX code of the job, and returns otherwise. *)
Lemma listing_outcome propertyData automation photoPaths automationId w :
  faults w = [] ->
  faults (snd (Guarded.createOLXListing propertyData automation photoPaths automationId w)) = []
  /\ (forall id, job id w <> None ->
                 job id (snd (Guarded.createOLXListing propertyData automation photoPaths
                                                       automationId w)) <> None)
  /\ fst (Guarded.createOLXListing propertyData automation photoPaths automationId w)
     = match MemStorage.getOlxCodeByCode (Automation.olxCode automation) (storage w) with
       | None => Throw (JsError (Guarded.msgOlxCodeNotFound (Automation.olxCode automation)))
       | Some _ => Ok tt
       end.
Proof.
  intros F. unfold Guarded.createOLXListing.
  destruct (through_getBrowser w F) as (([] & E1) & F1 & C1 & J1).
  rewrite (bind_ok Guarded.getBrowser _ w E1).
  destruct (through_newPage _ F1) as (([] & E2) & F2 & C2 & J2).
  rewrite (bind_ok Guarded.newPage _ _ E2).
  set (w2 := snd (Guarded.newPage (snd (Guarded.getBrowser w)))) in *.
  assert (C : MemStorage.getOlxCodeByCode (Automation.olxCode automation) (storage w2)
              = MemStorage.getOlxCodeByCode (Automation.olxCode automation) (storage w))
    by (unfold MemStorage.getOlxCodeByCode; rewrite C2, C1; reflexivity).
  rewrite <- C.
  assert (J : forall id, job id w <> None -> job id w2 <> None) by auto.
  clearbody w2. clear E1 F1 C1 J1 E2 C2 J2 C.
  match goal with
  | |- context [tryFinally ?body Guarded.closePage w2] =>
      assert (B : faults (snd (body w2)) = []
                  /\ (forall id, job id w2 <> None -> job id (snd (body w2)) <> None)
                  /\ fst (body w2)
                     = match MemStorage.getOlxCodeByCode (Automation.olxCode automation)
                                                         (storage w2) with
                       | None => Throw (JsError (Guarded.msgOlxCodeNotFound
                                                   (Automation.olxCode automation)))
                       | Some _ => Ok tt
                       end);
      [|destruct B as (FB & JB & OB);
        destruct (tryFinally_outcome body w2 through_closePage FB) as (O & FT & _ & JT);
        split; [exact FT|]; split; [intros id H; apply JT, JB, J, H|];
        rewrite O; exact OB]
  end.
  destruct (@through_log Level.info (lit "Navigating to OLX Pro") (Some automationId) None w2 F2)
    as (([] & E3) & F3 & C3 & J3).
  rewrite (bind_ok (Guarded.log _ _ _ _) _ w2 E3).
  rewrite (bind_ok (sleep 3000) _ _ (a:=tt) eq_refl).
  unfold getOlxCodeByCode at 1 2 3.
  rewrite (bind_ok (gets _) _ _ eq_refl).
  cbn [snd gets sleep ret].
  set (w3 := snd (Guarded.log Level.info (lit "Navigating to OLX Pro") (Some automationId)
                              None w2)) in *.
  assert (C : MemStorage.getOlxCodeByCode (Automation.olxCode automation) (storage w3)
              = MemStorage.getOlxCodeByCode (Automation.olxCode automation) (storage w2))
    by (unfold MemStorage.getOlxCodeByCode; rewrite C3; reflexivity).
  rewrite C.
  destruct (MemStorage.getOlxCodeByCode (Automation.olxCode automation) (storage w2))
    as [olxCode|].
  - match goal with
    | |- context [fst (?rest w3)] =>
        assert (T : runsThrough rest) by quiet;
        destruct (T w3 F3) as (([] & E4) & F4 & _ & J4)
    end.
    split; [exact F4|]. split; [intros id H; apply J4, J3, H|exact E4].
  - cbn [throw fst snd]. split; [exact F3|]. split; [exact J3|reflexivity].
Qed.

Ltac pass :=
  match goal with
  | F : faults ?w = [], J : job ?id ?w <> None |- context [bind ?m ?k ?w] =>
      let T := fresh "T" in
      assert (T : runsThrough m)
        by first [ apply through_extractPropertyData | apply through_downloadPhotos | quiet ];
      let a := fresh "a" in let E := fresh "E" in let F' := fresh "F" in
      let C' := fresh "C" in let J' := fresh "J" in
      destruct (T w F) as ((a & E) & F' & C' & J');
      rewrite (bind_ok m k w E); cbv beta;
      specialize (J' id J);
      try match goal with
          | G : MemStorage.olxCodes (storage w) = _ |- _ => rewrite <- C' in G
          end;
      clear T E C' F J;
      generalize dependent (snd (m w)); intros ?w; intros
  end.

Lemma try_outcome id w a :
  faults w = [] ->
  job id w = Some a ->
  match MemStorage.getOlxCodeByCode (Automation.olxCode a) (storage w) with
  | None =>
      fst (try_ id w) = Throw (JsError (Guarded.msgOlxCodeNotFound (Automation.olxCode a)))
  | Some _ =>
      fst (try_ id w) = Ok tt
      /\ exists a', job id (snd (try_ id w)) = Some a'
                    /\ Automation.status a' = lit "completed"
                    /\ Automation.progress a' = Some 100%Z
  end.
Proof.
  intros F Ha. unfold Guarded.startAutomationTry.
  rewrite (bind_ok (getAutomation id) _ w (a:=job id w) eq_refl). rewrite Ha. cbn [snd gets getAutomation].
  assert (J : job id w <> None) by (rewrite Ha; discriminate).
  unfold MemStorage.getOlxCodeByCode.
  remember (MemStorage.olxCodes (storage w)) as codes eqn:G. symmetry in G.
  clear Ha.
  do 9 pass.
  match goal with
  | F : faults ?w = [], J : job id ?w <> None
    |- context [bind (Guarded.createOLXListing ?p ?au ?ph ?i) ?k ?w] =>
      destruct (listing_outcome p au ph i w F) as (F' & J' & O);
      specialize (J' id J); unfold MemStorage.getOlxCodeByCode in O; rewrite G in O;
      clear F J G
  end.
  destruct (find _ (JsMap.values codes)) as [olxCode|].
  - rewrite (bind_ok (Guarded.createOLXListing _ _ _ _) _ _ O). cbv beta.
    clear O.
    match goal with
    | |- context [snd (Guarded.createOLXListing ?p ?au ?ph ?i ?w)] =>
        generalize dependent (snd (Guarded.createOLXListing p au ph i w))
    end.
    intros w9 F J.
    do 2 pass.
    rewrite (bind_ok (updateAutomation id _) _ _ (a:=tt) eq_refl).
    split; [reflexivity|].
    match goal with
    | J : job id ?w <> None |- _ => destruct (job id w) as [a'|] eqn:Ja; [|contradiction]
    end.
    match goal with
    | |- exists _, job id (snd (Guarded.log _ _ _ _ (snd (updateAutomation id ?u ?w)))) = _ /\ _ =>
        exists (Automation.spread a' u); split; [|split; reflexivity];
        change (job id (snd (updateAutomation id u w)) = Some (Automation.spread a' u));
        apply (job_after_update id u w Ja)
    end.
  - rewrite (bind_thrown (Guarded.createOLXListing _ _ _ _) _ _ O). reflexivity.
Qed.

End GuardedQuiet.

(** X27: in the [Guarded] variant, a run of a job that is not running, over
    a browser and a file system that do not fail, ends in one of two ways:
    the job is completed with progress 100 when the table of OLX codes has a
    row with the OLX code of the job, and failed with the message that this
    code was not found when it has none. *)
Theorem a_guarded_run_completes_when_its_code_is_known :
  forall (randomBelow : Z -> Z) (cwd : str) (pathJoin : list str -> str)
         (id : N) (w : World) (a : Automation.t),
    job id w = Some a ->
    JsMap.has N.eqb id (activeAutomations w) = false ->
    faults w = [] ->
    let w' := snd (Guarded.startAutomation randomBelow cwd pathJoin id w) in
    exists a',
      job id w' = Some a'
      /\ match MemStorage.getOlxCodeByCode (Automation.olxCode a) (storage w) with
         | Some _ =>
             Automation.status a' = lit "completed"
             /\ Automation.progress a' = Some 100%Z
         | None =>
             Automation.status a' = lit "failed"
             /\ Automation.errorMessage a'
                = Some (Guarded.msgOlxCodeNotFound (Automation.olxCode a))
         end.
Proof.
  intros randomBelow cwd pathJoin id w a Ha H F w'.
  pose proof (@try_outcome randomBelow cwd pathJoin id (snd (setActive id w)) a F Ha) as T.
  change (storage (snd (setActive id w))) with (storage w) in T.
  destruct (MemStorage.getOlxCodeByCode (Automation.olxCode a) (storage w)) as [olxCode|].
  - destruct T as (T & a' & J & S & P). exists a'. split; [|split; assumption].
    unfold w'. rewrite (Guarded_start_unfold randomBelow cwd pathJoin id w H). cbv zeta.
    rewrite T. exact J.
  - destruct (Guarded_failed randomBelow cwd pathJoin id w Ha H T) as (a' & J & S & M).
    exists a'. split; [exact J|]. split; [exact S|exact M].
Qed.

Lemma the_guarded_run_of_the_ready_job_completes :
  exists a',
    job 1 (snd (Guarded.startAutomation Sample.randomBelow Sample.cwd Sample.pathJoin 1
                                        Sample.ready)) = Some a'
    /\ Automation.status a' = lit "completed"
    /\ Automation.progress a' = Some 100%Z.
Proof.
  exact (@a_guarded_run_completes_when_its_code_is_known Sample.randomBelow Sample.cwd
           Sample.pathJoin 1%N Sample.ready Sample.job eq_refl eq_refl eq_refl).
Defined.
